(** * Restaking ingestion pipeline: a shallow embedding

    The development follows the layout of the repository:
    - [JS]: the fragment of the JavaScript runtime the pipeline relies on
      (truthiness, [parseInt], [parseFloat], binary64 addition);
    - [Web3Utils]: the unit converter and address check of the web3 package;
    - [DataFetcher]: [utils/dataFetcher.js];
    - [Validator], [Restaker], [Reward]: the Mongoose models;
    - [DatabasePopulator]: [scripts/fetchData.js];
    - [Reference], [Sample]: the notions the statements are written with
      and the data the examples run on. *)

From Stdlib Require Import ZArith List String Ascii Bool Lia.
From stdpp Require Import base gmap strings list.

Local Open Scope Z_scope.

(** ** The JavaScript fragment *)

Module JS.

(** *** Errors and fallible evaluation *)

Inductive error :=
| TypeError                 (* property read on [undefined] or [null] *)
| InvalidNumberError        (* thrown by the unit converter *)
| RequestError (status : Z) (* rejected HTTP or GraphQL request *).

Inductive result (A : Type) :=
| Ok (a : A)
| Throw (e : error).
Arguments Ok {A} a.
Arguments Throw {A} e.

Definition bind {A B} (r : result A) (k : A -> result B) : result B :=
  match r with
  | Ok a => k a
  | Throw e => Throw e
  end.

(** The value of an evaluation that did not throw. *)
Definition to_option {A} (r : result A) : option A :=
  match r with
  | Ok a => Some a
  | Throw _ => None
  end.

(** [o.f] where [o] may be [undefined] or [null]. *)
Definition deref {A} (o : option A) : result A :=
  match o with
  | Some a => Ok a
  | None => Throw TypeError
  end.

(** *** Numbers (IEEE 754 binary64)

    A finite double is an integer multiple of [2^-1074]; [Fin z] stands
    for [z * 2^-1074].  The two zeros are identified: the code below only
    adds, multiplies, compares and prints numbers and divides by positive
    ones, and none of these tells [-0] from [+0]. *)

Inductive number :=
| NaN
| Inf (neg : bool)
| Fin (z : Z).

(** Nearest integer to [p / q] for [0 <= p] and [0 < q], ties to even. *)
Definition round_half_even (p q : Z) : Z :=
  let d := p / q in
  let r := p mod q in
  if 2 * r <? q then d
  else if q <? 2 * r then d + 1
  else if Z.even d then d else d + 1.

(** Exponent of the spacing between doubles around [d * 2^-1074]:
    spacing is [2^-1074] up to [2^53] units and doubles with each binade. *)
Definition ulp_exp (d : Z) : Z := Z.max 0 (Z.log2 d - 52).

(** Round-to-nearest-even of the non-negative rational
    [(p / q) * 2^-1074], overflowing to infinity from [2^1024]. *)
Definition round_binary64 (p q : Z) : number :=
  let e := ulp_exp (p / q) in
  let z := round_half_even p (q * 2 ^ e) * 2 ^ e in
  if z <? 2 ^ 2098 then Fin z else Inf false.

Definition of_rational (neg : bool) (p q : Z) : number :=
  match round_binary64 p q with
  | Fin z => Fin (if neg then - z else z)
  | Inf _ => Inf neg
  | NaN => NaN
  end.

(** The double nearest to [n * 10^x], [0 <= n]. *)
Definition of_decimal (neg : bool) (n x : Z) : number :=
  if 0 <=? x then of_rational neg (n * 10 ^ x * 2 ^ 1074) 1
  else of_rational neg (n * 2 ^ 1074) (10 ^ (- x)).

Definition of_Z (n : Z) : number := of_decimal (n <? 0) (Z.abs n) 0.

(** [a + b] *)
Definition fadd (a b : number) : number :=
  match a, b with
  | NaN, _ | _, NaN => NaN
  | Inf s, Inf t => if Bool.eqb s t then Inf s else NaN
  | Inf s, Fin _ | Fin _, Inf s => Inf s
  | Fin x, Fin y => of_rational (x + y <? 0) (Z.abs (x + y)) 1
  end.

(** [a * b] *)
Definition fmul (a b : number) : number :=
  match a, b with
  | NaN, _ | _, NaN => NaN
  | Inf s, Inf t => Inf (xorb s t)
  | Inf s, Fin y | Fin y, Inf s =>
      if y =? 0 then NaN else Inf (xorb s (y <? 0))
  | Fin x, Fin y => of_rational (x * y <? 0) (Z.abs (x * y)) (2 ^ 1074)
  end.

(** [a / b] *)
Definition fdiv (a b : number) : number :=
  match a, b with
  | NaN, _ | _, NaN => NaN
  | Inf _, Inf _ => NaN
  | Inf s, Fin y => Inf (xorb s (y <? 0))
  | Fin _, Inf _ => Fin 0
  | Fin x, Fin y =>
      if y =? 0 then
        if x =? 0 then NaN else Inf (x <? 0)
      else of_rational (xorb (x <? 0) (y <? 0))
                       (Z.abs x * 2 ^ 1074) (Z.abs y)
  end.

(** [a > 0] *)
Definition gt_zero (a : number) : bool :=
  match a with
  | NaN => false
  | Inf neg => negb neg
  | Fin z => 0 <? z
  end.

(** *** Strings *)

Definition is_white_space (c : ascii) : bool :=
  match N_of_ascii c with
  | 9%N | 10%N | 11%N | 12%N | 13%N | 32%N => true
  | _ => false
  end.

Fixpoint skip_white_space (s : string) : string :=
  match s with
  | String c r => if is_white_space c then skip_white_space r else s
  | EmptyString => s
  end.

Definition digit_val (c : ascii) : option Z :=
  let n := Z.of_N (N_of_ascii c) in
  if (48 <=? n) && (n <=? 57) then Some (n - 48) else None.

Definition hex_val (c : ascii) : option Z :=
  let n := Z.of_N (N_of_ascii c) in
  if (48 <=? n) && (n <=? 57) then Some (n - 48)
  else if (97 <=? n) && (n <=? 102) then Some (n - 87)
  else if (65 <=? n) && (n <=? 70) then Some (n - 55)
  else None.

(** Reads the longest run of digits in the given radix at the head of
    [s], continuing the numeral [acc]; returns the numeral, the number
    of digits read and the unread rest. *)
Fixpoint read_digits (dv : ascii -> option Z) (radix : Z) (s : string)
    (acc : Z) (cnt : nat) : Z * nat * string :=
  match s with
  | String c r =>
      match dv c with
      | Some d => read_digits dv radix r (acc * radix + d) (S cnt)
      | None => (acc, cnt, s)
      end
  | EmptyString => (acc, cnt, s)
  end.

Definition read_sign (s : string) : bool * string :=
  match s with
  | String "-" r => (true, r)
  | String "+" r => (false, r)
  | _ => (false, s)
  end.

(** [parseFloat(s)]: leading white space is skipped and the longest
    prefix that is a decimal literal is converted; [NaN] when there is
    none.  Only ASCII white space is recognised. *)
Definition parseFloat_string (s : string) : number :=
  let '(neg, s0) := read_sign (skip_white_space s) in
  if String.prefix "Infinity" s0 then Inf neg
  else
    let '(ip, ic, s1) := read_digits digit_val 10 s0 0 O in
    let '(mant, fc, s2) :=
      match s1 with
      | String "." r => read_digits digit_val 10 r ip O
      | _ => (ip, O, s1)
      end in
    if Nat.eqb (ic + fc) 0 then NaN
    else
      let ex :=
        match s2 with
        | String c r =>
            if Ascii.eqb c "e" || Ascii.eqb c "E" then
              let '(eneg, r0) := read_sign r in
              let '(ev, ec, _) := read_digits digit_val 10 r0 0 O in
              if Nat.eqb ec 0 then 0 else if eneg then - ev else ev
            else 0
        | EmptyString => 0
        end in
      of_decimal neg mant (ex - Z.of_nat fc).

(** [parseInt(x)] with no radix argument; [x] is a string or
    [undefined] (whose string form holds no digit). *)
Definition parseInt (x : option string) : number :=
  match x with
  | None => NaN
  | Some s =>
      let '(neg, s0) := read_sign (skip_white_space s) in
      let '(n, cnt, _) :=
        match s0 with
        | String "0" (String c r) =>
            if Ascii.eqb c "x" || Ascii.eqb c "X"
            then read_digits hex_val 16 r 0 O
            else read_digits digit_val 10 s0 0 O
        | _ => read_digits digit_val 10 s0 0 O
        end in
      if Nat.eqb cnt 0 then NaN else of_decimal neg n 0
  end.

(** The text of a string value.  A string that the program obtains from
    [Number.prototype.toString] is kept as [OfNumber x]: the decimal
    digits ECMAScript prints for [x] are the shortest that read back as
    [x], so [parseFloat] of that text is [x] again (the zeros being
    identified), and this is the only way the code consumes such text. *)
Inductive text :=
| Lit (s : string)
| OfNumber (x : number).

Definition parseFloat (t : text) : number :=
  match t with
  | Lit s => parseFloat_string s
  | OfNumber x => x
  end.

Definition lower_ascii (c : ascii) : ascii :=
  let n := N_of_ascii c in
  if (65 <=? n)%N && (n <=? 90)%N then ascii_of_N (n + 32) else c.

(** [s.toLowerCase()] on ASCII letters. *)
Fixpoint toLowerCase (s : string) : string :=
  match s with
  | String c r => String (lower_ascii c) (toLowerCase r)
  | EmptyString => EmptyString
  end.

(** [s.includes(sub)] *)
Fixpoint includes (s sub : string) : bool :=
  String.prefix sub s ||
  match s with
  | String _ r => includes r sub
  | EmptyString => false
  end.

(** Truthiness of an optional string ([undefined], [null] and the empty
    string are falsy) and of an optional number. *)
Definition truthy_string (x : option string) : option string :=
  match x with
  | Some EmptyString => None
  | _ => x
  end.

Definition truthy_Z (x : option Z) : option Z :=
  match x with
  | Some 0 => None
  | _ => x
  end.

(** [a || b] on optional values already reduced to their truthy part. *)
Definition or_else {A} (a b : option A) : option A :=
  match a with
  | Some x => Some x
  | None => b
  end.

(** *** Dates: the time value in milliseconds, [None] for an invalid date *)

Definition Date := option Z.

Definition new_Date (x : number) : Date :=
  match x with
  | Fin z =>
      let ms := Z.quot z (2 ^ 1074) in
      if Z.abs ms <=? 8640000000000000 then Some ms else None
  | _ => None
  end.

End JS.

(** ** Regular expressions of the shape used for addresses *)

Module Regex.

Inductive re :=
| Chr (c : ascii)                        (* a literal character *)
| Class (ranges : list (ascii * ascii))  (* [a-bc-d...] *)
| Seq (r1 r2 : re)                       (* r1 r2 *)
| Rep (n : nat) (r : re).                (* r{n} *)

Definition in_range (c : ascii) (rg : ascii * ascii) : bool :=
  (N_of_ascii (fst rg) <=? N_of_ascii c)%N
  && (N_of_ascii c <=? N_of_ascii (snd rg))%N.

(** [matches r cs]: the whole of [cs] is matched by [r], as for a pattern
    written between [^] and [$]. *)
Inductive matches : re -> list ascii -> Prop :=
| m_chr c : matches (Chr c) [c]
| m_class ranges c :
    existsb (in_range c) ranges = true -> matches (Class ranges) [c]
| m_seq r1 r2 s1 s2 :
    matches r1 s1 -> matches r2 s2 -> matches (Seq r1 r2) (s1 ++ s2)
| m_rep_O r : matches (Rep O r) []
| m_rep_S n r s1 s2 :
    matches r s1 -> matches (Rep n r) s2 -> matches (Rep (S n) r) (s1 ++ s2).

(** [/^0x[0-9a-fA-F]{40}$/] *)
Definition address_pattern : re :=
  Seq (Chr "0")
      (Seq (Chr "x")
           (Rep 40 (Class [("0", "9"); ("a", "f"); ("A", "F")]%char))).

End Regex.

(** ** The web3 utilities used by [DataFetcher] *)

Module Web3Utils.
Import JS.

Definition is_digit (c : ascii) : bool :=
  match digit_val c with Some _ => true | None => false end.

Definition is_hex_digit (c : ascii) : bool :=
  match hex_val c with Some _ => true | None => false end.

(** Value of a numeral given by its digits, most significant first. *)
Definition numeral (ds : list ascii) : Z :=
  fold_left (fun acc c => acc * 10 + default 0 (digit_val c)) ds 0.

Definition digit_char (d : Z) : ascii := ascii_of_N (Z.to_N (48 + d)).

(** The [w] low-order decimal digits of [n], most significant first. *)
Fixpoint digits_fixed (w : nat) (n : Z) : list ascii :=
  match w with
  | O => []
  | S w' => digits_fixed w' (n / 10) ++ [digit_char (n mod 10)]
  end.

Fixpoint strip_leading_zeros (ds : list ascii) : list ascii :=
  match ds with
  | c :: r => if Ascii.eqb c "0" then strip_leading_zeros r else ds
  | [] => []
  end.

Definition strip_trailing_zeros (ds : list ascii) : list ascii :=
  rev (strip_leading_zeros (rev ds)).

(** Decimal numeral of [0 <= n] without leading zeros. *)
Definition digits_of (n : Z) : list ascii :=
  match strip_leading_zeros (digits_fixed (S (Z.to_nat (Z.log2 n))) n) with
  | [] => ["0"%char]
  | ds => ds
  end.

(** Number of decimals of the unit ["ether"]. *)
Definition ether_decimals : nat := 18.

(** Splits at the first ["."]. *)
Fixpoint split_point (cs : list ascii) : list ascii * option (list ascii) :=
  match cs with
  | [] => ([], None)
  | c :: r =>
      if Ascii.eqb c "." then ([], Some r)
      else let '(i, f) := split_point r in (c :: i, f)
  end.

(** Modelled from the spec: [web3.utils.fromWei(amount, "ether")], which
    belongs to the web3 package and is not part of the repository.  Per
    section 4.2 it maps a base-unit integer string to the decimal string
    of the same amount in 18-decimal fixed point, and fails with an
    invalid-amount error on anything that is not a numeric string. The
    result carries no insignificant zero. *)
Definition fromWei (amount : option string) : result string :=
  match amount with
  | None => Throw InvalidNumberError
  | Some s =>
      let cs := list_ascii_of_string s in
      if negb (Nat.eqb (List.length cs) 0) && forallb is_digit cs then
        let n := numeral cs in
        let i := digits_of (n / 10 ^ Z.of_nat ether_decimals) in
        let f := strip_trailing_zeros
                   (digits_fixed ether_decimals
                      (n mod 10 ^ Z.of_nat ether_decimals)) in
        Ok (string_of_list_ascii
              (match f with [] => i | _ => i ++ "."%char :: f end))
      else Throw InvalidNumberError
  end.

(** Modelled from the spec: [web3.utils.toWei(amount, "ether")], the
    converse conversion of section 4.2: a decimal string with at most 18
    decimals is scaled to the base-unit integer string; any other input
    is an invalid amount. *)
Definition toWei (amount : option string) : result string :=
  match amount with
  | None => Throw InvalidNumberError
  | Some s =>
      let '(i, f) := split_point (list_ascii_of_string s) in
      let f' := default [] f in
      if negb (Nat.eqb (List.length i) 0) && forallb is_digit i
         && match f with Some [] => false | _ => true end
         && forallb is_digit f'
         && (List.length f' <=? ether_decimals)%nat
      then
        Ok (string_of_list_ascii
              (digits_of
                 (numeral i * 10 ^ Z.of_nat ether_decimals
                  + numeral f'
                    * 10 ^ Z.of_nat (ether_decimals - List.length f'))))
      else Throw InvalidNumberError
  end.

(** Modelled from the spec: [web3.utils.isAddress(address)], also part of
    the web3 package.  Section 4.2 gives its format: ["0x"] followed by 40
    hexadecimal digits of either case. *)
Definition isAddress (address : string) : bool :=
  match address with
  | String "0" (String "x" r) =>
      let hs := list_ascii_of_string r in
      Nat.eqb (List.length hs) 40 && forallb is_hex_digit hs
  | _ => false
  end.

End Web3Utils.

(** ** Retry executor ([DataFetcher.retryOperation]) *)

Module Retry.

Section WithOperation.
(** [W] is the outside world an asynchronous operation runs against, [E]
    the type of rejections and [T] the type of resolved values. *)
Context {W E T : Type}.

Definition operation := W -> (E + T) * W.

(** What an [await retryOperation(...)] can end with.  The [for] loop may
    fall through without executing a [return] or a [throw]; the promise
    then resolves with [undefined]. *)
Inductive completion :=
| Returned (v : T)
| Thrown (e : E)
| ReturnedUndefined.

(** Observable effects, in program order. *)
Inductive event :=
| EvCall
| EvLogFailed (attempt : Z)
| EvDelay (ms : Z).

Record run := Run { outcome : completion; world : W; trace : list event }.

(** The loop [for (let attempt = 1; attempt <= maxRetries; attempt++)],
    entered with the current value of [attempt].  It runs at most
    [maxRetries] times, which bounds the recursion. *)
Fixpoint retry_loop (fuel : nat) (op : operation) (maxRetries retryDelay : Z)
    (attempt : Z) (w : W) (tr : list event) : run :=
  match fuel with
  | O => Run ReturnedUndefined w tr
  | S fuel' =>
      if attempt <=? maxRetries then
        match op w with
        | (inr v, w') => Run (Returned v) w' (tr ++ [EvCall])
        | (inl e, w') =>
            if attempt =? maxRetries then
              Run (Thrown e) w' (tr ++ [EvCall; EvLogFailed attempt])
            else
              retry_loop fuel' op maxRetries retryDelay (attempt + 1) w'
                (tr ++ [EvCall; EvLogFailed attempt;
                        EvDelay (retryDelay * attempt)])
        end
      else Run ReturnedUndefined w tr
  end.

Definition retryOperation (op : operation) (maxRetries retryDelay : Z)
    (w : W) : run :=
  retry_loop (Z.to_nat maxRetries) op maxRetries retryDelay 1 w [].

(** Number of times the operation was invoked, and the delays slept. *)
Definition is_call (ev : event) : bool :=
  match ev with EvCall => true | _ => false end.

Definition invocations (r : run) : nat :=
  List.length (List.filter is_call (trace r)).

Definition delay_of (ev : event) : option Z :=
  match ev with EvDelay ms => Some ms | _ => None end.

Definition delays (r : run) : list Z := omap delay_of (trace r).

(** Reference semantics of repeated invocation: the world before the
    [n]-th consecutive call (counting from 0) and what that call yields. *)
Fixpoint world_before (op : operation) (w : W) (n : nat) : W :=
  match n with
  | O => w
  | S n' => world_before op (snd (op w)) n'
  end.

Definition nth_result (op : operation) (w : W) (n : nat) : E + T :=
  fst (op (world_before op w n)).

End WithOperation.

(** Trace of [k] failed attempts numbered from [a], each followed by its
    back-off delay. *)
Definition failed_rounds (retryDelay a : Z) (k : nat) : list event :=
  flat_map (fun j => [EvCall; EvLogFailed j; EvDelay (retryDelay * j)])
           (seqZ a (Z.of_nat k)).

(** An operation that rejects twice before it resolves; the world counts
    the calls made. *)
Definition flaky (calls : nat) : (string + Z) * nat :=
  (if (calls <? 2)%nat then inl "ECONNRESET"%string else inr 42, S calls).

Arguments completion : clear implicits.
Arguments run : clear implicits.
Arguments operation : clear implicits.

End Retry.

(** ** [utils/dataFetcher.js] *)

Module DataFetcher.
Import JS.

Notation "'let*' x ':=' r 'in' k" := (bind r (fun x => k))
  (at level 10, x name, r at level 100, k at level 200, only parsing).

(** *** Configuration *)

(** The variables of [process.env] read by the fetcher. *)
Record Env := {
  STETH_STRATEGY_ADDRESS : option string;
  RATED_API_KEY : option string;
}.

(** The fields set by the constructor. *)
Record t := {
  eigenlayerSubgraphUrl : string;
  ratedApiUrl : string;
  maxRetries : Z;
  retryDelay : Z;
}.

(** *** Upstream payloads

    The indexer serialises identifiers, big integers and byte strings as
    JSON strings.  Entity identifiers are never null; any other field
    that is missing or [null] is [None]. *)

Record RawRef := { ref_id : string }.

Record RawDelegation := {
  d_delegator : option RawRef;
  d_operator : option RawRef;
  d_shares : option string;
  d_createdAt : option string;
  d_transactionHash : option string;
  d_blockNumber : option string;
}.

Record RawDeposit := {
  dep_shares : option string;
  dep_strategy : option RawRef;
  dep_transactionHash : option string;
  dep_blockNumber : option string;
  dep_createdAt : option string;
}.

Record RawStaker := {
  st_id : string;
  st_deposits : option (list RawDeposit);
}.

Record RestakingPayload := {
  delegations : option (list RawDelegation);
  stakers : option (list RawStaker);
}.

Record RawOperator := {
  op_id : string;
  op_metadataURI : option string;
  op_totalShares : option string;
  op_createdAt : option string;
}.

Record RawSlashing := {
  sl_operator : option RawRef;
  sl_amount : option string;
  sl_createdAt : option string;
  sl_transactionHash : option string;
  sl_blockNumber : option string;
}.

Record ValidatorPayload := {
  operators : option (list RawOperator);
  slashings : option (list RawSlashing);
}.

(** One item of the rewards service; numbers are JSON integers. *)
Record RawReward := {
  rw_amount : option string;
  rw_value : option string;
  rw_operator : option string;
  rw_validator : option string;
  rw_timestamp : option Z;
  rw_block_time : option Z;
  rw_tx_hash : option string;
  rw_block_number : option Z;
}.

(** [rewards] is [None] when the field is missing or not an array. *)
Record RatedPayload := { rewards : option (list RawReward) }.

(** *** Normalised records *)

Record RestakerData := {
  userAddress : string;
  amountRestakedStETH : string;
  targetAVSOperatorAddress : string;
  delegationTimestamp : Date;
  transactionHash : option string;
  blockNumber : number;
  status : string;
}.

Record SlashEvent := {
  se_timestamp : number;
  se_amountStETH : string;
  se_reason : string;
  se_transactionHash : option string;
  se_blockNumber : number;
}.

Record ValidatorData := {
  operatorAddress : string;
  totalDelegatedStakeStETH : string;
  slashHistory : list SlashEvent;
  v_status : string;
  registrationTimestamp : Date;
  lastActivityTimestamp : Date;
  delegatorCount : Z;
  commission : Z;
  metadataURI : option string;
}.

Record RewardBreakdown := {
  rb_operatorAddress : string;
  rb_amountStETH : text;
  rb_timestamps : list Z;
  rb_transactionHashes : list string;
  rb_blockNumbers : list Z;
}.

Record RewardData := {
  walletAddress : string;
  totalRewardsReceivedStETH : text;
  rewardsBreakdown : list RewardBreakdown;
}.

(** *** Loops whose body may throw *)

(** [l.forEach(f)] threading the state the callback mutates. *)
Fixpoint forEachM {A S} (f : S -> A -> result S) (l : list A) (s : S)
    : result S :=
  match l with
  | [] => Ok s
  | a :: r => let* s' := f s a in forEachM f r s'
  end.

(** [l.filter(p)] *)
Fixpoint filterM {A} (p : A -> result bool) (l : list A)
    : result (list A) :=
  match l with
  | [] => Ok []
  | a :: r =>
      let* keep := p a in
      let* r' := filterM p r in
      Ok (if keep : bool then a :: r' else r')
  end.

(** *** [transformRestakingData] *)

(** The accumulator [restakers] together with what [console.error]
    received from the [catch] blocks. *)
Definition acc := (list RestakerData * list error)%type.

(** Body of the [try] block for one delegation. *)
Definition transform_delegation (delegation : RawDelegation)
    : result RestakerData :=
  let* sharesInEther := Web3Utils.fromWei (d_shares delegation) in
  let* delegator := deref (d_delegator delegation) in
  let* operator := deref (d_operator delegation) in
  Ok {| userAddress := ref_id delegator;
        amountRestakedStETH := sharesInEther;
        targetAVSOperatorAddress := ref_id operator;
        delegationTimestamp :=
          new_Date (fmul (parseInt (d_createdAt delegation)) (of_Z 1000));
        transactionHash := d_transactionHash delegation;
        blockNumber := parseInt (d_blockNumber delegation);
        status := "active" |}.

Definition try_push (a : acc) (r : result RestakerData) : acc :=
  match r with
  | Ok rec => (fst a ++ [rec], snd a)
  | Throw e => (fst a, snd a ++ [e])
  end.

Definition is_stETH_deposit (env : Env) (deposit : RawDeposit)
    : result bool :=
  let* strategy := deref (dep_strategy deposit) in
  let id := ref_id strategy in
  Ok (includes (toLowerCase id) "steth"
      || match STETH_STRATEGY_ADDRESS env with
         | Some a => String.eqb id (toLowerCase a)
         | None => false
         end).

(** Body of the [try] block for one stETH deposit of [staker]. *)
Definition transform_deposit (staker : RawStaker) (deposit : RawDeposit)
    : result RestakerData :=
  let* sharesInEther := Web3Utils.fromWei (dep_shares deposit) in
  Ok {| userAddress := st_id staker;
        amountRestakedStETH := sharesInEther;
        targetAVSOperatorAddress :=
          "0x0000000000000000000000000000000000000000";
        delegationTimestamp :=
          new_Date (fmul (parseInt (dep_createdAt deposit)) (of_Z 1000));
        transactionHash := dep_transactionHash deposit;
        blockNumber := parseInt (dep_blockNumber deposit);
        status := "active" |}.

Definition process_staker (env : Env) (a : acc) (staker : RawStaker)
    : result acc :=
  let* deposits := deref (st_deposits staker) in
  let* stETHDeposits := filterM (is_stETH_deposit env) deposits in
  Ok (fold_left
        (fun a deposit => try_push a (transform_deposit staker deposit))
        stETHDeposits a).

Definition transformRestakingData_logged (env : Env)
    (data : RestakingPayload) : result acc :=
  let a0 : acc := ([], []) in
  let a1 :=
    match delegations data with
    | Some ds =>
        fold_left
          (fun a delegation => try_push a (transform_delegation delegation))
          ds a0
    | None => a0
    end in
  match stakers data with
  | Some ss => forEachM (process_staker env) ss a1
  | None => Ok a1
  end.

Definition transformRestakingData (env : Env) (data : RestakingPayload)
    : result (list RestakerData) :=
  let* a := transformRestakingData_logged env data in Ok (fst a).

(** *** [transformValidatorData] *)

(** One round of the loop over [data.slashings]; no [try] surrounds it. *)
Definition add_slashing (slashingMap : gmap string (list SlashEvent))
    (slash : RawSlashing) : result (gmap string (list SlashEvent)) :=
  let* operator := deref (sl_operator slash) in
  let key := ref_id operator in
  let m :=
    match slashingMap !! key with
    | None => <[key := []]> slashingMap
    | Some _ => slashingMap
    end in
  let* amount := Web3Utils.fromWei (sl_amount slash) in
  Ok (<[key :=
         default [] (m !! key)
           ++ [{| se_timestamp := parseInt (sl_createdAt slash);
                  se_amountStETH := amount;
                  se_reason := "Protocol violation";
                  se_transactionHash := sl_transactionHash slash;
                  se_blockNumber := parseInt (sl_blockNumber slash) |}]]> m).

(** Body of the [try] block for one operator; [now] is [new Date()]. *)
Definition transform_operator (now : Z)
    (slashingMap : gmap string (list SlashEvent))
    (operator : RawOperator) : result ValidatorData :=
  let* totalStake := Web3Utils.fromWei
      (Some (default "0"%string (truthy_string (op_totalShares operator)))) in
  let slashHistory := default [] (slashingMap !! op_id operator) in
  let hasBeenSlashed := (0 <? List.length slashHistory)%nat in
  Ok {| operatorAddress := op_id operator;
        totalDelegatedStakeStETH := totalStake;
        slashHistory := slashHistory;
        v_status := if hasBeenSlashed then "slashed" else "active";
        registrationTimestamp :=
          new_Date (fmul (parseInt (op_createdAt operator)) (of_Z 1000));
        lastActivityTimestamp := Some now;
        delegatorCount := 0;
        commission := 0;
        metadataURI := op_metadataURI operator |}.

Definition try_push_validator (vs : list ValidatorData)
    (r : result ValidatorData) : list ValidatorData :=
  match r with
  | Ok v => vs ++ [v]
  | Throw _ => vs
  end.

Definition transformValidatorData (now : Z) (data : ValidatorPayload)
    : result (list ValidatorData) :=
  let* slashingMap := match slashings data with
    | Some sl => forEachM add_slashing sl ∅
    | None => Ok ∅
    end in
  Ok match operators data with
     | Some ops =>
         fold_left
           (fun vs operator =>
              try_push_validator vs
                (transform_operator now slashingMap operator))
           ops []
     | None => []
     end.

(** *** [transformRatedRewardsData] *)

(** One round of [data.rewards.forEach]; [now] is [Date.now()]. *)
Definition add_reward (now : Z) (st : list RewardBreakdown * text)
    (reward : RawReward) : result (list RewardBreakdown * text) :=
  let '(rewardsBreakdown, totalRewards) := st in
  let amount :=
    default "0"%string
      (or_else (truthy_string (rw_amount reward))
               (truthy_string (rw_value reward))) in
  let operatorAddress :=
    default "0x0000000000000000000000000000000000000000"%string
      (or_else (truthy_string (rw_operator reward))
               (truthy_string (rw_validator reward))) in
  let timestamp :=
    default (now / 1000)
      (or_else (truthy_Z (rw_timestamp reward))
               (truthy_Z (rw_block_time reward))) in
  let* converted := Web3Utils.fromWei (Some amount) in
  let rewardsBreakdown' :=
    rewardsBreakdown ++
    [{| rb_operatorAddress := operatorAddress;
        rb_amountStETH := Lit converted;
        rb_timestamps := [timestamp];
        rb_transactionHashes :=
          match truthy_string (rw_tx_hash reward) with
          | Some h => [h]
          | None => []
          end;
        rb_blockNumbers :=
          match truthy_Z (rw_block_number reward) with
          | Some n => [n]
          | None => []
          end |}] in
  let* again := Web3Utils.fromWei (Some amount) in
  Ok (rewardsBreakdown',
      OfNumber (fadd (parseFloat totalRewards) (parseFloat (Lit again)))).

Definition transformRatedRewardsData (now : Z) (data : RatedPayload)
    (walletAddress : string) : result RewardData :=
  let* st := match rewards data with
    | Some rs => forEachM (add_reward now) rs ([], Lit "0")
    | None => Ok ([], Lit "0")
    end in
  Ok {| walletAddress := toLowerCase walletAddress;
        totalRewardsReceivedStETH := snd st;
        rewardsBreakdown := fst st |}.

(** *** The network *)

(** A paged selection [(first: .., skip: .., orderBy: createdAt,
    orderDirection: desc)]. *)
Record Selection := { sel_first : Z; sel_skip : Z }.

Record OperatorsQuery := {
  q_operators : Selection;
  q_slashings : Selection;
}.

(** The entities held by the indexer, each table listed in descending
    order of creation, which is the order every query asks for. *)
Record Subgraph := {
  sg_operators : list RawOperator;
  sg_slashings : list RawSlashing;
}.

Definition select {A} (sel : Selection) (table : list A) : list A :=
  take (Z.to_nat (sel_first sel)) (drop (Z.to_nat (sel_skip sel)) table).

Definition run_query (sg : Subgraph) (q : OperatorsQuery)
    : ValidatorPayload :=
  {| operators := Some (select (q_operators q) (sg_operators sg));
     slashings := Some (select (q_slashings q) (sg_slashings sg)) |}.

Inductive HttpOutcome :=
| HttpError (status : Z)
| HttpOk (data : option RatedPayload).

(** What the process talks to: the indexer, whose next requests fail as
    [outages] says (one flag per request), the rewards service, which
    answers each URL as [rated] says, the clock, the number of draws
    made from [Math.random], and the URLs requested so far.  The clock is
    the reading of [Date.now()] when a call starts; requests do not
    advance it, so what is stated of two runs takes the clock of each run
    as given and compares what does not depend on it. *)
Record World := {
  indexer : Subgraph;
  outages : list bool;
  rated : string -> HttpOutcome;
  clock : Z;
  draws : nat;
  requested : list string;
}.

Definition request (w : World) (url : string) (q : OperatorsQuery)
    : (error + ValidatorPayload) * World :=
  let w' := {| indexer := indexer w;
               outages := tail (outages w);
               rated := rated w;
               clock := clock w;
               draws := draws w;
               requested := requested w ++ [url] |} in
  match outages w with
  | true :: _ => (inl (RequestError 503), w')
  | _ => (inr (run_query (indexer w) q), w')
  end.

Definition axios_get (w : World) (url : string) : HttpOutcome * World :=
  (rated w url,
   {| indexer := indexer w;
      outages := outages w;
      rated := rated w;
      clock := clock w;
      draws := draws w;
      requested := requested w ++ [url] |}).

(** *** [fetchValidatorData] *)

(** The query document [GetOperators] with its variables bound. *)
Definition GetOperators (first skip : Z) : OperatorsQuery :=
  {| q_operators := {| sel_first := first; sel_skip := skip |};
     q_slashings := {| sel_first := 100; sel_skip := 0 |} |}.

(** The operation handed to [retryOperation]: one request followed by the
    normalisation of its answer. *)
Definition fetch_operation (self : t) (first skip : Z)
    : Retry.operation World error (list ValidatorData) :=
  fun w =>
    let '(resp, w') :=
      request w (eigenlayerSubgraphUrl self) (GetOperators first skip) in
    (match resp with
     | inr data =>
         match transformValidatorData (clock w') data with
         | Ok vs => inr vs
         | Throw e => inl e
         end
     | inl e => inl e
     end, w').

Definition fetchValidatorData (self : t) (first skip : Z) (w : World)
    : Retry.run World error (list ValidatorData) :=
  Retry.retryOperation (fetch_operation self first skip)
    (maxRetries self) (retryDelay self) w.

(** *** [fetchRewardsFromRated] *)

Definition rated_endpoints (address : string) : list string :=
  [("/v1/eigenlayer/rewards/delegator/" ++ address)%string;
   ("/v1/eigenlayer/rewards/rewards?delegator=" ++ address)%string].

(** The loop [for (const endpoint of endpoints)]; [null] is [None]. *)
Fixpoint try_endpoints (self : t) (address : string)
    (endpoints : list string) (w : World) : option RewardData * World :=
  match endpoints with
  | [] => (None, w)
  | endpoint :: rest =>
      let '(response, w') :=
        axios_get w (ratedApiUrl self ++ endpoint)%string in
      match response with
      | HttpOk (Some data) =>
          match transformRatedRewardsData (clock w') data address with
          | Ok r => (Some r, w')
          | Throw _ => try_endpoints self address rest w'
          end
      | HttpOk None => try_endpoints self address rest w'
      | HttpError _ => try_endpoints self address rest w'
      end
  end.

Definition fetchRewardsFromRated (env : Env) (self : t) (address : string)
    (w : World) : option RewardData * World :=
  match truthy_string (RATED_API_KEY env) with
  | None => (None, w)
  | Some _ => try_endpoints self address (rated_endpoints address) w
  end.

(** *** Address check and unit conversion *)

Definition isValidAddress (address : string) : bool :=
  Web3Utils.isAddress address.

Definition toWei (amount : option string) : result string :=
  Web3Utils.toWei amount.

Definition fromWei (amount : option string) : result string :=
  Web3Utils.fromWei amount.

End DataFetcher.

(** ** What [save()] does with a document *)

Module Mongoose.

(** The outcome of [doc.save()], with the document as it is in memory
    afterwards.  Mongoose validates the document against its schema
    before the [pre("save")] hooks of the schema run; a document that
    fails validation makes [save()] reject, and then no hook has run and
    nothing has been written. *)
Inductive saved (A : Type) :=
| Saved (d : A)
| Rejected (d : A).
Arguments Saved {A} d.
Arguments Rejected {A} d.

Definition in_memory {A} (s : saved A) : A :=
  match s with
  | Saved d => d
  | Rejected d => d
  end.

(** The document written to the collection, if any. *)
Definition written {A} (s : saved A) : option A :=
  match s with
  | Saved d => Some d
  | Rejected _ => None
  end.

Definition save {A} (validate : A -> bool) (hook : A -> A) (d : A)
    : saved A :=
  if validate d then Saved (hook d) else Rejected d.

End Mongoose.

(** ** [models/Validator.js] *)

Module Validator.
Import JS.

(** A document of the [validators] collection, with the paths of the
    schema that the pipeline writes. *)
Record doc := {
  operatorAddress : string;
  totalDelegatedStakeStETH : string;
  slashHistory : list DataFetcher.SlashEvent;
  status : string;
  registrationTimestamp : Date;
  lastActivityTimestamp : Date;
  commission : Z;
  delegatorCount : Z;
  lastUpdated : Date;
}.

Definition set_delegatorCount (v : doc) (n : Z) : doc :=
  {| operatorAddress := operatorAddress v;
     totalDelegatedStakeStETH := totalDelegatedStakeStETH v;
     slashHistory := slashHistory v;
     status := status v;
     registrationTimestamp := registrationTimestamp v;
     lastActivityTimestamp := lastActivityTimestamp v;
     commission := commission v;
     delegatorCount := n;
     lastUpdated := lastUpdated v |}.

(** The [pre("save")] hook. *)
Definition pre_save (now : Z) (v : doc) : doc :=
  {| operatorAddress := operatorAddress v;
     totalDelegatedStakeStETH := totalDelegatedStakeStETH v;
     slashHistory := slashHistory v;
     status := status v;
     registrationTimestamp := registrationTimestamp v;
     lastActivityTimestamp := lastActivityTimestamp v;
     commission := commission v;
     delegatorCount := delegatorCount v;
     lastUpdated := Some now |}.

(** The statements of [addSlashEvent(slashData)] that come before
    [save()]: the push and the change of status. *)
Definition push_slash_event (v : doc) (slashData : DataFetcher.SlashEvent)
    : doc :=
  {| operatorAddress := operatorAddress v;
     totalDelegatedStakeStETH := totalDelegatedStakeStETH v;
     slashHistory := slashHistory v ++ [slashData];
     status := if String.eqb (status v) "active" then "slashed"
               else status v;
     registrationTimestamp := registrationTimestamp v;
     lastActivityTimestamp := lastActivityTimestamp v;
     commission := commission v;
     delegatorCount := delegatorCount v;
     lastUpdated := lastUpdated v |}.

(** [addSlashEvent(slashData)], which ends in [return this.save()];
    [validate] is the validation of the schema and [now] the time at which
    the hook runs. *)
Definition addSlashEvent (validate : doc -> bool) (now : Z) (v : doc)
    (slashData : DataFetcher.SlashEvent) : Mongoose.saved doc :=
  Mongoose.save validate (pre_save now) (push_slash_event v slashData).

End Validator.

(** ** [models/Restaker.js] *)

Module Restaker.
Import JS.

(** A document of the [restakers] collection. *)
Record doc := {
  userAddress : string;
  amountRestakedStETH : string;
  targetAVSOperatorAddress : string;
  delegationTimestamp : Date;
  transactionHash : option string;
  blockNumber : number;
  status : string;
}.

(** [Restaker.countDocuments({ targetAVSOperatorAddress: address })].
    The schema declares the path [lowercase: true], and Mongoose runs
    that setter on the value of a query filter as it does on writes. *)
Definition countDocuments_by_target (restakers : list doc)
    (address : string) : Z :=
  Z.of_nat
    (List.length
       (List.filter
          (fun r =>
             String.eqb (targetAVSOperatorAddress r) (toLowerCase address))
          restakers)).

End Restaker.

(** ** [models/Reward.js] *)

Module Reward.
Import JS.
Import DataFetcher(RewardBreakdown, Build_RewardBreakdown,
                   rb_operatorAddress, rb_amountStETH, rb_timestamps,
                   rb_transactionHashes, rb_blockNumbers).

Record Frequency := {
  dailyAverage : text;
  weeklyAverage : text;
  monthlyAverage : text;
}.

(** A document of the [rewards] collection. *)
Record doc := {
  walletAddress : string;
  totalRewardsReceivedStETH : text;
  rewardsBreakdown : list RewardBreakdown;
  firstRewardTimestamp : Date;
  lastRewardTimestamp : Date;
  totalRewardEvents : Z;
  averageRewardAmount : text;
  rewardFrequency : Frequency;
  lastUpdated : Date;
}.

(** Schema defaults of a document created from nothing but its key. *)
Definition fresh (wallet : string) (now : Z) : doc :=
  {| walletAddress := wallet;
     totalRewardsReceivedStETH := Lit "0";
     rewardsBreakdown := [];
     firstRewardTimestamp := None;
     lastRewardTimestamp := None;
     totalRewardEvents := 0;
     averageRewardAmount := Lit "0";
     rewardFrequency := {| dailyAverage := Lit "0";
                           weeklyAverage := Lit "0";
                           monthlyAverage := Lit "0" |};
     lastUpdated := Some now |}.

Definition min_list (l : list Z) : option Z :=
  match l with
  | [] => None
  | x :: r => Some (fold_left Z.min r x)
  end.

Definition max_list (l : list Z) : option Z :=
  match l with
  | [] => None
  | x :: r => Some (fold_left Z.max r x)
  end.

Definition getTime (d : Date) : number :=
  match d with
  | Some ms => of_Z ms
  | None => NaN
  end.

(** The [pre("save")] hook. *)
Definition pre_save (now : Z) (r : doc) : doc :=
  let events :=
    fold_left (fun total b => total + Z.of_nat (List.length (rb_timestamps b)))
              (rewardsBreakdown r) 0 in
  let average :=
    if 0 <? events
    then OfNumber (fdiv (parseFloat (totalRewardsReceivedStETH r))
                        (of_Z events))
    else averageRewardAmount r in
  let allTimestamps :=
    fold_left (fun acc b => acc ++ rb_timestamps b) (rewardsBreakdown r) [] in
  let first :=
    match min_list allTimestamps with
    | Some t => new_Date (fmul (of_Z t) (of_Z 1000))
    | None => firstRewardTimestamp r
    end in
  let last :=
    match max_list allTimestamps with
    | Some t => new_Date (fmul (of_Z t) (of_Z 1000))
    | None => lastRewardTimestamp r
    end in
  let daysSinceFirst :=
    fdiv (fadd (of_Z now) (fmul (of_Z (-1)) (getTime first)))
         (of_Z (1000 * 60 * 60 * 24)) in
  let frequency :=
    match allTimestamps with
    | [] => rewardFrequency r
    | _ =>
        if gt_zero daysSinceFirst then
          let totalRewards := parseFloat (totalRewardsReceivedStETH r) in
          {| dailyAverage := OfNumber (fdiv totalRewards daysSinceFirst);
             weeklyAverage :=
               OfNumber (fdiv totalRewards (fdiv daysSinceFirst (of_Z 7)));
             monthlyAverage :=
               OfNumber (fdiv totalRewards (fdiv daysSinceFirst (of_Z 30))) |}
        else rewardFrequency r
    end in
  {| walletAddress := walletAddress r;
     totalRewardsReceivedStETH := totalRewardsReceivedStETH r;
     rewardsBreakdown := rewardsBreakdown r;
     firstRewardTimestamp := first;
     lastRewardTimestamp := last;
     totalRewardEvents := events;
     averageRewardAmount := average;
     rewardFrequency := frequency;
     lastUpdated := Some now |}.

(** The update of the first breakdown of [operator], if there is one:
    [find] followed by the mutation of the element found. *)
Fixpoint update_existing (operator : string) (amount : text)
    (timestamp : Z) (transactionHash : option string)
    (blockNumber : option Z) (bs : list RewardBreakdown)
    : option (list RewardBreakdown) :=
  match bs with
  | [] => None
  | b :: rest =>
      if String.eqb (rb_operatorAddress b) operator then
        Some ({| rb_operatorAddress := rb_operatorAddress b;
                 rb_amountStETH :=
                   OfNumber (fadd (parseFloat (rb_amountStETH b))
                                  (parseFloat amount));
                 rb_timestamps := rb_timestamps b ++ [timestamp];
                 rb_transactionHashes :=
                   rb_transactionHashes b ++
                   match truthy_string transactionHash with
                   | Some h => [h]
                   | None => []
                   end;
                 rb_blockNumbers :=
                   rb_blockNumbers b ++
                   match truthy_Z blockNumber with
                   | Some n => [n]
                   | None => []
                   end |} :: rest)
      else
        option_map (cons b)
          (update_existing operator amount timestamp transactionHash
             blockNumber rest)
  end.

(** The statements of [addReward(operatorAddress, amount, timestamp,
    transactionHash, blockNumber)] that come before [save()]: the event is
    merged into the breakdown of the operator, or makes up a new one, and
    the total is increased. *)
Definition merge_reward (r : doc) (operatorAddress : string)
    (amount : text) (timestamp : Z) (transactionHash : option string)
    (blockNumber : option Z) : doc :=
  let operator := toLowerCase operatorAddress in
  let breakdown :=
    match update_existing operator amount timestamp transactionHash
            blockNumber (rewardsBreakdown r) with
    | Some bs => bs
    | None =>
        rewardsBreakdown r ++
        [{| rb_operatorAddress := operator;
            rb_amountStETH := amount;
            rb_timestamps := [timestamp];
            rb_transactionHashes :=
              match truthy_string transactionHash with
              | Some h => [h]
              | None => []
              end;
            rb_blockNumbers :=
              match truthy_Z blockNumber with
              | Some n => [n]
              | None => []
              end |}]
    end in
  {| walletAddress := walletAddress r;
     totalRewardsReceivedStETH :=
       OfNumber (fadd (parseFloat (totalRewardsReceivedStETH r))
                      (parseFloat amount));
     rewardsBreakdown := breakdown;
     firstRewardTimestamp := firstRewardTimestamp r;
     lastRewardTimestamp := lastRewardTimestamp r;
     totalRewardEvents := totalRewardEvents r;
     averageRewardAmount := averageRewardAmount r;
     rewardFrequency := rewardFrequency r;
     lastUpdated := lastUpdated r |}.

(** [addReward(...)], which ends in [return this.save()]; [validate] is
    the validation of the schema and [now] the time at which the hook
    runs. *)
Definition addReward (validate : doc -> bool) (now : Z) (r : doc)
    (operatorAddress : string) (amount : text) (timestamp : Z)
    (transactionHash : option string) (blockNumber : option Z)
    : Mongoose.saved doc :=
  Mongoose.save validate (pre_save now)
    (merge_reward r operatorAddress amount timestamp transactionHash
       blockNumber).

End Reward.

(** ** [scripts/fetchData.js] *)

Module DatabasePopulator.
Import JS.

(** The three collections.  [rewards] is keyed by its unique index
    [walletAddress]; the other two are listed in natural order. *)
Record Db := {
  restakers : list Restaker.doc;
  validators : list Validator.doc;
  rewards : gmap string Reward.doc;
}.

Record t := {
  dataFetcher : DataFetcher.t;
  useMockData : bool;
}.

(** *** [populateValidators], the loop over [validatorData] *)

(** [Validator.findOneAndUpdate({ operatorAddress }, validator,
    { upsert: true, new: true })]: the fields of the update replace those
    of the first document with that address, or make up a new document.
    Pre-save hooks and validators do not run. *)
Fixpoint upsert_validator (now : Z) (v : DataFetcher.ValidatorData)
    (vs : list Validator.doc) : list Validator.doc :=
  let key := toLowerCase (DataFetcher.operatorAddress v) in
  let written (lastUpdated : Date) :=
    {| Validator.operatorAddress := key;
       Validator.totalDelegatedStakeStETH :=
         DataFetcher.totalDelegatedStakeStETH v;
       Validator.slashHistory := DataFetcher.slashHistory v;
       Validator.status := DataFetcher.v_status v;
       Validator.registrationTimestamp :=
         DataFetcher.registrationTimestamp v;
       Validator.lastActivityTimestamp :=
         DataFetcher.lastActivityTimestamp v;
       Validator.commission := DataFetcher.commission v;
       Validator.delegatorCount := DataFetcher.delegatorCount v;
       Validator.lastUpdated := lastUpdated |} in
  match vs with
  | [] => [written (Some now)]
  | d :: rest =>
      if String.eqb (Validator.operatorAddress d) key
      then written (Validator.lastUpdated d) :: rest
      else d :: upsert_validator now v rest
  end.

Definition with_delegatorCount (v : DataFetcher.ValidatorData) (n : Z)
    : DataFetcher.ValidatorData :=
  {| DataFetcher.operatorAddress := DataFetcher.operatorAddress v;
     DataFetcher.totalDelegatedStakeStETH :=
       DataFetcher.totalDelegatedStakeStETH v;
     DataFetcher.slashHistory := DataFetcher.slashHistory v;
     DataFetcher.v_status := DataFetcher.v_status v;
     DataFetcher.registrationTimestamp :=
       DataFetcher.registrationTimestamp v;
     DataFetcher.lastActivityTimestamp :=
       DataFetcher.lastActivityTimestamp v;
     DataFetcher.delegatorCount := n;
     DataFetcher.commission := DataFetcher.commission v;
     DataFetcher.metadataURI := DataFetcher.metadataURI v |}.

Definition store_validators (now : Z)
    (validatorData : list DataFetcher.ValidatorData) (db : Db) : Db :=
  fold_left
    (fun db validator =>
       let delegatorCount :=
         Restaker.countDocuments_by_target (restakers db)
           (DataFetcher.operatorAddress validator) in
       {| restakers := restakers db;
          validators :=
            upsert_validator now
              (with_delegatorCount validator delegatorCount)
              (validators db);
          rewards := rewards db |})
    validatorData db.

(** *** [populateRewards] *)

(** [[...new Set(l)]]: first occurrences, in order. *)
Fixpoint dedupe (seen : list string) (l : list string) : list string :=
  match l with
  | [] => []
  | x :: r =>
      if existsb (String.eqb x) seen then dedupe seen r
      else x :: dedupe (x :: seen) r
  end.

Definition cast_breakdown (b : DataFetcher.RewardBreakdown)
    : DataFetcher.RewardBreakdown :=
  {| DataFetcher.rb_operatorAddress :=
       toLowerCase (DataFetcher.rb_operatorAddress b);
     DataFetcher.rb_amountStETH := DataFetcher.rb_amountStETH b;
     DataFetcher.rb_timestamps := DataFetcher.rb_timestamps b;
     DataFetcher.rb_transactionHashes := DataFetcher.rb_transactionHashes b;
     DataFetcher.rb_blockNumbers := DataFetcher.rb_blockNumbers b |}.

(** [Reward.findOneAndUpdate({ walletAddress }, rewardData,
    { upsert: true, new: true })]: the three fields of [rewardData] are
    set on the document of that wallet, created from the schema defaults
    when there is none; the other fields keep their stored value since
    no hook runs. *)
Definition upsert_reward (now : Z) (rewardData : DataFetcher.RewardData)
    (rs : gmap string Reward.doc) : gmap string Reward.doc :=
  let key := toLowerCase (DataFetcher.walletAddress rewardData) in
  let old := default (Reward.fresh key now) (rs !! key) in
  <[key :=
      {| Reward.walletAddress := key;
         Reward.totalRewardsReceivedStETH :=
           DataFetcher.totalRewardsReceivedStETH rewardData;
         Reward.rewardsBreakdown :=
           List.map cast_breakdown (DataFetcher.rewardsBreakdown rewardData);
         Reward.firstRewardTimestamp := Reward.firstRewardTimestamp old;
         Reward.lastRewardTimestamp := Reward.lastRewardTimestamp old;
         Reward.totalRewardEvents := Reward.totalRewardEvents old;
         Reward.averageRewardAmount := Reward.averageRewardAmount old;
         Reward.rewardFrequency := Reward.rewardFrequency old;
         Reward.lastUpdated := Reward.lastUpdated old |}]> rs.

(** State of the loop: the collection, the world and [processedCount]. *)
Definition rewards_state :=
  (gmap string Reward.doc * DataFetcher.World * Z)%type.

Definition took_draws (w : DataFetcher.World) (n : nat) : DataFetcher.World :=
  {| DataFetcher.indexer := DataFetcher.indexer w;
     DataFetcher.outages := DataFetcher.outages w;
     DataFetcher.rated := DataFetcher.rated w;
     DataFetcher.clock := DataFetcher.clock w;
     DataFetcher.draws := (DataFetcher.draws w + n)%nat;
     DataFetcher.requested := DataFetcher.requested w |}.

Section WithMock.
(** [generateMockRewardsData(walletAddress)], a function of the values
    it draws from [Math.random] (21 of them, starting at the given
    draw) and of the clock. *)
Variable generateMockRewardsData :
  nat -> Z -> string -> DataFetcher.RewardData.

Definition mock (w : DataFetcher.World) (walletAddress : string)
    : DataFetcher.RewardData * DataFetcher.World :=
  (generateMockRewardsData (DataFetcher.draws w) (DataFetcher.clock w)
     walletAddress,
   took_draws w 21).

(** Body of the loop over [walletAddresses]. *)
Definition process_wallet (env : DataFetcher.Env) (self : t)
    (st : rewards_state) (walletAddress : string) : rewards_state :=
  let '(rs, w, processedCount) := st in
  let '(rewardData, w') :=
    if useMockData self then mock w walletAddress
    else
      let '(fetched, w1) :=
        DataFetcher.fetchRewardsFromRated env (dataFetcher self)
          walletAddress w in
      match fetched with
      | Some rewardData => (rewardData, w1)
      | None => mock w1 walletAddress
      end in
  if gt_zero (parseFloat (DataFetcher.totalRewardsReceivedStETH rewardData))
  then (upsert_reward (DataFetcher.clock w') rewardData rs, w',
        processedCount + 1)
  else (rs, w', processedCount).

Definition populateRewards (env : DataFetcher.Env) (self : t)
    (db : Db) (w : DataFetcher.World) : Db * DataFetcher.World * Z :=
  let walletAddresses :=
    dedupe [] (List.map Restaker.userAddress (restakers db)) in
  let '(rs, w', processedCount) :=
    fold_left (process_wallet env self) walletAddresses
              (rewards db, w, 0) in
  ({| restakers := restakers db;
      validators := validators db;
      rewards := rs |}, w', processedCount).
End WithMock.

(** *** [updateStatistics], the delegator counts *)

(** What the loop over [validators] leaves behind: the collection, the
    addresses of the documents saved, in order, and whether it ran to its
    end ([save()] rejects a document that fails schema validation, which
    ends the loop in the enclosing [catch]). *)
Record recount := {
  rc_validators : list Validator.doc;
  rc_saved : list string;
  rc_completed : bool;
}.

Fixpoint recount_loop (validate : Validator.doc -> bool) (now : Z)
    (rks : list Restaker.doc) (vs : list Validator.doc) : recount :=
  match vs with
  | [] => {| rc_validators := []; rc_saved := []; rc_completed := true |}
  | validator :: rest =>
      let delegatorCount :=
        Restaker.countDocuments_by_target rks
          (Validator.operatorAddress validator) in
      if negb (Validator.delegatorCount validator =? delegatorCount) then
        let changed := Validator.set_delegatorCount validator delegatorCount in
        if validate changed then
          let r := recount_loop validate now rks rest in
          {| rc_validators := Validator.pre_save now changed :: rc_validators r;
             rc_saved := Validator.operatorAddress validator :: rc_saved r;
             rc_completed := rc_completed r |}
        else
          {| rc_validators := validator :: rest;
             rc_saved := [];
             rc_completed := false |}
      else
        let r := recount_loop validate now rks rest in
        {| rc_validators := validator :: rc_validators r;
           rc_saved := rc_saved r;
           rc_completed := rc_completed r |}
  end.

(** [updateStatistics] up to the summary it prints afterwards. *)
Definition updateStatistics (validate : Validator.doc -> bool) (now : Z)
    (db : Db) : Db * list string * bool :=
  let r := recount_loop validate now (restakers db) (validators db) in
  ({| restakers := restakers db;
      validators := rc_validators r;
      rewards := rewards db |}, rc_saved r, rc_completed r).

End DatabasePopulator.

(** ** Reference notions used in the statements *)

Module Reference.

(** The number of persisted restakers delegating to [address]. *)
Definition delegators_of (restakers : list Restaker.doc) (address : string)
    : Z :=
  Z.of_nat
    (List.length
       (List.filter
          (fun r => String.eqb (Restaker.targetAVSOperatorAddress r) address)
          restakers)).

(** Addresses are stored in lower case (the schemas declare
    [lowercase: true]). *)
Definition stored_lowercase (v : Validator.doc) : Prop :=
  JS.toLowerCase (Validator.operatorAddress v) = Validator.operatorAddress v.

(** A validator whose stored count is not the number of its delegators. *)
Definition stale (restakers : list Restaker.doc) (v : Validator.doc) : bool :=
  negb (Validator.delegatorCount v
        =? delegators_of restakers (Validator.operatorAddress v)).

(** The slash events of operator [id] among the slashing entities [sl],
    in their order. *)
Definition history_of (sl : list DataFetcher.RawSlashing) (id : string)
    : list DataFetcher.SlashEvent :=
  omap
    (fun slash =>
       match DataFetcher.sl_operator slash,
             JS.to_option (Web3Utils.fromWei (DataFetcher.sl_amount slash)) with
       | Some operator, Some amount =>
           if String.eqb (DataFetcher.ref_id operator) id then
             Some {| DataFetcher.se_timestamp :=
                       JS.parseInt (DataFetcher.sl_createdAt slash);
                     DataFetcher.se_amountStETH := amount;
                     DataFetcher.se_reason := "Protocol violation";
                     DataFetcher.se_transactionHash :=
                       DataFetcher.sl_transactionHash slash;
                     DataFetcher.se_blockNumber :=
                       JS.parseInt (DataFetcher.sl_blockNumber slash) |}
           else None
       | _, _ => None
       end)
    sl.

(** A base-unit amount as the indexer serialises it: decimal digits. *)
Definition numeric (x : option string) : bool :=
  match x with
  | Some s =>
      let cs := list_ascii_of_string s in
      negb (Nat.eqb (List.length cs) 0) && forallb Web3Utils.is_digit cs
  | None => false
  end.

(** A delegation event that names its delegator and its operator and
    whose shares are numeric. *)
Definition well_formed (d : DataFetcher.RawDelegation) : bool :=
  numeric (DataFetcher.d_shares d)
  && match DataFetcher.d_delegator d, DataFetcher.d_operator d with
     | Some _, Some _ => true
     | _, _ => false
     end.

(** [r] is the record of the delegation event [d]. *)
Definition record_of (d : DataFetcher.RawDelegation)
    (r : DataFetcher.RestakerData) : Prop :=
  DataFetcher.transform_delegation d = JS.Ok r /\
  Web3Utils.fromWei (DataFetcher.d_shares d)
  = JS.Ok (DataFetcher.amountRestakedStETH r) /\
  option_map DataFetcher.ref_id (DataFetcher.d_delegator d)
  = Some (DataFetcher.userAddress r) /\
  option_map DataFetcher.ref_id (DataFetcher.d_operator d)
  = Some (DataFetcher.targetAVSOperatorAddress r) /\
  DataFetcher.status r = "active"%string.

(** What [endpoint] has to offer for [address]: the normalisation of its
    body, when the request succeeds with a non-empty body and that body
    normalises without error. *)
Definition usable (self : DataFetcher.t) (w : DataFetcher.World)
    (address endpoint : string) : option DataFetcher.RewardData :=
  match DataFetcher.rated w
          (DataFetcher.ratedApiUrl self ++ endpoint)%string with
  | DataFetcher.HttpOk (Some data) =>
      JS.to_option
        (DataFetcher.transformRatedRewardsData (DataFetcher.clock w) data
           address)
  | _ => None
  end.

(** The URLs requested when the endpoints are tried in order up to the
    first usable one. *)
Fixpoint tried (self : DataFetcher.t) (w : DataFetcher.World)
    (address : string) (endpoints : list string) : list string :=
  match endpoints with
  | [] => []
  | endpoint :: rest =>
      (DataFetcher.ratedApiUrl self ++ endpoint)%string
      :: match usable self w address endpoint with
         | Some _ => []
         | None => tried self w address rest
         end
  end.

(** The body of the first endpoint, in order, that answers with one. *)
Fixpoint first_body (self : DataFetcher.t) (w : DataFetcher.World)
    (endpoints : list string) : option DataFetcher.RatedPayload :=
  match endpoints with
  | [] => None
  | endpoint :: rest =>
      match DataFetcher.rated w
          (DataFetcher.ratedApiUrl self ++ endpoint)%string with
      | DataFetcher.HttpOk (Some data) => Some data
      | _ => first_body self w rest
      end
  end.

(** The reading of the rewards client under which it answers with the
    normalisation of the first body received. *)
Definition returns_first_body (env : DataFetcher.Env) (self : DataFetcher.t)
    (address : string) (w : DataFetcher.World) : Prop :=
  JS.truthy_string (DataFetcher.RATED_API_KEY env) <> None ->
  forall data,
    first_body self w (DataFetcher.rated_endpoints address) = Some data ->
    exists r,
      DataFetcher.transformRatedRewardsData (DataFetcher.clock w) data address
      = JS.Ok r /\
      fst (DataFetcher.fetchRewardsFromRated env self address w) = Some r.

(** An integer part in its usual writing: digits without a superfluous
    leading zero. *)
Definition canonical (i : list ascii) : Prop :=
  forallb Web3Utils.is_digit i = true /\
  (i = ["0"%char] \/ exists c r, i = c :: r /\ c <> "0"%char).

(** A valid decimal string: the rendering of a fixed-point amount with at
    most 18 decimals, trailing zeros allowed. *)
Definition valid_decimal (d : string) : Prop :=
  exists i,
    canonical i /\
    (d = string_of_list_ascii i \/
     exists f,
       f <> [] /\ forallb Web3Utils.is_digit f = true /\
       (List.length f <= 18)%nat /\
       d = string_of_list_ascii (i ++ "."%char :: f)).

(** Trailing-zero normalisation: the zeros that end the fraction are
    dropped, and so is the point when no decimal is left. *)
Definition normalize (d : string) : string :=
  let '(i, f) := Web3Utils.split_point (list_ascii_of_string d) in
  string_of_list_ascii
    match Web3Utils.strip_trailing_zeros (default [] f) with
    | [] => i
    | f' => i ++ "."%char :: f'
    end.











(** What a breakdown records besides its timestamps; the normaliser takes
    a timestamp from the clock when the service gives none, so that the
    timestamps of one upstream answer may differ from run to run. *)
Definition undated (b : DataFetcher.RewardBreakdown)
    : string * JS.text * list string * list Z :=
  (DataFetcher.rb_operatorAddress b, DataFetcher.rb_amountStETH b,
   DataFetcher.rb_transactionHashes b, DataFetcher.rb_blockNumbers b).





End Reference.

(** ** Sample data *)

Module Sample.
Import JS.

Definition operator_a : string := "0x1234567890123456789012345678901234567890".
Definition operator_b : string := "0x2345678901234567890123456789012345678901".
Definition wallet_1 : string := "0xaaaaaaaaaaaaaaaaaaaaaaaaaaaaaaaaaaaaaaaa".
Definition wallet_2 : string := "0xbbbbbbbbbbbbbbbbbbbbbbbbbbbbbbbbbbbbbbbb".

Definition restaker (user target : string) : Restaker.doc :=
  {| Restaker.userAddress := user;
     Restaker.amountRestakedStETH := "1.5";
     Restaker.targetAVSOperatorAddress := target;
     Restaker.delegationTimestamp := Some 1700000000000;
     Restaker.transactionHash := None;
     Restaker.blockNumber := of_Z 18000000;
     Restaker.status := "active" |}.

Definition validator (address : string) (count : Z) : Validator.doc :=
  {| Validator.operatorAddress := address;
     Validator.totalDelegatedStakeStETH := "100";
     Validator.slashHistory := [];
     Validator.status := "active";
     Validator.registrationTimestamp := Some 1600000000000;
     Validator.lastActivityTimestamp := Some 1700000000000;
     Validator.commission := 0;
     Validator.delegatorCount := count;
     Validator.lastUpdated := Some 1700000000000 |}.

(** Two restakers delegate to [operator_a], none to [operator_b]; the
    stored count of [operator_a] is out of date. *)
Definition db : DatabasePopulator.Db :=
  {| DatabasePopulator.restakers :=
       [restaker wallet_1 operator_a; restaker wallet_2 operator_a];
     DatabasePopulator.validators :=
       [validator operator_a 0; validator operator_b 0];
     DatabasePopulator.rewards := ∅ |}.

(** The part of schema validation that bears on the address. *)
Definition validate (v : Validator.doc) : bool :=
  Web3Utils.isAddress (Validator.operatorAddress v).

Definition slashing (operator : string) (amount : string)
    : DataFetcher.RawSlashing :=
  {| DataFetcher.sl_operator := Some {| DataFetcher.ref_id := operator |};
     DataFetcher.sl_amount := Some amount;
     DataFetcher.sl_createdAt := Some "1690000000";
     DataFetcher.sl_transactionHash := None;
     DataFetcher.sl_blockNumber := Some "17000000" |}.

Definition operator (id : string) (totalShares : option string)
    : DataFetcher.RawOperator :=
  {| DataFetcher.op_id := id;
     DataFetcher.op_metadataURI := None;
     DataFetcher.op_totalShares := totalShares;
     DataFetcher.op_createdAt := Some "1680000000" |}.

(** [operator_a] has been slashed once and reports no total shares;
    [operator_b] has not been slashed. *)
Definition validator_payload : DataFetcher.ValidatorPayload :=
  {| DataFetcher.operators :=
       Some [operator operator_a None;
             operator operator_b (Some "2500000000000000000")];
     DataFetcher.slashings :=
       Some [slashing operator_a "1000000000000000000"] |}.

(** An indexer holding 101 slashing events of [operator_a], the oldest of
    them of 7 ether and the others of 1 ether, and both operators. *)
Definition subgraph : DataFetcher.Subgraph :=
  {| DataFetcher.sg_operators :=
       [operator operator_a (Some "9000000000000000000");
        operator operator_b (Some "2500000000000000000")];
     DataFetcher.sg_slashings :=
       repeat (slashing operator_a "1000000000000000000") 100
       ++ [slashing operator_a "7000000000000000000"] |}.

Definition fetcher : DataFetcher.t :=
  {| DataFetcher.eigenlayerSubgraphUrl := "https://indexer.example/subgraph";
     DataFetcher.ratedApiUrl := "https://api.rated.network";
     DataFetcher.maxRetries := 3;
     DataFetcher.retryDelay := 5000 |}.

(** A world whose indexer is down for the first request. *)
Definition world : DataFetcher.World :=
  {| DataFetcher.indexer := subgraph;
     DataFetcher.outages := [true];
     DataFetcher.rated := fun _ => DataFetcher.HttpError 404;
     DataFetcher.clock := 1700000000000;
     DataFetcher.draws := O;
     DataFetcher.requested := [] |}.

Definition delegation (delegator : string) (shares : string)
    : DataFetcher.RawDelegation :=
  {| DataFetcher.d_delegator := Some {| DataFetcher.ref_id := delegator |};
     DataFetcher.d_operator := Some {| DataFetcher.ref_id := operator_a |};
     DataFetcher.d_shares := Some shares;
     DataFetcher.d_createdAt := Some "1700000000";
     DataFetcher.d_transactionHash := None;
     DataFetcher.d_blockNumber := Some "18000000" |}.

Definition env : DataFetcher.Env :=
  {| DataFetcher.STETH_STRATEGY_ADDRESS := None;
     DataFetcher.RATED_API_KEY := Some "secret" |}.

Definition reward (amount : string) (operator : string) (timestamp : Z)
    : DataFetcher.RawReward :=
  {| DataFetcher.rw_amount := Some amount;
     DataFetcher.rw_value := None;
     DataFetcher.rw_operator := Some operator;
     DataFetcher.rw_validator := None;
     DataFetcher.rw_timestamp := Some timestamp;
     DataFetcher.rw_block_time := None;
     DataFetcher.rw_tx_hash := None;
     DataFetcher.rw_block_number := Some 18000000 |}.

Definition primary (address : string) : string :=
  ("https://api.rated.network/v1/eigenlayer/rewards/delegator/"
   ++ address)%string.

Definition secondary (address : string) : string :=
  ("https://api.rated.network/v1/eigenlayer/rewards/rewards?delegator="
   ++ address)%string.

Definition five_ether : DataFetcher.RatedPayload :=
  {| DataFetcher.rewards :=
       Some [reward "5000000000000000000" operator_a 1690000000] |}.

(** The primary route is not found, the secondary one answers. *)
Definition world_404 : DataFetcher.World :=
  {| DataFetcher.indexer := subgraph;
     DataFetcher.outages := [];
     DataFetcher.rated :=
       fun url =>
         if String.eqb url (secondary wallet_1)
         then DataFetcher.HttpOk (Some five_ether)
         else DataFetcher.HttpError 404;
     DataFetcher.clock := 1700000000000;
     DataFetcher.draws := O;
     DataFetcher.requested := [] |}.

(** The primary route answers with a body whose amount is not numeric,
    the secondary one with a valid body. *)
Definition world_garbled : DataFetcher.World :=
  {| DataFetcher.indexer := subgraph;
     DataFetcher.outages := [];
     DataFetcher.rated :=
       fun url =>
         if String.eqb url (primary wallet_1)
         then DataFetcher.HttpOk
                (Some {| DataFetcher.rewards :=
                           Some [reward "abc" operator_a 1690000000] |})
         else if String.eqb url (secondary wallet_1)
         then DataFetcher.HttpOk (Some five_ether)
         else DataFetcher.HttpError 404;
     DataFetcher.clock := 1700000000000;
     DataFetcher.draws := O;
     DataFetcher.requested := [] |}.

(** A stored reward record of [wallet_1]: 10 stETH from [operator_a]
    over two events. *)
Definition stored_reward : Reward.doc :=
  {| Reward.walletAddress := wallet_1;
     Reward.totalRewardsReceivedStETH := Lit "10";
     Reward.rewardsBreakdown :=
       [{| DataFetcher.rb_operatorAddress := operator_a;
           DataFetcher.rb_amountStETH := Lit "10";
           DataFetcher.rb_timestamps := [1680000000; 1685000000];
           DataFetcher.rb_transactionHashes := [];
           DataFetcher.rb_blockNumbers := [17000000; 17500000] |}];
     Reward.firstRewardTimestamp := Some 1680000000000;
     Reward.lastRewardTimestamp := Some 1685000000000;
     Reward.totalRewardEvents := 2;
     Reward.averageRewardAmount := Lit "5";
     Reward.rewardFrequency := {| Reward.dailyAverage := Lit "0";
                                   Reward.weeklyAverage := Lit "0";
                                   Reward.monthlyAverage := Lit "0" |};
     Reward.lastUpdated := Some 1685000000000 |}.


(** A database with one restaker and no reward record yet, and a rewards
    service that reports 5 stETH for it. *)
Definition db_one_restaker : DatabasePopulator.Db :=
  {| DatabasePopulator.restakers := [restaker wallet_1 operator_a];
     DatabasePopulator.validators := [validator operator_a 1];
     DatabasePopulator.rewards := ∅ |}.

Definition world_rewards : DataFetcher.World :=
  {| DataFetcher.indexer := subgraph;
     DataFetcher.outages := [];
     DataFetcher.rated :=
       fun url =>
         if String.eqb url (primary wallet_1)
         then DataFetcher.HttpOk (Some five_ether)
         else DataFetcher.HttpError 404;
     DataFetcher.clock := 1700000000000;
     DataFetcher.draws := O;
     DataFetcher.requested := [] |}.





Definition populator : DatabasePopulator.t :=
  {| DatabasePopulator.dataFetcher := fetcher;
     DatabasePopulator.useMockData := false |}.

(** The part of the validation of a reward document that bears on the
    addresses. *)
Definition validate_reward (r : Reward.doc) : bool :=
  Web3Utils.isAddress (Reward.walletAddress r)
  && forallb (fun b => Web3Utils.isAddress (DataFetcher.rb_operatorAddress b))
             (Reward.rewardsBreakdown r).

(** A placeholder generator; it is not called when every fetch succeeds. *)
Definition no_mock (draw : nat) (now : Z) (walletAddress : string)
    : DataFetcher.RewardData :=
  {| DataFetcher.walletAddress := toLowerCase walletAddress;
     DataFetcher.totalRewardsReceivedStETH := Lit "0";
     DataFetcher.rewardsBreakdown := [] |}.

End Sample.

(** ** Further methods of the models *)

(** [models/Validator.js]: statics, methods and virtuals besides
    [addSlashEvent]. *)
Module ValidatorMethods.
Import JS.

(** The virtual [slashCount]. *)
Definition slashCount (v : Validator.doc) : Z :=
  Z.of_nat (List.length (Validator.slashHistory v)).

(** [parseFloat(slash.amountStETH || 0)] *)
Definition slashed_amount (slash : DataFetcher.SlashEvent) : number :=
  match truthy_string (Some (DataFetcher.se_amountStETH slash)) with
  | Some s => parseFloat_string s
  | None => Fin 0
  end.

(** [getTotalSlashedAmount()] *)
Definition getTotalSlashedAmount (v : Validator.doc) : text :=
  OfNumber
    (fold_left (fun total slash => fadd total (slashed_amount slash))
               (Validator.slashHistory v) (Fin 0)).

(** [getStakeInWei()] *)
Definition getStakeInWei (v : Validator.doc) : result string :=
  Web3Utils.toWei (Some (Validator.totalDelegatedStakeStETH v)).

(** [Validator.findByOperatorAddress(address)] *)
Definition findByOperatorAddress (vs : list Validator.doc) (address : string)
    : option Validator.doc :=
  List.find
    (fun v => String.eqb (Validator.operatorAddress v) (toLowerCase address))
    vs.

(** The collection after the [save()] of a document that was loaded from
    it: when [save()] resolves, the stored document of that operator (the
    index on [operatorAddress] is unique) is the document in memory; when
    it rejects, the collection is as before. *)
Definition stored_after (vs : list Validator.doc)
    (s : Mongoose.saved Validator.doc) : list Validator.doc :=
  match Mongoose.written s with
  | Some d =>
      List.map
        (fun old =>
           if String.eqb (Validator.operatorAddress old)
                         (Validator.operatorAddress d)
           then d else old)
        vs
  | None => vs
  end.

(** [Validator.findActiveValidators()] *)
Definition findActiveValidators (vs : list Validator.doc)
    : list Validator.doc :=
  List.filter (fun v => String.eqb (Validator.status v) "active") vs.

End ValidatorMethods.

(** [models/Restaker.js]: statics and methods. *)
Module RestakerMethods.
Import JS.

(** [getAmountInWei()] *)
Definition getAmountInWei (r : Restaker.doc) : result string :=
  Web3Utils.toWei (Some (Restaker.amountRestakedStETH r)).

(** [Restaker.findByUserAddress(address)] *)
Definition findByUserAddress (rs : list Restaker.doc) (address : string)
    : option Restaker.doc :=
  List.find
    (fun r => String.eqb (Restaker.userAddress r) (toLowerCase address)) rs.

End RestakerMethods.

(** [models/Reward.js]: statics, methods and virtuals besides
    [addReward]. *)
Module RewardMethods.
Import JS.

(** [getRewardsFromOperator(operatorAddress)] *)
Definition getRewardsFromOperator (r : Reward.doc) (operatorAddress : string)
    : option DataFetcher.RewardBreakdown :=
  List.find
    (fun b => String.eqb (DataFetcher.rb_operatorAddress b)
                         (toLowerCase operatorAddress))
    (Reward.rewardsBreakdown r).

(** The virtual [activeOperatorsCount]. *)
Definition activeOperatorsCount (r : Reward.doc) : Z :=
  Z.of_nat (List.length (Reward.rewardsBreakdown r)).

(** The number of reward events the breakdowns record. *)
Definition recorded_events (bs : list DataFetcher.RewardBreakdown) : Z :=
  fold_left
    (fun total b => total + Z.of_nat (List.length (DataFetcher.rb_timestamps b)))
    bs 0.

End RewardMethods.

(** ** [scripts/fetchData.js]: the loop of [populateRestakers] *)

Module RestakerStage.
Import JS.

(** The document Mongoose makes of the update.  Casting to the schema
    types rejects, with a [CastError], a date that is invalid and a number
    that is [NaN]; addresses go through the [lowercase] setter. *)
Definition cast_restaker (r : DataFetcher.RestakerData)
    : option Restaker.doc :=
  match DataFetcher.delegationTimestamp r, DataFetcher.blockNumber r with
  | None, _ => None
  | _, NaN => None
  | Some ms, n =>
      Some {| Restaker.userAddress := toLowerCase (DataFetcher.userAddress r);
              Restaker.amountRestakedStETH := DataFetcher.amountRestakedStETH r;
              Restaker.targetAVSOperatorAddress :=
                toLowerCase (DataFetcher.targetAVSOperatorAddress r);
              Restaker.delegationTimestamp := Some ms;
              Restaker.transactionHash := DataFetcher.transactionHash r;
              Restaker.blockNumber := n;
              Restaker.status := DataFetcher.status r |}
  end.

(** [Restaker.findOneAndUpdate({ userAddress }, restakerData,
    { upsert: true, new: true })] *)
Fixpoint upsert_restaker (d : Restaker.doc) (rs : list Restaker.doc)
    : list Restaker.doc :=
  match rs with
  | [] => [d]
  | old :: rest =>
      if String.eqb (Restaker.userAddress old) (Restaker.userAddress d)
      then d :: rest
      else old :: upsert_restaker d rest
  end.

(** The loop [for (const restakerData of restakingData)], whose [catch]
    logs a rejected write and goes on. *)
Definition store_restakers (restakingData : list DataFetcher.RestakerData)
    (rs : list Restaker.doc) : list Restaker.doc :=
  fold_left
    (fun rs restakerData =>
       match cast_restaker restakerData with
       | Some d => upsert_restaker d rs
       | None => rs
       end)
    restakingData rs.

(** The last record of [restakingData], if any, that is written under
    [key]. *)
Fixpoint last_written (key : string)
    (restakingData : list DataFetcher.RestakerData) : option Restaker.doc :=
  match restakingData with
  | [] => None
  | r :: rest =>
      match last_written key rest with
      | Some d => Some d
      | None =>
          match cast_restaker r with
          | Some d =>
              if String.eqb (Restaker.userAddress d) key then Some d else None
          | None => None
          end
      end
  end.

End RestakerStage.

(** ** Further notions for statements about the normalisers *)

Module Notions.
Import JS.

(** A slashing event that names its operator and whose amount is numeric. *)
Definition slashing_ok (slash : DataFetcher.RawSlashing) : bool :=
  match DataFetcher.sl_operator slash with
  | Some _ => Reference.numeric (DataFetcher.sl_amount slash)
  | None => false
  end.

(** An operator whose total shares, when it reports any, are numeric. *)
Definition operator_ok (operator : DataFetcher.RawOperator) : bool :=
  Reference.numeric
    (Some (default "0"%string
             (truthy_string (DataFetcher.op_totalShares operator)))).

(** A staker whose deposits are listed and name their strategy. *)
Definition staker_ok (staker : DataFetcher.RawStaker) : bool :=
  match DataFetcher.st_deposits staker with
  | Some deposits =>
      forallb
        (fun deposit =>
           match DataFetcher.dep_strategy deposit with
           | Some _ => true
           | None => false
           end)
        deposits
  | None => false
  end.

Definition zero_address : string :=
  "0x0000000000000000000000000000000000000000".

(** A deposit into the stETH strategy: its strategy identifier contains
    "steth" whatever the case, or is the configured address in lower
    case. *)
Definition is_stETH (env : DataFetcher.Env) (deposit : DataFetcher.RawDeposit)
    : bool :=
  match DataFetcher.dep_strategy deposit with
  | Some strategy =>
      includes (toLowerCase (DataFetcher.ref_id strategy)) "steth"
      || match DataFetcher.STETH_STRATEGY_ADDRESS env with
         | Some a => String.eqb (DataFetcher.ref_id strategy) (toLowerCase a)
         | None => false
         end
  | None => false
  end.

(** The records of the stETH deposits of [staker] whose shares convert. *)
Definition deposit_records (env : DataFetcher.Env)
    (staker : DataFetcher.RawStaker) : list DataFetcher.RestakerData :=
  omap (fun deposit =>
          to_option (DataFetcher.transform_deposit staker deposit))
       (List.filter (is_stETH env)
          (default [] (DataFetcher.st_deposits staker))).

(** The records of the delegation events whose transformation succeeds. *)
Definition delegation_records (ds : list DataFetcher.RawDelegation)
    : list DataFetcher.RestakerData :=
  omap (fun d => to_option (DataFetcher.transform_delegation d)) ds.

End Notions.

(** ** Further sample data *)

Module Fixtures.
Import JS.

Definition deposit (strategy : option string) (shares : string)
    : DataFetcher.RawDeposit :=
  {| DataFetcher.dep_shares := Some shares;
     DataFetcher.dep_strategy :=
       option_map (fun id => {| DataFetcher.ref_id := id |}) strategy;
     DataFetcher.dep_transactionHash := None;
     DataFetcher.dep_blockNumber := Some "18000001";
     DataFetcher.dep_createdAt := Some "1700000100" |}.

(** A staker with one deposit into a stETH strategy and one into another
    strategy. *)
Definition staker_two_deposits : DataFetcher.RawStaker :=
  {| DataFetcher.st_id := Sample.wallet_2;
     DataFetcher.st_deposits :=
       Some [deposit (Some "0xStETH-strategy") "4000000000000000000";
             deposit (Some "0xrETH-strategy") "9000000000000000000"] |}.

(** A staker whose list of deposits is missing. *)
Definition staker_without_deposits : DataFetcher.RawStaker :=
  {| DataFetcher.st_id := Sample.wallet_2;
     DataFetcher.st_deposits := None |}.

(** A slash event of half an ether. *)
Definition slash_event : DataFetcher.SlashEvent :=
  {| DataFetcher.se_timestamp := of_Z 1690000000;
     DataFetcher.se_amountStETH := "0.5";
     DataFetcher.se_reason := "Slashing event";
     DataFetcher.se_transactionHash := None;
     DataFetcher.se_blockNumber := of_Z 17000000 |}.

(** A populator in mock mode. *)
Definition mock_populator : DatabasePopulator.t :=
  {| DatabasePopulator.dataFetcher := Sample.fetcher;
     DatabasePopulator.useMockData := true |}.

(** A rewards service that answers every request with an empty object. *)
Definition world_empty_body : DataFetcher.World :=
  {| DataFetcher.indexer := Sample.subgraph;
     DataFetcher.outages := [];
     DataFetcher.rated :=
       fun _ => DataFetcher.HttpOk (Some {| DataFetcher.rewards := None |});
     DataFetcher.clock := 1700000000000;
     DataFetcher.draws := O;
     DataFetcher.requested := [] |}.

(** A normalised restaking record. *)
Definition restaker_record (user amount : string)
    : DataFetcher.RestakerData :=
  {| DataFetcher.userAddress := user;
     DataFetcher.amountRestakedStETH := amount;
     DataFetcher.targetAVSOperatorAddress := Sample.operator_a;
     DataFetcher.delegationTimestamp := Some 1700000000000;
     DataFetcher.transactionHash := None;
     DataFetcher.blockNumber := of_Z 18000000;
     DataFetcher.status := "active" |}.

(** A delegation event that carries neither date nor block number. *)
Definition undated_delegation : DataFetcher.RawDelegation :=
  {| DataFetcher.d_delegator :=
       Some {| DataFetcher.ref_id := Sample.wallet_1 |};
     DataFetcher.d_operator :=
       Some {| DataFetcher.ref_id := Sample.operator_a |};
     DataFetcher.d_shares := Some "1000000000000000000"%string;
     DataFetcher.d_createdAt := None;
     DataFetcher.d_transactionHash := None;
     DataFetcher.d_blockNumber := None |}.

(** The database of [Sample.db] with, between its two validators, one
    whose address is not an address; the three stored counts are out of
    date. *)
Definition db_with_invalid : DatabasePopulator.Db :=
  {| DatabasePopulator.restakers :=
       [Sample.restaker Sample.wallet_1 Sample.operator_a;
        Sample.restaker Sample.wallet_2 Sample.operator_a];
     DatabasePopulator.validators :=
       [Sample.validator Sample.operator_a 0;
        Sample.validator "not-an-address" 5;
        Sample.validator Sample.operator_b 7];
     DatabasePopulator.rewards := ∅ |}.

(** A normalised validator record, as the normaliser makes them: no
    delegator counted yet. *)
Definition validator_record (address : string) : DataFetcher.ValidatorData :=
  {| DataFetcher.operatorAddress := address;
     DataFetcher.totalDelegatedStakeStETH := "2.5";
     DataFetcher.slashHistory := [];
     DataFetcher.v_status := "active";
     DataFetcher.registrationTimestamp := Some 1680000000000;
     DataFetcher.lastActivityTimestamp := Some 1700000000000;
     DataFetcher.delegatorCount := 0;
     DataFetcher.commission := 0;
     DataFetcher.metadataURI := None |}.

(** A validator that has been jailed. *)
Definition jailed_validator : Validator.doc :=
  {| Validator.operatorAddress := Sample.operator_b;
     Validator.totalDelegatedStakeStETH := "100";
     Validator.slashHistory := [];
     Validator.status := "jailed";
     Validator.registrationTimestamp := Some 1600000000000;
     Validator.lastActivityTimestamp := Some 1700000000000;
     Validator.commission := 0;
     Validator.delegatorCount := 0;
     Validator.lastUpdated := Some 1700000000000 |}.

End Fixtures.

(** ** Further notions for statements about the reward stage *)

Module StageNotions.
Import JS.

(** The fields of a reward document that only the save hook computes. *)
Definition derived (d : Reward.doc)
    : Date * Date * Z * text * Reward.Frequency :=
  (Reward.firstRewardTimestamp d, Reward.lastRewardTimestamp d,
   Reward.totalRewardEvents d, Reward.averageRewardAmount d,
   Reward.rewardFrequency d).

(** Their schema defaults. *)
Definition defaults : Date * Date * Z * text * Reward.Frequency :=
  (None, None, 0, Lit "0",
   {| Reward.dailyAverage := Lit "0";
      Reward.weeklyAverage := Lit "0";
      Reward.monthlyAverage := Lit "0" |}).

(** The distinct wallets of the restakers, in the order the reward stage
    visits them. *)
Definition wallets (db : DatabasePopulator.Db) : list string :=
  DatabasePopulator.dedupe []
    (List.map Restaker.userAddress (DatabasePopulator.restakers db)).

(** The URL of the first endpoint of the rewards service. *)
Definition first_url (self : DataFetcher.t) (wallet : string) : string :=
  (DataFetcher.ratedApiUrl self ++
   "/v1/eigenlayer/rewards/delegator/" ++ wallet)%string.

(** A body that lists no reward. *)
Definition lists_no_reward (data : DataFetcher.RatedPayload) : bool :=
  match DataFetcher.rewards data with
  | Some [] | None => true
  | Some (_ :: _) => false
  end.

(** A validator record that Mongoose accepts as an update: casting to the
    schema types rejects an invalid date and a number that is [NaN]. *)
Definition castable (v : DataFetcher.ValidatorData) : bool :=
  match DataFetcher.registrationTimestamp v,
        DataFetcher.lastActivityTimestamp v with
  | Some _, Some _ =>
      forallb
        (fun slash =>
           match DataFetcher.se_timestamp slash,
                 DataFetcher.se_blockNumber slash with
           | NaN, _ | _, NaN => false
           | _, _ => true
           end)
        (DataFetcher.slashHistory v)
  | _, _ => false
  end.

End StageNotions.

(** * Theorems *)

(** ** Retry executor *)

Section RetryFacts.
Import Retry.
Context {W E T : Type}.
Implicit Types (op : operation W E T) (w : W).

Lemma failed_rounds_S retryDelay a k :
  failed_rounds retryDelay a (S k) =
  [EvCall; EvLogFailed a; EvDelay (retryDelay * a)]
    ++ failed_rounds retryDelay (a + 1) k.
Proof.
  unfold failed_rounds.
  replace (Z.of_nat (S k)) with (Z.succ (Z.of_nat k)) by lia.
  rewrite seqZ_cons by lia. simpl.
  replace (Z.pred (Z.succ (Z.of_nat k))) with (Z.of_nat k) by lia.
  replace (Z.succ a) with (a + 1) by lia. reflexivity.
Qed.

Lemma retry_loop_spec op maxRetries retryDelay :
  forall fuel attempt w tr,
    1 <= attempt <= maxRetries ->
    (Z.to_nat (maxRetries - attempt + 1) <= fuel)%nat ->
    let r := retry_loop fuel op maxRetries retryDelay attempt w tr in
    exists k : nat,
      attempt + Z.of_nat k <= maxRetries /\
      (forall j, (j < k)%nat -> exists e, nth_result op w j = inl e) /\
      world r = world_before op w (S k) /\
      ((exists v, nth_result op w k = inr v /\ outcome r = Returned v /\
          trace r = tr ++ failed_rounds retryDelay attempt k ++ [EvCall])
       \/
       (attempt + Z.of_nat k = maxRetries /\
        exists e, nth_result op w k = inl e /\ outcome r = Thrown e /\
          trace r = tr ++ failed_rounds retryDelay attempt k
                       ++ [EvCall; EvLogFailed maxRetries])).
Proof.
  induction fuel as [|fuel IH]; intros attempt w tr Ha Hfuel; [lia|].
  simpl. destruct (Z.leb_spec attempt maxRetries) as [_|]; [|lia].
  destruct (op w) as [[e|v] w'] eqn:Hop.
  - destruct (Z.eqb_spec attempt maxRetries) as [->|Hne].
    + exists O. simpl. split; [lia|]. split; [intros; lia|].
      rewrite ?Hop. split; [reflexivity|]. right. split; [lia|].
      exists e. unfold nth_result. simpl. rewrite ?Hop. auto.
    + destruct (IH (attempt + 1) w'
                  (tr ++ [EvCall; EvLogFailed attempt;
                          EvDelay (retryDelay * attempt)]))
        as (k & Hk & Hfail & Hw & Hend); [lia|lia|].
      exists (S k). split; [lia|]. split.
      { intros [|j] Hj.
        - exists e. unfold nth_result. simpl. now rewrite ?Hop.
        - destruct (Hfail j) as [e' He']; [lia|]. exists e'.
          unfold nth_result in *. simpl. now rewrite ?Hop. }
      split.
      { rewrite Hw. simpl. now rewrite ?Hop. }
      rewrite failed_rounds_S.
      assert (Hnth : nth_result op w (S k) = nth_result op w' k).
      { unfold nth_result. simpl. now rewrite ?Hop. }
      rewrite Hnth.
      destruct Hend as [(v & Hv & Ho & Ht)|(Hmax & e' & He' & Ho & Ht)].
      * left. exists v. rewrite Ht, <- !app_assoc. auto.
      * right. split; [lia|]. exists e'. rewrite Ht, <- !app_assoc. auto.
  - exists O. simpl. split; [lia|]. split; [intros; lia|].
    rewrite ?Hop. split; [reflexivity|]. left.
    exists v. unfold nth_result. simpl. rewrite ?Hop. auto.
Qed.

Lemma filter_calls_failed_rounds retryDelay a k :
  List.length (List.filter is_call (failed_rounds retryDelay a k)) = k.
Proof.
  revert a. induction k as [|k IH]; intros a; [reflexivity|].
  rewrite failed_rounds_S. simpl. now rewrite IH.
Qed.

Lemma delays_failed_rounds retryDelay a k :
  omap delay_of (failed_rounds retryDelay a k) =
  List.map (fun j => retryDelay * j) (seqZ a (Z.of_nat k)).
Proof.
  revert a. induction k as [|k IH]; intros a; [reflexivity|].
  rewrite failed_rounds_S. simpl. rewrite IH.
  replace (Z.of_nat (S k)) with (Z.succ (Z.of_nat k)) by lia.
  rewrite (seqZ_cons a) by lia. simpl.
  replace (Z.pred (Z.succ (Z.of_nat k))) with (Z.of_nat k) by lia.
  replace (Z.succ a) with (a + 1) by lia. reflexivity.
Qed.

(** C6.  For every operation and every [maxRetries >= 1], the retry
    executor invokes the operation [n] times for some [1 <= n <= maxRetries],
    where the first [n - 1] invocations fail; it sleeps
    [retryDelay * attempt] after each of these failed attempts and after
    no other; and either the [n]-th invocation succeeds and its value is
    returned, or [n = maxRetries], the [n]-th invocation fails and exactly
    that error is thrown. *)
Theorem retryOperation_bounded_linear_backoff
    op (maxRetries retryDelay : Z) w :
  1 <= maxRetries ->
  let r := retryOperation op maxRetries retryDelay w in
  exists n : nat,
    (1 <= n)%nat /\ Z.of_nat n <= maxRetries /\
    invocations r = n /\
    (forall j, (j < n - 1)%nat -> exists e, nth_result op w j = inl e) /\
    delays r =
      List.map (fun attempt => retryDelay * attempt)
               (seqZ 1 (Z.of_nat (n - 1))) /\
    world r = world_before op w n /\
    ((exists v, nth_result op w (n - 1) = inr v /\ outcome r = Returned v)
     \/
     (Z.of_nat n = maxRetries /\
      exists e, nth_result op w (n - 1) = inl e /\ outcome r = Thrown e)).
Proof.
  intros Hmax r.
  destruct (retry_loop_spec op maxRetries retryDelay
              (Z.to_nat maxRetries) 1 w []) as (k & Hk & Hfail & Hw & Hend);
    [lia|lia|].
  fold (retryOperation op maxRetries retryDelay w) in Hw, Hend.
  fold r in Hw, Hend.
  exists (S k). replace (S k - 1)%nat with k by lia.
  split; [lia|]. split; [lia|].
  assert (Htr : exists tl, trace r = failed_rounds retryDelay 1 k ++ tl /\
                           List.filter is_call tl = [EvCall] /\
                           omap delay_of tl = []).
  { destruct Hend as [(v & _ & _ & Ht)|(_ & e & _ & _ & Ht)];
      rewrite Ht; simpl; eexists; split; try reflexivity; auto. }
  destruct Htr as (tl & Ht & Hc & Hd).
  split.
  { unfold invocations. rewrite Ht, List.filter_app, List.length_app, Hc.
    rewrite filter_calls_failed_rounds. simpl. lia. }
  split; [exact Hfail|]. split.
  { unfold delays. rewrite Ht, omap_app, Hd, app_nil_r.
    apply delays_failed_rounds. }
  split; [exact Hw|].
  destruct Hend as [(v & Hv & Ho & _)|(Hlast & e & He & Ho & _)].
  - left. eauto.
  - right. split; [lia|]. eauto.
Qed.

Lemma retryOperation_returned op (maxRetries retryDelay : Z) w v :
  outcome (retryOperation op maxRetries retryDelay w) = Returned v ->
  exists n, nth_result op w n = inr v.
Proof.
  intros H. destruct (Z.le_gt_cases 1 maxRetries) as [Hmax|Hmax].
  - destruct (retry_loop_spec op maxRetries retryDelay
                (Z.to_nat maxRetries) 1 w []) as (k & _ & _ & _ & Hend);
      [lia|lia|].
    fold (retryOperation op maxRetries retryDelay w) in Hend.
    destruct Hend as [(v' & Hv & Ho & _)|(_ & e & _ & Ho & _)];
      rewrite Ho in H; [|discriminate].
    injection H as ->. eauto.
  - unfold retryOperation in H.
    replace (Z.to_nat maxRetries) with O in H by lia. discriminate.
Qed.

End RetryFacts.

Lemma retryOperation_bounded_linear_backoff_witness :
  let r := Retry.retryOperation Retry.flaky 3 5000 O in
  exists n : nat,
    (1 <= n)%nat /\ Z.of_nat n <= 3 /\
    Retry.invocations r = n /\
    (forall j, (j < n - 1)%nat ->
               exists e, Retry.nth_result Retry.flaky O j = inl e) /\
    Retry.delays r =
      List.map (fun attempt => 5000 * attempt) (seqZ 1 (Z.of_nat (n - 1))) /\
    Retry.world r = Retry.world_before Retry.flaky O n /\
    ((exists v, Retry.nth_result Retry.flaky O (n - 1) = inr v /\
                Retry.outcome r = Retry.Returned v)
     \/
     (Z.of_nat n = 3 /\
      exists e, Retry.nth_result Retry.flaky O (n - 1) = inl e /\
                Retry.outcome r = Retry.Thrown e)).
Proof.
  apply (retryOperation_bounded_linear_backoff Retry.flaky 3 5000 O). lia.
Defined.

(** ** Address validation *)

Section AddressFacts.
Import Regex.

Let hex := [("0", "9"); ("a", "f"); ("A", "F")]%char.

Lemma is_hex_digit_class c :
  Web3Utils.is_hex_digit c = existsb (in_range c) hex.
Proof. destruct c as [[] [] [] [] [] [] [] []]; reflexivity. Qed.

Lemma matches_rep_class n cs :
  matches (Rep n (Class hex)) cs <->
  List.length cs = n /\ forallb Web3Utils.is_hex_digit cs = true.
Proof.
  split.
  - revert cs. induction n as [|n IH]; intros cs H.
    + inversion H; subst. now split.
    + inversion H as [| | | |n' r s1 s2 H1 H2]; subst.
      inversion H1; subst. destruct (IH _ H2) as [Hl Hf].
      simpl. rewrite Hl, Hf, is_hex_digit_class. split; [reflexivity|].
      now apply andb_true_intro.
  - revert n. induction cs as [|c cs IH]; intros n [Hl Hf]; simpl in *.
    + subst. constructor.
    + subst n. apply andb_prop in Hf as [Hc Hf].
      change (c :: cs) with ([c] ++ cs). constructor.
      * constructor. now rewrite <- is_hex_digit_class.
      * apply IH. now split.
Qed.

(** C4.  [isValidAddress(s)] is true exactly for the strings matching
    [/^0x[0-9a-fA-F]{40}$/], whatever the case of the hexadecimal digits,
    and so false for every other string. *)
Theorem isValidAddress_iff_pattern (s : string) :
  DataFetcher.isValidAddress s = true <->
  matches address_pattern (list_ascii_of_string s).
Proof.
  unfold DataFetcher.isValidAddress, Web3Utils.isAddress, address_pattern.
  fold hex. split.
  - destruct s as [|c0 [|c1 r]]; [discriminate| |].
    { destruct c0 as [[] [] [] [] [] [] [] []]; discriminate. }
    destruct (Ascii.eqb_spec c0 "0"%char) as [->|Hn0].
    2:{ destruct c0 as [[] [] [] [] [] [] [] []]; try discriminate.
        now contradict Hn0. }
    destruct (Ascii.eqb_spec c1 "x"%char) as [->|Hn1].
    2:{ destruct c1 as [[] [] [] [] [] [] [] []]; try discriminate.
        now contradict Hn1. }
    intros H. apply andb_prop in H as [Hl Hf].
    apply Nat.eqb_eq in Hl. simpl.
    change ("0"%char :: "x"%char :: list_ascii_of_string r)
      with (["0"%char] ++ ["x"%char] ++ list_ascii_of_string r).
    repeat constructor. now apply matches_rep_class.
  - intros H.
    inversion H as [| |r1 r2 s1 s2 H1 H2 Hr Hs| |]; subst.
    inversion H1; subst.
    inversion H2 as [| |r1' r2' s1' s2' H3 H4 Hr' Hs'| |]; subst.
    inversion H3; subst.
    apply matches_rep_class in H4 as [Hl Hf].
    simpl in Hs. destruct s as [|c0 [|c1 r]]; try discriminate.
    simpl in Hs. injection Hs as <- <- <-.
    rewrite Hl, Hf. reflexivity.
Qed.

End AddressFacts.

(** ** Delegator counts *)

Section StatisticsFacts.
Import DatabasePopulator Reference.
Variable validate : Validator.doc -> bool.
Variable now : Z.

Lemma countDocuments_lowercase rks v :
  stored_lowercase v ->
  Restaker.countDocuments_by_target rks (Validator.operatorAddress v)
  = delegators_of rks (Validator.operatorAddress v).
Proof.
  unfold stored_lowercase, Restaker.countDocuments_by_target, delegators_of.
  now intros ->.
Qed.

Lemma recount_loop_completed rks vs :
  Forall stored_lowercase vs ->
  rc_completed (recount_loop validate now rks vs) = true ->
  rc_validators (recount_loop validate now rks vs)
  = List.map
      (fun v =>
         if stale rks v
         then Validator.pre_save now
                (Validator.set_delegatorCount v
                   (delegators_of rks (Validator.operatorAddress v)))
         else v) vs
  /\ rc_saved (recount_loop validate now rks vs)
     = List.map Validator.operatorAddress (List.filter (stale rks) vs).
Proof.
  induction 1 as [|v vs Hv Hvs IH]; simpl; [auto|].
  rewrite (countDocuments_lowercase rks v Hv). unfold stale at 1 3.
  destruct (negb _) eqn:Hstale; simpl.
  - destruct (validate _); simpl; [|discriminate].
    intros Hc. destruct (IH Hc) as [-> ->]. auto.
  - intros Hc. destruct (IH Hc) as [-> ->]. auto.
Qed.

(** C3.  When the statistics pass runs to its end, every validator document
    holds as [delegatorCount] the exact number of restaker documents whose
    [targetAVSOperatorAddress] is its [operatorAddress]; the documents
    saved are exactly those whose stored count differed, the others are
    left as they were, and the restakers are not touched. *)
Theorem updateStatistics_delegatorCount db db' saved :
  Forall stored_lowercase (validators db) ->
  updateStatistics validate now db = (db', saved, true) ->
  restakers db' = restakers db /\
  Forall (fun v =>
            Validator.delegatorCount v
            = delegators_of (restakers db') (Validator.operatorAddress v))
         (validators db') /\
  List.map Validator.operatorAddress (validators db')
  = List.map Validator.operatorAddress (validators db) /\
  saved = List.map Validator.operatorAddress
            (List.filter (stale (restakers db)) (validators db)) /\
  (forall v, In v (validators db) -> stale (restakers db) v = false ->
             In v (validators db')).
Proof.
  intros Hlow Hrun. unfold updateStatistics in Hrun.
  injection Hrun as <- <- Hc. simpl.
  destruct (recount_loop_completed (restakers db) (validators db) Hlow Hc)
    as [Hvs Hsaved].
  rewrite Hvs, Hsaved. split; [reflexivity|].
  split; [|split; [|split; [reflexivity|]]].
  - apply List.Forall_forall. intros v' Hin.
    apply List.in_map_iff in Hin as (v & <- & _).
    unfold stale. destruct (Z.eqb_spec (Validator.delegatorCount v)
      (delegators_of (restakers db) (Validator.operatorAddress v)));
      simpl; auto.
  - rewrite List.map_map. apply List.map_ext. intros v.
    now destruct (stale _ v).
  - intros v Hin Hst. apply List.in_map_iff. exists v. now rewrite Hst.
Qed.

End StatisticsFacts.

Lemma updateStatistics_delegatorCount_witness :
  let '(db', saved, _) :=
    DatabasePopulator.updateStatistics Sample.validate 1700000001000
      Sample.db in
  Forall (fun v =>
            Validator.delegatorCount v
            = Reference.delegators_of (DatabasePopulator.restakers db')
                (Validator.operatorAddress v))
         (DatabasePopulator.validators db')
  /\ saved = [Sample.operator_a].
Proof.
  destruct (updateStatistics_delegatorCount Sample.validate 1700000001000
              Sample.db
              (fst (fst (DatabasePopulator.updateStatistics Sample.validate
                           1700000001000 Sample.db)))
              (snd (fst (DatabasePopulator.updateStatistics Sample.validate
                           1700000001000 Sample.db))))
    as (_ & Hcount & _ & Hsaved & _).
  - repeat constructor.
  - reflexivity.
  - split; [exact Hcount | exact Hsaved].
Defined.

(** ** Operator normalisation *)

Section ValidatorFacts.
Import JS DataFetcher Reference.

Lemma add_slashings_lookup sl :
  forall m m', forEachM add_slashing sl m = Ok m' ->
  forall id, default [] (m' !! id) = default [] (m !! id) ++ history_of sl id.
Proof.
  induction sl as [|slash sl IH]; intros m m' H id; simpl in *.
  - injection H as <-. now rewrite app_nil_r.
  - unfold add_slashing at 1 in H. unfold history_of. simpl.
    destruct (sl_operator slash) as [operator|]; simpl in H; [|discriminate].
    destruct (Web3Utils.fromWei (sl_amount slash)) as [amount|];
      simpl in H |- *; [|now destruct (m !! ref_id operator)].
    fold (history_of sl id).
    rewrite (IH _ _ H id). clear IH H.
    destruct (String.eqb_spec (ref_id operator) id) as [<-|Hne].
    + rewrite lookup_insert_eq. simpl.
      destruct (m !! ref_id operator) eqn:Hm; simpl.
      * now rewrite Hm, <- app_assoc.
      * now rewrite lookup_insert_eq.
    + rewrite lookup_insert_ne by exact Hne.
      destruct (m !! ref_id operator) eqn:Hm; simpl; [reflexivity|].
      now rewrite lookup_insert_ne by exact Hne.
Qed.

Lemma fold_try_push_validator {A} (f : A -> result ValidatorData) l :
  forall vs,
    fold_left (fun vs a => try_push_validator vs (f a)) l vs
    = vs ++ omap (fun a => to_option (f a)) l.
Proof.
  induction l as [|a l IH]; intros vs; simpl.
  - now rewrite app_nil_r.
  - rewrite IH. destruct (f a); simpl; [now rewrite <- app_assoc|reflexivity].
Qed.

Lemma transformValidatorData_inv now data vs :
  transformValidatorData now data = Ok vs ->
  exists m,
    (forall id, default [] (m !! id)
                = history_of (default [] (slashings data)) id) /\
    vs = omap (fun operator => to_option (transform_operator now m operator))
              (default [] (operators data)).
Proof.
  unfold transformValidatorData. intros H.
  destruct (match slashings data with
            | Some sl => forEachM add_slashing sl ∅
            | None => Ok ∅
            end) as [m|] eqn:Hm; simpl in H; [|discriminate].
  injection H as <-. exists m. split.
  - intros id. destruct (slashings data) as [sl|]; simpl.
    + rewrite (add_slashings_lookup _ _ _ Hm id). now rewrite lookup_empty.
    + injection Hm as <-. now rewrite lookup_empty.
  - destruct (operators data) as [ops|]; simpl; [|reflexivity].
    now rewrite fold_try_push_validator.
Qed.

(** C8.  Every validator produced by operator normalisation carries the
    slash events of its operator, has status "slashed" exactly when that
    history is non-empty and "active" otherwise, and an operator without
    total shares yields a validator whose total delegated stake is "0";
    appending a slash event with [addSlashEvent] to a validator whose
    status is "active" makes it "slashed", whether or not the [save()]
    that ends the method resolves. *)
Theorem validator_status_follows_slash_history now data vs :
  transformValidatorData now data = Ok vs ->
  (forall v, In v vs ->
     slashHistory v
     = history_of (default [] (slashings data)) (operatorAddress v) /\
     v_status v = match slashHistory v with
                  | [] => "active"
                  | _ :: _ => "slashed"
                  end%string) /\
  (forall operator,
     In operator (default [] (operators data)) ->
     op_totalShares operator = None ->
     exists v, In v vs /\ operatorAddress v = op_id operator /\
               totalDelegatedStakeStETH v = "0"%string) /\
  (forall validate now' d e,
     Validator.status d = "active"%string ->
     Validator.status
       (Mongoose.in_memory (Validator.addSlashEvent validate now' d e))
     = "slashed"%string /\
     Validator.slashHistory
       (Mongoose.in_memory (Validator.addSlashEvent validate now' d e))
     = Validator.slashHistory d ++ [e]).
Proof.
  intros H. destruct (transformValidatorData_inv _ _ _ H) as (m & Hm & ->).
  split; [|split].
  - intros v Hin. apply list_elem_of_In, list_elem_of_omap in Hin
      as (operator & _ & Hv).
    unfold transform_operator in Hv.
    destruct (Web3Utils.fromWei _) as [totalStake|]; [|discriminate].
    simpl in Hv. injection Hv as <-. simpl. rewrite Hm. split; [reflexivity|].
    now destruct (history_of _ _).
  - intros operator Hin Habsent.
    exists {| operatorAddress := op_id operator;
              totalDelegatedStakeStETH := "0";
              slashHistory := default [] (m !! op_id operator);
              v_status :=
                if (0 <? List.length (default [] (m !! op_id operator)))%nat
                          then "slashed" else "active";
              registrationTimestamp :=
                new_Date (fmul (parseInt (op_createdAt operator)) (of_Z 1000));
              lastActivityTimestamp := Some now;
              delegatorCount := 0;
              commission := 0;
              metadataURI := op_metadataURI operator |}.
    split; [|split; reflexivity].
    apply list_elem_of_In, list_elem_of_omap. exists operator.
    split; [now apply list_elem_of_In|].
    unfold transform_operator. now rewrite Habsent.
  - intros validate now' d e Hactive.
    unfold Validator.addSlashEvent, Mongoose.save.
    destruct (validate _); simpl; now rewrite Hactive.
Qed.

End ValidatorFacts.

Lemma validator_status_follows_slash_history_witness :
  exists vs,
    DataFetcher.transformValidatorData 1700000000000 Sample.validator_payload
    = JS.Ok vs /\
    List.map (fun v => (DataFetcher.operatorAddress v, DataFetcher.v_status v,
                        DataFetcher.totalDelegatedStakeStETH v,
                        List.length (DataFetcher.slashHistory v))) vs
    = [(Sample.operator_a, "slashed", "0", 1%nat);
       (Sample.operator_b, "active", "2.5", 0%nat)]%string /\
    (forall v, In v vs ->
       DataFetcher.v_status v = match DataFetcher.slashHistory v with
                                | [] => "active"
                                | _ :: _ => "slashed"
                                end%string).
Proof.
  eexists. split; [vm_compute; reflexivity|]. split; [reflexivity|].
  intros v Hin.
  refine (proj2 (proj1 (validator_status_follows_slash_history
                          1700000000000 Sample.validator_payload _ _) v Hin)).
  vm_compute. reflexivity.
Defined.

(** ** The operator query *)

Section FetchValidatorFacts.
Import JS DataFetcher Reference.

Lemma fetch_operation_indexer self first skip n :
  forall w,
    indexer (Retry.world_before (fetch_operation self first skip) w n)
    = indexer w.
Proof.
  induction n as [|n IH]; intros w; simpl; [reflexivity|].
  rewrite IH. unfold fetch_operation, request.
  now destruct (outages w) as [|[] ?].
Qed.

Lemma take_100_all {A} (l : list A) :
  select {| sel_first := 100; sel_skip := 0 |} l = take 100 l.
Proof. reflexivity. Qed.

(** C10.  Whatever [first] and [skip] are, the query of
    [fetchValidatorData] asks for the slashing events with page size 100
    and no offset, so that the indexer answers with the 100 most recently
    created ones; and the slash history of every validator returned
    consists of the events of its operator among these 100. *)
Theorem fetchValidatorData_slashings_fixed_page self first skip w :
  q_slashings (GetOperators first skip)
  = {| sel_first := 100; sel_skip := 0 |} /\
  slashings (run_query (indexer w) (GetOperators first skip))
  = Some (take 100 (sg_slashings (indexer w))) /\
  forall vs,
    Retry.outcome (fetchValidatorData self first skip w) = Retry.Returned vs ->
    forall v, In v vs ->
      slashHistory v
      = history_of (take 100 (sg_slashings (indexer w))) (operatorAddress v).
Proof.
  split; [reflexivity|]. split; [reflexivity|].
  intros vs Hret v Hin.
  unfold fetchValidatorData in Hret.
  apply retryOperation_returned in Hret as [n Hn].
  unfold Retry.nth_result in Hn.
  pose proof (fetch_operation_indexer self first skip n w) as Hidx.
  set (wn := Retry.world_before (fetch_operation self first skip) w n) in *.
  unfold fetch_operation, request in Hn.
  destruct (outages wn) as [|[] ?]; simpl in Hn; try discriminate;
    rewrite Hidx in Hn;
    (destruct (transformValidatorData _ _) as [vs'|] eqn:Ht in Hn;
       [|discriminate]);
    injection Hn as ->;
    apply transformValidatorData_inv in Ht as (m & Hm & ->);
    apply list_elem_of_In, list_elem_of_omap in Hin as (operator & _ & Hv);
    unfold transform_operator in Hv;
    (destruct (Web3Utils.fromWei _) as [totalStake|]; [|discriminate]);
    simpl in Hv; injection Hv as <-; simpl; now rewrite Hm.
Qed.

End FetchValidatorFacts.

Lemma fetchValidatorData_slashings_fixed_page_witness :
  exists vs,
    Retry.outcome (DataFetcher.fetchValidatorData Sample.fetcher 1 0
                     Sample.world) = Retry.Returned vs /\
    List.map (fun v => (DataFetcher.operatorAddress v,
                        List.length (DataFetcher.slashHistory v))) vs
    = [(Sample.operator_a, 100%nat)] /\
    List.length (DataFetcher.sg_slashings Sample.subgraph) = 101%nat /\
    forall v, In v vs ->
      DataFetcher.slashHistory v
      = Reference.history_of
          (take 100 (DataFetcher.sg_slashings Sample.subgraph))
          (DataFetcher.operatorAddress v).
Proof.
  eexists. split; [vm_compute; reflexivity|].
  split; [reflexivity|]. split; [reflexivity|].
  apply (proj2 (proj2 (fetchValidatorData_slashings_fixed_page
                         Sample.fetcher 1 0 Sample.world))).
  vm_compute. reflexivity.
Defined.

(** ** Delegation normalisation *)

Section RestakingFacts.
Import JS DataFetcher Reference.

Lemma well_formed_record d :
  well_formed d = true -> exists r, record_of d r.
Proof.
  unfold well_formed, numeric, record_of, transform_delegation,
    Web3Utils.fromWei.
  destruct (d_shares d) as [s|]; [|discriminate].
  intros H. apply andb_prop in H as [Hnum Href]. rewrite Hnum.
  destruct (d_delegator d) as [delegator|]; [|discriminate].
  destruct (d_operator d) as [operator|]; [|discriminate].
  simpl. eexists. repeat split.
Qed.

Lemma malformed_throws d :
  well_formed d = false -> exists e, transform_delegation d = Throw e.
Proof.
  unfold well_formed, numeric, transform_delegation, Web3Utils.fromWei.
  destruct (d_shares d) as [s|]; [|simpl; eauto].
  destruct (_ && forallb _ _); simpl; [|eauto].
  destruct (d_delegator d); simpl; [|eauto].
  destruct (d_operator d); simpl; [discriminate|eauto].
Qed.

Lemma fold_try_push f (ds : list RawDelegation) :
  forall a : acc,
    fold_left (fun a d => try_push a (f d)) ds a
    = (fst a ++ omap (fun d => to_option (f d)) ds,
       snd a ++ omap (fun d => match f d with
                               | Throw e => Some e
                               | Ok _ => None
                               end) ds).
Proof.
  induction ds as [|d ds IH]; intros [rs es]; simpl.
  - now rewrite !app_nil_r.
  - rewrite IH. destruct (f d); simpl; now rewrite <- app_assoc.
Qed.

Lemma well_formed_batch ds :
  Forall (fun d => well_formed d = true) ds ->
  exists rs,
    Forall2 record_of ds rs /\
    omap (fun d => to_option (transform_delegation d)) ds = rs /\
    omap (fun d => match transform_delegation d with
                   | Throw e => Some e
                   | Ok _ => None
                   end) ds = [].
Proof.
  induction 1 as [|d ds Hd _ (rs & Hrs & Hok & Herr)].
  - exists []. repeat split. constructor.
  - destruct (well_formed_record d Hd) as [r Hr].
    exists (r :: rs). pose proof Hr as [Ht _].
    split; [now constructor|]. simpl. rewrite Ht. simpl.
    split; [f_equal; exact Hok|exact Herr].
Qed.

(** C5.  In a batch of delegation events of which one is malformed, the
    normaliser returns, in order, one record per well-formed event and
    nothing for the malformed one, whose failure is logged; it does not
    throw.  The number of records is the number of well-formed events. *)
Theorem transformRestakingData_skips_malformed env pre bad post st :
  Forall (fun d => well_formed d = true) (pre ++ post) ->
  well_formed bad = false ->
  default [] st = [] ->
  let data := {| delegations := Some (pre ++ bad :: post); stakers := st |} in
  exists before after e,
    Forall2 record_of pre before /\
    Forall2 record_of post after /\
    transform_delegation bad = Throw e /\
    transformRestakingData_logged env data = Ok (before ++ after, [e]) /\
    transformRestakingData env data = Ok (before ++ after) /\
    List.length (before ++ after) = (List.length pre + List.length post)%nat.
Proof.
  intros Hwf Hbad Hst data.
  apply List.Forall_app in Hwf as [Hpre Hpost].
  destruct (well_formed_batch pre Hpre) as (before & Hb & Hbo & Hbe).
  destruct (well_formed_batch post Hpost) as (after & Ha & Hao & Hae).
  destruct (malformed_throws bad Hbad) as [e He].
  exists before, after, e.
  assert (Hlog : transformRestakingData_logged env data
                 = Ok (before ++ after, [e])).
  { unfold transformRestakingData_logged, data.
    cbn [delegations stakers]. rewrite fold_try_push, !omap_app.
    assert (Hskip : omap (fun d => to_option (transform_delegation d))
                      (bad :: post) = after).
    { simpl. rewrite He. exact Hao. }
    assert (Hlogged : omap (fun d => match transform_delegation d with
                                     | Throw e => Some e
                                     | Ok _ => None
                                     end) (bad :: post) = [e]).
    { simpl. rewrite He. f_equal. exact Hae. }
    rewrite Hskip, Hlogged, Hbo, Hbe.
    destruct st as [[|? ?]|]; simpl in Hst; try discriminate; reflexivity. }
  repeat split; try assumption.
  - unfold transformRestakingData. now rewrite Hlog.
  - rewrite List.length_app.
    now rewrite <- (Forall2_length _ _ _ Hb), <- (Forall2_length _ _ _ Ha).
Qed.

End RestakingFacts.

Lemma transformRestakingData_skips_malformed_witness :
  let batch :=
    [Sample.delegation Sample.wallet_1 "1000000000000000000";
     Sample.delegation Sample.wallet_2 "2500000000000000000";
     Sample.delegation Sample.wallet_1 "not-a-number";
     Sample.delegation Sample.wallet_2 "3";
     Sample.delegation Sample.wallet_1 "40000000000000000000"] in
  exists rs,
    DataFetcher.transformRestakingData Sample.env
      {| DataFetcher.delegations := Some batch;
         DataFetcher.stakers := None |} = JS.Ok rs /\
    List.length batch = 5%nat /\
    List.length rs = 4%nat /\
    List.map DataFetcher.amountRestakedStETH rs
    = ["1"; "2.5"; "0.000000000000000003"; "40"]%string.
Proof.
  intros batch.
  destruct (transformRestakingData_skips_malformed Sample.env
              (firstn 2 batch)
              (Sample.delegation Sample.wallet_1 "not-a-number")
              (skipn 3 batch) None)
    as (before & after & e & _ & _ & _ & _ & Hrun & Hlen).
  - repeat constructor.
  - reflexivity.
  - reflexivity.
  - assert (Hval : exists rs,
              DataFetcher.transformRestakingData Sample.env
                {| DataFetcher.delegations := Some batch;
                   DataFetcher.stakers := None |} = JS.Ok rs /\
              List.map DataFetcher.amountRestakedStETH rs
              = ["1"; "2.5"; "0.000000000000000003"; "40"]%string).
    { eexists. split; [vm_compute; reflexivity|reflexivity]. }
    destruct Hval as (rs & Hval & Hamounts).
    exists rs. split; [exact Hval|]. split; [reflexivity|].
    split; [|exact Hamounts].
    assert (Heq : JS.Ok rs = JS.Ok (before ++ after)).
    { rewrite <- Hval. exact Hrun. }
    injection Heq as ->. exact Hlen.
Defined.

(** ** The rewards client *)

Section RewardsClientFacts.
Import JS DataFetcher Reference.

Lemma usable_after_get self w address url :
  usable self (snd (axios_get w url)) address = usable self w address.
Proof. reflexivity. Qed.

Lemma tried_after_get self w address url endpoints :
  tried self (snd (axios_get w url)) address endpoints
  = tried self w address endpoints.
Proof.
  induction endpoints as [|e rest IH]; cbn [tried]; [reflexivity|].
  now rewrite IH, usable_after_get.
Qed.

Lemma try_endpoints_spec self address endpoints :
  forall w,
    let r := try_endpoints self address endpoints w in
    fst r = head (omap (usable self w address) endpoints) /\
    requested (snd r) = requested w ++ tried self w address endpoints.
Proof.
  induction endpoints as [|endpoint rest IH]; intros w.
  - simpl. now rewrite app_nil_r.
  - destruct (IH (snd (axios_get w (ratedApiUrl self ++ endpoint)%string)))
      as (Hfst & Hreq).
    rewrite usable_after_get in Hfst. rewrite tried_after_get in Hreq.
    cbn [requested axios_get snd] in Hreq. rewrite <- app_assoc in Hreq.
    cbn [try_endpoints tried omap list_omap axios_get clock].
    assert (Hu : usable self w address endpoint
                 = match rated w (ratedApiUrl self ++ endpoint)%string with
                   | HttpOk (Some data) =>
                       to_option
                         (transformRatedRewardsData (clock w) data address)
                   | _ => None
                   end) by reflexivity.
    rewrite Hu. clear Hu.
    destruct (rated w (ratedApiUrl self ++ endpoint)%string)
      as [status|[data|]].
    + split; assumption.
    + destruct (transformRatedRewardsData (clock w) data address);
        cbn [to_option]; split; try assumption; reflexivity.
    + split; assumption.
Qed.

(** C7 (as amended).  Without an API key the rewards client answers
    [null] and requests nothing.  With a key it requests the candidate
    endpoints in their listed order and answers with the normalised data
    of the first one that is usable, that is, whose request succeeds with a
    non-empty body that normalises without error; endpoints after that one
    are not requested; and it answers [null] when no endpoint is usable.
    It never throws. *)
Theorem fetchRewardsFromRated_first_usable env self address w :
  (truthy_string (RATED_API_KEY env) = None ->
   fetchRewardsFromRated env self address w = (None, w)) /\
  (truthy_string (RATED_API_KEY env) <> None ->
   fst (fetchRewardsFromRated env self address w)
   = head (omap (usable self w address) (rated_endpoints address)) /\
   requested (snd (fetchRewardsFromRated env self address w))
   = requested w ++ tried self w address (rated_endpoints address)).
Proof.
  unfold fetchRewardsFromRated. split.
  - now intros ->.
  - intros Hkey. destruct (truthy_string (RATED_API_KEY env)); [|easy].
    apply try_endpoints_spec.
Qed.

End RewardsClientFacts.

(** The two scenarios of the spec: no API key, and a primary route that is
    not found while the secondary one answers. *)
Lemma fetchRewardsFromRated_first_usable_witness :
  DataFetcher.fetchRewardsFromRated
    {| DataFetcher.STETH_STRATEGY_ADDRESS := None;
       DataFetcher.RATED_API_KEY := None |}
    Sample.fetcher Sample.wallet_1 Sample.world_404
  = (None, Sample.world_404) /\
  (exists r,
     fst (DataFetcher.fetchRewardsFromRated Sample.env Sample.fetcher
            Sample.wallet_1 Sample.world_404) = Some r /\
     DataFetcher.transformRatedRewardsData 1700000000000 Sample.five_ether
       Sample.wallet_1 = JS.Ok r) /\
  DataFetcher.requested
    (snd (DataFetcher.fetchRewardsFromRated Sample.env Sample.fetcher
            Sample.wallet_1 Sample.world_404))
  = [Sample.primary Sample.wallet_1; Sample.secondary Sample.wallet_1].
Proof.
  split; [|split].
  - apply (proj1 (fetchRewardsFromRated_first_usable _ _ _ _)). reflexivity.
  - eexists.
    rewrite (proj1 (proj2 (fetchRewardsFromRated_first_usable Sample.env
                             Sample.fetcher Sample.wallet_1 Sample.world_404)
                      ltac:(discriminate))).
    split; vm_compute; reflexivity.
  - rewrite (proj2 (proj2 (fetchRewardsFromRated_first_usable Sample.env
                             Sample.fetcher Sample.wallet_1 Sample.world_404)
                      ltac:(discriminate))).
    vm_compute. reflexivity.
Defined.

(** C7, counterexample.  The primary endpoint answers with a body, but one
    whose amount is not numeric: its normalisation throws inside the [try]
    block and the client goes on to the secondary endpoint, whose data it
    returns. *)
Lemma fetchRewardsFromRated_skips_garbled_body :
  ~ Reference.returns_first_body Sample.env Sample.fetcher Sample.wallet_1
      Sample.world_garbled.
Proof.
  intros H. destruct (H ltac:(discriminate) _ eq_refl) as (r & Hr & _).
  vm_compute in Hr. discriminate.
Qed.

(** ** The reward collection *)

Section RewardStoreFacts.
Import JS DataFetcher DatabasePopulator Reference.








Section Stage.
Variable generateMockRewardsData : nat -> Z -> string -> RewardData.
Variables (env : Env) (self : DatabasePopulator.t) (w0 : World).
Hypothesis no_mock : useMockData self = false.

Let fetched (wallet : string) : option RewardData :=
  fst (fetchRewardsFromRated env (dataFetcher self) wallet w0).




End Stage.



















End RewardStoreFacts.



(** ** Unit conversion *)

Section NumeralFacts.
Import JS Web3Utils.

Lemma digit_val_char c d :
  digit_val c = Some d -> 0 <= d < 10 /\ digit_char d = c.
Proof.
  destruct c as [[] [] [] [] [] [] [] []]; try discriminate;
    intros [= <-]; (split; [lia|reflexivity]).
Qed.

Lemma digit_char_val d :
  0 <= d < 10 -> digit_val (digit_char d) = Some d.
Proof.
  intros H.
  assert (Hd : d = 0 \/ d = 1 \/ d = 2 \/ d = 3 \/ d = 4 \/ d = 5 \/ d = 6
               \/ d = 7 \/ d = 8 \/ d = 9) by lia.
  repeat (destruct Hd as [->|Hd]; [reflexivity|]). now subst.
Qed.

Lemma is_digit_val c :
  is_digit c = true ->
  exists d, digit_val c = Some d /\ 0 <= d < 10 /\ digit_char d = c.
Proof.
  unfold is_digit. destruct (digit_val c) as [d|] eqn:H; [|discriminate].
  intros _. exists d. split; [reflexivity|]. now apply digit_val_char.
Qed.

Lemma numeral_fold ds :
  forall acc,
    fold_left (fun acc c => acc * 10 + default 0 (digit_val c)) ds acc
    = acc * 10 ^ Z.of_nat (List.length ds) + numeral ds.
Proof.
  unfold numeral. induction ds as [|c ds IH]; intros acc.
  - simpl. lia.
  - cbn [fold_left List.length]. rewrite IH, (IH (0 * 10 + _)).
    rewrite Nat2Z.inj_succ, Z.pow_succ_r by lia. lia.
Qed.

Lemma numeral_app a b :
  numeral (a ++ b) = numeral a * 10 ^ Z.of_nat (List.length b) + numeral b.
Proof. unfold numeral at 1. rewrite fold_left_app. apply numeral_fold. Qed.

Lemma numeral_cons c ds :
  numeral (c :: ds)
  = default 0 (digit_val c) * 10 ^ Z.of_nat (List.length ds) + numeral ds.
Proof.
  change (c :: ds) with ([c] ++ ds). rewrite numeral_app. reflexivity.
Qed.

Lemma numeral_single c d : digit_val c = Some d -> numeral [c] = d.
Proof. intros H. unfold numeral. simpl. now rewrite H. Qed.

Lemma numeral_bounds ds :
  forallb is_digit ds = true ->
  0 <= numeral ds < 10 ^ Z.of_nat (List.length ds).
Proof.
  induction ds as [|c ds IH] using rev_ind; intros H.
  - simpl. unfold numeral. simpl. lia.
  - rewrite forallb_app in H. apply andb_prop in H as [Hds Hc].
    simpl in Hc. rewrite andb_true_r in Hc.
    destruct (is_digit_val c Hc) as (d & Hd & Hr & _).
    rewrite numeral_app, List.length_app, (numeral_single c d Hd).
    cbn [List.length].
    rewrite Nat2Z.inj_add, Z.pow_add_r by lia. specialize (IH Hds).
    change (10 ^ Z.of_nat 1) with 10. nia.
Qed.

Lemma numeral_zeros k : numeral (repeat "0"%char k) = 0.
Proof.
  induction k as [|k IH]; [reflexivity|].
  cbn [repeat]. rewrite numeral_cons, IH. reflexivity.
Qed.

Lemma digits_fixed_numeral ds :
  forallb is_digit ds = true ->
  digits_fixed (List.length ds) (numeral ds) = ds.
Proof.
  induction ds as [|c ds IH] using rev_ind; intros H; [reflexivity|].
  rewrite forallb_app in H. apply andb_prop in H as [Hds Hc].
  simpl in Hc. rewrite andb_true_r in Hc.
  destruct (is_digit_val c Hc) as (d & Hd & Hr & Hchar).
  rewrite List.length_app, Nat.add_comm. cbn [List.length Nat.add digits_fixed].
  rewrite numeral_app. cbn [List.length]. change (10 ^ Z.of_nat 1) with 10.
  rewrite (numeral_single c d Hd).
  replace ((numeral ds * 10 + d) / 10) with (numeral ds)
    by (apply Z.div_unique with d; lia).
  replace ((numeral ds * 10 + d) mod 10) with d
    by (apply Z.mod_unique with (numeral ds); lia).
  now rewrite IH, Hchar.
Qed.

Lemma digits_fixed_digits w :
  forall n, forallb is_digit (digits_fixed w n) = true.
Proof.
  induction w as [|w IH]; intros n; [reflexivity|].
  cbn [digits_fixed]. rewrite forallb_app, IH. simpl.
  unfold is_digit. rewrite digit_char_val; [reflexivity|].
  apply Z.mod_pos_bound. lia.
Qed.

Lemma digits_fixed_length w : forall n, List.length (digits_fixed w n) = w.
Proof.
  induction w as [|w IH]; intros n; [reflexivity|].
  cbn [digits_fixed]. rewrite List.length_app, IH. simpl. lia.
Qed.

Lemma numeral_digits_fixed w :
  forall n, 0 <= n -> numeral (digits_fixed w n) = n mod 10 ^ Z.of_nat w.
Proof.
  induction w as [|w IH]; intros n Hn.
  - simpl. now rewrite Z.mod_1_r.
  - cbn [digits_fixed]. rewrite numeral_app. cbn [List.length].
    change (10 ^ Z.of_nat 1) with 10.
    rewrite IH by (apply Z.div_pos; lia).
    unfold numeral at 1. simpl.
    rewrite digit_char_val by (apply Z.mod_pos_bound; lia). simpl.
    rewrite Nat2Z.inj_succ, Z.pow_succ_r by lia.
    rewrite (Z.rem_mul_r n 10 (10 ^ Z.of_nat w)) by lia. lia.
Qed.

Lemma digits_fixed_zero k : digits_fixed k 0 = repeat "0"%char k.
Proof.
  induction k as [|k IH]; [reflexivity|].
  cbn [digits_fixed]. change (0 / 10) with 0. rewrite IH.
  change (digit_char (0 mod 10)) with "0"%char.
  now rewrite <- repeat_cons.
Qed.

Lemma digits_fixed_pad k w :
  forall n, 0 <= n < 10 ^ Z.of_nat w ->
  digits_fixed (k + w) n = repeat "0"%char k ++ digits_fixed w n.
Proof.
  induction w as [|w IH]; intros n Hn.
  - simpl in Hn. replace n with 0 by lia.
    now rewrite Nat.add_0_r, digits_fixed_zero, app_nil_r.
  - rewrite Nat.add_succ_r. cbn [digits_fixed].
    rewrite IH, <- app_assoc; [reflexivity|].
    rewrite Nat2Z.inj_succ, Z.pow_succ_r in Hn by lia.
    split; [apply Z.div_pos; lia|apply Z.div_lt_upper_bound; lia].
Qed.

Lemma strip_leading_zeros_pad k ds :
  strip_leading_zeros (repeat "0"%char k ++ ds) = strip_leading_zeros ds.
Proof. induction k as [|k IH]; [reflexivity|exact IH]. Qed.

Lemma strip_trailing_zeros_pad k ds :
  strip_trailing_zeros (ds ++ repeat "0"%char k) = strip_trailing_zeros ds.
Proof.
  unfold strip_trailing_zeros.
  now rewrite rev_app_distr, rev_repeat, strip_leading_zeros_pad.
Qed.

Lemma numeral_strip ds : numeral (strip_leading_zeros ds) = numeral ds.
Proof.
  induction ds as [|c ds IH]; [reflexivity|]. simpl.
  destruct (Ascii.eqb_spec c "0"%char) as [->|]; [|reflexivity].
  rewrite IH, numeral_cons. reflexivity.
Qed.

Lemma strip_digits ds :
  forallb is_digit ds = true ->
  forallb is_digit (strip_leading_zeros ds) = true.
Proof.
  induction ds as [|c ds IH]; [reflexivity|]. simpl.
  destruct (Ascii.eqb c "0"%char); [|auto].
  intros H. apply andb_prop in H as [_ H]. auto.
Qed.

Lemma pow10_gt_pow2 k : 0 <= k -> 2 ^ k <= 10 ^ k.
Proof. intros H. apply Z.pow_le_mono_l. lia. Qed.

Lemma width_enough n :
  0 <= n -> n < 10 ^ Z.of_nat (S (Z.to_nat (Z.log2 n))).
Proof.
  intros Hn. destruct (Z.eq_dec n 0) as [->|Hne]; [reflexivity|].
  assert (Hlog := Z.log2_spec n ltac:(lia)).
  assert (H0 := Z.log2_nonneg n).
  rewrite Nat2Z.inj_succ, Z2Nat.id by lia.
  pose proof (pow10_gt_pow2 (Z.succ (Z.log2 n)) ltac:(lia)). lia.
Qed.

Lemma digits_of_spec n :
  0 <= n ->
  numeral (digits_of n) = n /\
  forallb is_digit (digits_of n) = true /\
  digits_of n <> [].
Proof.
  intros Hn. unfold digits_of.
  set (w := S (Z.to_nat (Z.log2 n))).
  assert (Hnum : numeral (strip_leading_zeros (digits_fixed w n)) = n).
  { rewrite numeral_strip, numeral_digits_fixed by exact Hn.
    apply Z.mod_small. split; [exact Hn|now apply width_enough]. }
  assert (Hdig := strip_digits _ (digits_fixed_digits w n)).
  destruct (strip_leading_zeros (digits_fixed w n)) as [|c r].
  - unfold numeral in Hnum. simpl in Hnum. subst n. now repeat split.
  - now repeat split.
Qed.

Lemma digits_of_canonical i :
  Reference.canonical i -> digits_of (numeral i) = i.
Proof.
  intros [Hdig [->|(c & r & -> & Hc)]]; [reflexivity|].
  pose proof (numeral_bounds _ Hdig) as Hb.
  assert (Hlow : 10 ^ Z.of_nat (List.length r) <= numeral (c :: r)).
  { rewrite numeral_cons. simpl in Hdig. apply andb_prop in Hdig as [Hcd Hr].
    destruct (is_digit_val c Hcd) as (d & Hd & Hrange & Hchar).
    rewrite Hd. simpl. pose proof (numeral_bounds _ Hr).
    assert (d <> 0) by (intros ->; now apply Hc).
    assert (0 < 10 ^ Z.of_nat (List.length r)) by (apply Z.pow_pos_nonneg; lia).
    nia. }
  unfold digits_of. set (n := numeral (c :: r)) in *.
  assert (Hwidth : (List.length (c :: r) <= S (Z.to_nat (Z.log2 n)))%nat).
  { cbn [List.length]. apply le_n_S.
    assert (Hpos : 0 < n).
    { assert (0 < 10 ^ Z.of_nat (List.length r))
        by (apply Z.pow_pos_nonneg; lia). lia. }
    assert (Z.of_nat (List.length r) <= Z.log2 n); [|lia].
    apply Z.log2_le_pow2; [exact Hpos|].
    pose proof (pow10_gt_pow2 (Z.of_nat (List.length r)) ltac:(lia)). lia. }
  replace (S (Z.to_nat (Z.log2 n)))
    with ((S (Z.to_nat (Z.log2 n)) - List.length (c :: r))
          + List.length (c :: r))%nat by lia.
  rewrite digits_fixed_pad by exact Hb.
  unfold n. rewrite digits_fixed_numeral by exact Hdig.
  rewrite strip_leading_zeros_pad. simpl.
  destruct (Ascii.eqb_spec c "0"%char); [contradiction|reflexivity].
Qed.

Lemma split_point_digits i :
  forallb is_digit i = true ->
  split_point i = (i, None) /\
  forall f, split_point (i ++ "."%char :: f) = (i, Some f).
Proof.
  induction i as [|c i IH]; intros H; [now split|].
  simpl in H. apply andb_prop in H as [Hc Hi].
  destruct (IH Hi) as [H1 H2]. simpl.
  destruct (Ascii.eqb_spec c "."%char) as [->|_]; [discriminate|].
  rewrite H1. split; [reflexivity|]. intros f. now rewrite H2.
Qed.

End NumeralFacts.

Section ConversionFacts.
Import JS Web3Utils Reference.

Lemma canonical_nonempty i : canonical i -> List.length i <> O.
Proof. intros [_ [->|(c & r & -> & _)]]; discriminate. Qed.

Lemma fromWei_scaled i f :
  canonical i ->
  forallb is_digit f = true ->
  (List.length f <= 18)%nat ->
  fromWei
    (Some (string_of_list_ascii
             (digits_of
                (numeral i * 10 ^ 18
                 + numeral f * 10 ^ Z.of_nat (18 - List.length f)))))
  = Ok (string_of_list_ascii
          match strip_trailing_zeros f with
          | [] => i
          | f' => i ++ "."%char :: f'
          end).
Proof.
  intros Hcan Hf Hlen.
  pose proof Hcan as [Hi _].
  pose proof (numeral_bounds i Hi) as Hbi.
  pose proof (numeral_bounds f Hf) as Hbf.
  set (k := (18 - List.length f)%nat).
  assert (Hpad : numeral (f ++ repeat "0"%char k)
                 = numeral f * 10 ^ Z.of_nat k).
  { rewrite numeral_app, repeat_length, numeral_zeros. lia. }
  assert (Hfrac : 0 <= numeral f * 10 ^ Z.of_nat k < 10 ^ 18).
  { rewrite <- Hpad.
    replace 18 with (Z.of_nat (List.length (f ++ repeat "0"%char k))).
    - apply numeral_bounds. rewrite forallb_app, Hf. simpl.
      clear. induction k; [reflexivity|assumption].
    - rewrite List.length_app, repeat_length. unfold k. lia. }
  set (n := numeral i * 10 ^ 18 + numeral f * 10 ^ Z.of_nat k).
  assert (Hn : 0 <= n) by (unfold n; nia).
  destruct (digits_of_spec n Hn) as (Hnum & Hdig & Hne).
  unfold fromWei. rewrite list_ascii_of_string_of_list_ascii, Hdig, Hnum.
  destruct (digits_of n) as [|c0 r0] eqn:Hdn; [contradiction|].
  cbn [List.length Nat.eqb negb andb].
  unfold ether_decimals. change (Z.of_nat 18) with 18.
  replace (n / 10 ^ 18) with (numeral i)
    by (apply Z.div_unique with (numeral f * 10 ^ Z.of_nat k); unfold n; lia).
  replace (n mod 10 ^ 18) with (numeral f * 10 ^ Z.of_nat k)
    by (apply Z.mod_unique with (numeral i); unfold n; lia).
  rewrite (digits_of_canonical i Hcan), <- Hpad.
  replace 18%nat with (List.length (f ++ repeat "0"%char k))
    by (rewrite List.length_app, repeat_length; unfold k; lia).
  rewrite digits_fixed_numeral.
  - rewrite strip_trailing_zeros_pad. now destruct (strip_trailing_zeros f).
  - rewrite forallb_app, Hf. simpl. clear.
    induction k; [reflexivity|assumption].
Qed.

(** C9.  For every valid decimal string [d], [toWei(d, "ether")] succeeds
    and [fromWei] of its result is [d] up to the zeros that end its
    fraction. *)
Theorem fromWei_toWei_roundtrip (d : string) :
  valid_decimal d ->
  exists w,
    DataFetcher.toWei (Some d) = Ok w /\
    DataFetcher.fromWei (Some w) = Ok (normalize d).
Proof.
  intros (i & Hcan & Hshape).
  pose proof Hcan as [Hi _].
  pose proof (canonical_nonempty i Hcan) as Hlen.
  destruct (split_point_digits i Hi) as [Hint Hfrac].
  unfold DataFetcher.toWei, DataFetcher.fromWei, toWei, normalize.
  destruct Hshape as [->|(f & Hne & Hf & Hlenf & ->)];
    rewrite list_ascii_of_string_of_list_ascii.
  - rewrite Hint. cbn [default from_option].
    destruct (List.length i) as [|li] eqn:Hli; [contradiction|].
    rewrite Hi. cbn [Nat.eqb negb andb forallb List.length Nat.leb].
    eexists. split; [reflexivity|].
    pose proof (fromWei_scaled i [] Hcan eq_refl ltac:(simpl; lia)) as H.
    exact H.
  - rewrite Hfrac. cbn [default from_option]. unfold id.
    destruct (List.length i) as [|li] eqn:Hli; [contradiction|].
    rewrite Hi, Hf. destruct f as [|cf rf]; [contradiction|].
    apply Nat.leb_le in Hlenf as Hleb. unfold ether_decimals. rewrite Hleb.
    cbn [Nat.eqb negb andb].
    eexists. split; [reflexivity|].
    exact (fromWei_scaled i (cf :: rf) Hcan Hf Hlenf).
Qed.

End ConversionFacts.

Lemma fromWei_toWei_roundtrip_witness :
  Reference.valid_decimal "123.4500" /\
  exists w,
    DataFetcher.toWei (Some "123.4500"%string) = JS.Ok w /\
    DataFetcher.fromWei (Some w) = JS.Ok "123.45"%string.
Proof.
  assert (Hvalid : Reference.valid_decimal "123.4500").
  { exists ["1"; "2"; "3"]%char. split.
    - split; [reflexivity|]. right. exists "1"%char, ["2"; "3"]%char.
      split; [reflexivity|discriminate].
    - right. exists ["4"; "5"; "0"; "0"]%char.
      split; [discriminate|]. split; [reflexivity|].
      split; [simpl; lia|reflexivity]. }
  split; [exact Hvalid|].
  exact (fromWei_toWei_roundtrip "123.4500" Hvalid).
Defined.

(** ** Binary64 sums *)

Section FloatFacts.
Import JS Web3Utils.

Lemma round_half_even_exact d q :
  0 < q -> round_half_even (d * q) q = d.
Proof.
  intros Hq. unfold round_half_even.
  rewrite Z.div_mul, Z.mod_mul by lia.
  destruct (Z.ltb_spec (2 * 0) q); [reflexivity|lia].
Qed.

(** Integers below [2^53] are doubles. *)
Lemma of_rational_integer k :
  0 <= k < 2 ^ 53 ->
  of_rational false (k * 2 ^ 1074) 1 = Fin (k * 2 ^ 1074).
Proof.
  intros [Hk0 Hk]. unfold of_rational, round_binary64.
  rewrite Z.div_1_r, Z.mul_1_l.
  destruct (Z.eq_dec k 0) as [->|Hne]; [reflexivity|].
  assert (Hlog : Z.log2 (k * 2 ^ 1074) = 1074 + Z.log2 k)
    by (apply Z.log2_mul_pow2; lia).
  assert (HL : 0 <= Z.log2 k < 53).
  { split; [apply Z.log2_nonneg|]. apply Z.log2_lt_pow2; lia. }
  unfold ulp_exp. rewrite Hlog.
  replace (Z.max 0 (1074 + Z.log2 k - 52)) with (1022 + Z.log2 k) by lia.
  set (e := 1022 + Z.log2 k).
  assert (Hsplit : k * 2 ^ 1074 = (k * 2 ^ (52 - Z.log2 k)) * 2 ^ e).
  { rewrite <- Z.mul_assoc, <- Z.pow_add_r by (unfold e; lia).
    do 2 f_equal. unfold e. lia. }
  assert (Hpos : 0 < 2 ^ e) by (apply Z.pow_pos_nonneg; unfold e; lia).
  assert (Hround : round_half_even (k * 2 ^ 1074) (2 ^ e)
                   = k * 2 ^ (52 - Z.log2 k)).
  { rewrite Hsplit. now apply round_half_even_exact. }
  rewrite Hround, <- Hsplit.
  assert (Hlt : k * 2 ^ 1074 < 2 ^ 2098).
  { apply Z.lt_trans with (2 ^ 53 * 2 ^ 1074).
    - apply Z.mul_lt_mono_pos_r; [apply Z.pow_pos_nonneg; lia|exact Hk].
    - rewrite <- Z.pow_add_r by lia. apply Z.pow_lt_mono_r; lia. }
  destruct (Z.ltb_spec (k * 2 ^ 1074) (2 ^ 2098)); [reflexivity|lia].
Qed.

Lemma of_decimal_integer k :
  0 <= k < 2 ^ 53 -> of_decimal false k 0 = Fin (k * 2 ^ 1074).
Proof.
  intros Hk. unfold of_decimal. cbn [Z.leb Z.compare].
  rewrite Z.pow_0_r, Z.mul_1_r. now apply of_rational_integer.
Qed.


End FloatFacts.

(** ** Reward normalisation *)

Section RewardNormalisationFacts.
Import JS Web3Utils DataFetcher Reference.

Lemma read_digits_all ds :
  forallb is_digit ds = true ->
  forall acc cnt,
    read_digits digit_val 10 (string_of_list_ascii ds) acc cnt
    = (acc * 10 ^ Z.of_nat (List.length ds) + numeral ds,
       (cnt + List.length ds)%nat, EmptyString).
Proof.
  induction ds as [|c ds IH]; intros H acc cnt.
  - cbn [string_of_list_ascii read_digits List.length].
    change (numeral []) with 0. rewrite Nat.add_0_r.
    do 2 f_equal. change (Z.of_nat 0) with 0. lia.
  - simpl in H. apply andb_prop in H as [Hc Hds].
    destruct (is_digit_val c Hc) as (d & Hd & _ & _).
    cbn [string_of_list_ascii read_digits]. rewrite Hd, (IH Hds).
    rewrite numeral_cons, Hd. cbn [List.length default from_option].
    rewrite Nat2Z.inj_succ, Z.pow_succ_r by lia.
    do 2 f_equal; [unfold id; lia|lia].
Qed.

Lemma digit_not_special c s :
  is_digit c = true ->
  skip_white_space (String c s) = String c s /\
  read_sign (String c s) = (false, String c s) /\
  String.prefix "Infinity" (String c s) = false.
Proof.
  destruct c as [[] [] [] [] [] [] [] []]; try discriminate;
    intros _; repeat split.
Qed.










End RewardNormalisationFacts.



(** * Further properties *)

(** ** Retry executor: degenerate bounds and exhausted retries *)

Section RetryEdgeFacts.
Import Retry.
Context {W E T : Type}.
Implicit Types (op : operation W E T) (w : W).

(** The loop body never runs for [maxRetries < 1], and otherwise the loop
    is always left by [return] or [throw]: the promise resolves with
    [undefined] exactly when [maxRetries < 1], and then the operation has
    not been invoked at all. *)
Theorem retryOperation_undefined_iff op (maxRetries retryDelay : Z) w :
  (outcome (retryOperation op maxRetries retryDelay w) = ReturnedUndefined
   <-> maxRetries < 1) /\
  (maxRetries < 1 ->
   retryOperation op maxRetries retryDelay w = Run ReturnedUndefined w []).
Proof.
  assert (Hedge : maxRetries < 1 ->
            retryOperation op maxRetries retryDelay w
            = Run ReturnedUndefined w []).
  { intros H. unfold retryOperation.
    replace (Z.to_nat maxRetries) with O by lia. reflexivity. }
  split; [|exact Hedge]. split.
  - intros Hout. destruct (Z.lt_ge_cases maxRetries 1) as [|Hge]; [assumption|].
    destruct (retry_loop_spec op maxRetries retryDelay
                (Z.to_nat maxRetries) 1 w []) as (k & _ & _ & _ & Hend);
      [lia|lia|].
    fold (retryOperation op maxRetries retryDelay w) in Hend.
    destruct Hend as [(v & _ & Ho & _)|(_ & e & _ & Ho & _)];
      rewrite Ho in Hout; discriminate.
  - intros H. now rewrite (Hedge H).
Qed.

Lemma sum_delays retryDelay k :
  forall a,
    2 * fold_right Z.add 0
          (List.map (fun j => retryDelay * j) (seqZ a (Z.of_nat k)))
    = retryDelay * Z.of_nat k * (2 * a + Z.of_nat k - 1).
Proof.
  induction k as [|k IH]; intros a; [simpl; lia|].
  replace (Z.of_nat (S k)) with (Z.succ (Z.of_nat k)) by lia.
  rewrite seqZ_cons by lia. cbn [List.map fold_right].
  replace (Z.pred (Z.succ (Z.of_nat k))) with (Z.of_nat k) by lia.
  specialize (IH (Z.succ a)). nia.
Qed.

Lemma retry_all_fail op (maxRetries retryDelay : Z) w :
  1 <= maxRetries ->
  (forall j, (j < Z.to_nat maxRetries)%nat ->
             exists e, nth_result op w j = inl e) ->
  let r := retryOperation op maxRetries retryDelay w in
  exists k e,
    Z.to_nat maxRetries = S k /\
    nth_result op w k = inl e /\ outcome r = Thrown e /\
    world r = world_before op w (S k) /\
    trace r = failed_rounds retryDelay 1 k ++ [EvCall; EvLogFailed maxRetries].
Proof.
  intros Hmax Hfail r.
  destruct (retry_loop_spec op maxRetries retryDelay
              (Z.to_nat maxRetries) 1 w []) as (k & Hk & _ & Hw & Hend);
    [lia|lia|].
  fold (retryOperation op maxRetries retryDelay w) in Hw, Hend.
  fold r in Hw, Hend.
  destruct Hend as [(v & Hv & _)|(Hlast & e & He & Ho & Ht)].
  - destruct (Hfail k) as [e He]; [lia|]. rewrite He in Hv. discriminate.
  - exists k, e. repeat split; try assumption. lia.
Qed.

Lemma invocations_all_fail retryDelay maxRetries k (tr : list event) :
  tr = failed_rounds retryDelay 1 k ++ [EvCall; EvLogFailed maxRetries] ->
  List.length (List.filter is_call tr) = S k /\
  omap delay_of tr
  = List.map (fun j => retryDelay * j) (seqZ 1 (Z.of_nat k)).
Proof.
  intros ->. rewrite List.filter_app, List.length_app, omap_app.
  rewrite filter_calls_failed_rounds, delays_failed_rounds.
  cbn [List.filter is_call List.length omap list_omap delay_of].
  rewrite app_nil_r. split; [lia|reflexivity].
Qed.

(** When each of the first [maxRetries] invocations fails, the operation
    is invoked exactly [maxRetries] times, the error of the last
    invocation is what is thrown, and the time slept in between adds up to
    [retryDelay * maxRetries * (maxRetries - 1) / 2]. *)
Theorem retryOperation_exhausted op (maxRetries retryDelay : Z) w :
  1 <= maxRetries ->
  (forall j, (j < Z.to_nat maxRetries)%nat ->
             exists e, nth_result op w j = inl e) ->
  let r := retryOperation op maxRetries retryDelay w in
  invocations r = Z.to_nat maxRetries /\
  (exists e, nth_result op w (Z.to_nat maxRetries - 1) = inl e /\
             outcome r = Thrown e) /\
  2 * fold_right Z.add 0 (delays r)
  = retryDelay * maxRetries * (maxRetries - 1).
Proof.
  intros Hmax Hfail r.
  destruct (retry_all_fail op maxRetries retryDelay w Hmax Hfail)
    as (k & e & Hkn & He & Ho & _ & Ht).
  fold r in Ho, Ht.
  destruct (invocations_all_fail _ _ _ _ Ht) as [Hcalls Hdelays].
  rewrite Hkn. replace (S k - 1)%nat with k by lia.
  unfold invocations, delays. rewrite Hcalls, Hdelays.
  split; [reflexivity|]. split; [eauto|].
  rewrite sum_delays. nia.
Qed.

End RetryEdgeFacts.

Lemma retryOperation_exhausted_witness :
  let op := fun calls : nat => (@inl string Z "ETIMEDOUT"%string, S calls) in
  let r := Retry.retryOperation op 3 5000 O in
  Retry.invocations r = 3%nat /\
  Retry.outcome r = Retry.Thrown "ETIMEDOUT"%string /\
  fold_right Z.add 0 (Retry.delays r) = 15000.
Proof.
  intros op r.
  destruct (retryOperation_exhausted op 3 5000 O) as (Hn & _ & Hsum).
  - lia.
  - intros j _. now exists "ETIMEDOUT"%string.
  - fold r in Hn, Hsum. split; [exact Hn|]. split; [reflexivity|].
    change (3 - 1) with 2 in Hsum. lia.
Defined.

(** ** Operator normalisation: what aborts it and what is only skipped *)

Section ValidatorEdgeFacts.
Import JS DataFetcher Reference Notions.

Lemma fromWei_numeric x :
  (numeric x = true -> exists c, Web3Utils.fromWei x = Ok c) /\
  (numeric x = false -> Web3Utils.fromWei x = Throw InvalidNumberError).
Proof.
  unfold numeric, Web3Utils.fromWei. destruct x as [s|]; [|now split].
  cbv zeta. destruct (_ && _); split; intros H; try discriminate; eauto.
Qed.

Lemma add_slashing_ok m slash :
  slashing_ok slash = true -> exists m', add_slashing m slash = Ok m'.
Proof.
  unfold slashing_ok, add_slashing.
  destruct (sl_operator slash); [|discriminate].
  intros Hnum. destruct (proj1 (fromWei_numeric _) Hnum) as [c ->].
  simpl. eauto.
Qed.

Lemma add_slashing_bad m slash :
  slashing_ok slash = false ->
  add_slashing m slash = Throw TypeError \/
  add_slashing m slash = Throw InvalidNumberError.
Proof.
  unfold slashing_ok, add_slashing.
  destruct (sl_operator slash); [|now left].
  intros Hnum. rewrite (proj2 (fromWei_numeric _) Hnum). now right.
Qed.

Lemma add_slashings_result sl :
  forall m,
    (forallb slashing_ok sl = true ->
     exists m', forEachM add_slashing sl m = Ok m') /\
    (forallb slashing_ok sl = false ->
     forEachM add_slashing sl m = Throw TypeError \/
     forEachM add_slashing sl m = Throw InvalidNumberError).
Proof.
  induction sl as [|slash sl IH]; intros m; cbn [forallb forEachM].
  - split; [eauto|discriminate].
  - destruct (slashing_ok slash) eqn:Hs; cbn [andb].
    + destruct (add_slashing_ok m slash Hs) as [m1 ->]. cbn [bind].
      apply IH.
    + split; [discriminate|intros _].
      destruct (add_slashing_bad m slash Hs) as [-> | ->]; auto.
Qed.

Lemma transform_operator_ok now m operator :
  (operator_ok operator = true ->
   exists v, transform_operator now m operator = Ok v /\
             operatorAddress v = op_id operator /\
             delegatorCount v = 0 /\ commission v = 0 /\
             lastActivityTimestamp v = Some now) /\
  (operator_ok operator = false ->
   to_option (transform_operator now m operator) = None).
Proof.
  unfold operator_ok, transform_operator. split; intros H.
  - destruct (proj1 (fromWei_numeric _) H) as [c ->]. simpl.
    eexists. repeat split.
  - now rewrite (proj2 (fromWei_numeric _) H).
Qed.

Lemma emitted_operators now m ops :
  let vs := omap (fun operator => to_option (transform_operator now m operator))
                 ops in
  List.map operatorAddress vs = List.map op_id (List.filter operator_ok ops) /\
  Forall (fun v => delegatorCount v = 0 /\ commission v = 0 /\
                   lastActivityTimestamp v = Some now) vs.
Proof.
  induction ops as [|operator ops [IH1 IH2]]; [now split|].
  cbn [omap list_omap List.filter].
  destruct (operator_ok operator) eqn:Hok.
  - destruct (proj1 (transform_operator_ok now m operator) Hok)
      as (v & -> & Hid & Hrest).
    cbn [to_option List.map]. split; [now rewrite Hid, <- IH1|].
    now constructor.
  - rewrite (proj2 (transform_operator_ok now m operator) Hok).
    now split.
Qed.

Lemma transformValidatorData_throws now data :
  forallb slashing_ok (default [] (slashings data)) = false ->
  transformValidatorData now data = Throw TypeError \/
  transformValidatorData now data = Throw InvalidNumberError.
Proof.
  intros Hbad. unfold transformValidatorData.
  destruct (slashings data) as [sl|]; [|discriminate].
  destruct (proj2 (add_slashings_result sl ∅) Hbad) as [-> | ->]; auto.
Qed.

(** Operator normalisation is aborted by one slashing event that lacks its
    operator or has a non-numeric amount, since the loop over the slashing
    events is not guarded; an operator whose total shares are not numeric
    is only left out.  With well-formed slashing events it returns one
    validator per operator with usable shares, in the order received, each
    with [delegatorCount] and [commission] at 0. *)
Theorem transformValidatorData_abort_or_skip now data :
  (forallb slashing_ok (default [] (slashings data)) = false ->
   transformValidatorData now data = Throw TypeError \/
   transformValidatorData now data = Throw InvalidNumberError) /\
  (forallb slashing_ok (default [] (slashings data)) = true ->
   exists vs,
     transformValidatorData now data = Ok vs /\
     List.map operatorAddress vs
     = List.map op_id
         (List.filter operator_ok (default [] (operators data))) /\
     Forall (fun v => delegatorCount v = 0 /\ commission v = 0 /\
                      lastActivityTimestamp v = Some now) vs).
Proof.
  split; [apply transformValidatorData_throws|].
  - intros Hok.
    assert (Hrun : exists vs, transformValidatorData now data = Ok vs).
    { unfold transformValidatorData.
      destruct (slashings data) as [sl|]; [|cbn [bind]; eauto].
      destruct (proj1 (add_slashings_result sl ∅) Hok) as [m ->].
      cbn [bind]. eauto. }
    destruct Hrun as [vs Hvs]. exists vs. split; [exact Hvs|].
    destruct (transformValidatorData_inv _ _ _ Hvs) as (m & _ & ->).
    apply emitted_operators.
Qed.

End ValidatorEdgeFacts.

Lemma transformValidatorData_abort_or_skip_witness :
  (let garbled :=
     {| DataFetcher.operators := Some [Sample.operator Sample.operator_a None];
        DataFetcher.slashings :=
          Some [Sample.slashing Sample.operator_b "1e18"] |} in
   DataFetcher.transformValidatorData 1700000000000 garbled
   = JS.Throw JS.InvalidNumberError) /\
  (let skipped :=
     {| DataFetcher.operators :=
          Some [Sample.operator Sample.operator_a (Some "12.5");
                Sample.operator Sample.operator_b (Some "7")];
        DataFetcher.slashings := Some [] |} in
   exists vs,
     DataFetcher.transformValidatorData 1700000000000 skipped = JS.Ok vs /\
     List.map DataFetcher.operatorAddress vs = [Sample.operator_b]).
Proof.
  split.
  - intros garbled.
    destruct (proj1 (transformValidatorData_abort_or_skip 1700000000000
                       garbled) eq_refl) as [H|H]; [|exact H].
    vm_compute in H. discriminate.
  - intros skipped.
    destruct (proj2 (transformValidatorData_abort_or_skip 1700000000000
                       skipped) eq_refl) as (vs & Hvs & Hids & _).
    exists vs. split; [exact Hvs|exact Hids].
Defined.

(** ** The operator query: paging and undecodable answers *)

Section FetchValidatorEdgeFacts.
Import JS DataFetcher Reference Notions.

Lemma fetch_operation_requested self first skip n :
  forall w,
    requested (Retry.world_before (fetch_operation self first skip) w n)
    = requested w ++ repeat (eigenlayerSubgraphUrl self) n.
Proof.
  induction n as [|n IH]; intros w; cbn [Retry.world_before repeat].
  - now rewrite app_nil_r.
  - rewrite IH. unfold fetch_operation, request.
    destruct (outages w) as [|[] ?]; cbn [snd requested];
      now rewrite <- app_assoc.
Qed.

Lemma fetch_operation_answer self first skip w vs :
  fst (fetch_operation self first skip w) = inr vs ->
  transformValidatorData (clock w)
    (run_query (indexer w) (GetOperators first skip)) = Ok vs.
Proof.
  unfold fetch_operation, request.
  destruct (outages w) as [|[] ?]; cbn [fst clock]; try discriminate;
    (destruct (transformValidatorData _ _); [|discriminate]);
    now intros [= ->].
Qed.

Lemma fetch_returned_inv self first skip w vs :
  Retry.outcome (fetchValidatorData self first skip w) = Retry.Returned vs ->
  exists now,
    transformValidatorData now
      (run_query (indexer w) (GetOperators first skip)) = Ok vs.
Proof.
  intros Hret. unfold fetchValidatorData in Hret.
  apply retryOperation_returned in Hret as [n Hn].
  unfold Retry.nth_result in Hn. apply fetch_operation_answer in Hn.
  rewrite fetch_operation_indexer in Hn. eauto.
Qed.

(** The validators returned by [fetchValidatorData] are those of the page
    of operators asked for: one per operator with usable shares among the
    [first] operators that follow the [skip] most recent ones, in that
    order; so there are at most [first] of them. *)
Theorem fetchValidatorData_page self first skip w vs :
  Retry.outcome (fetchValidatorData self first skip w) = Retry.Returned vs ->
  List.map operatorAddress vs
  = List.map op_id
      (List.filter operator_ok
         (take (Z.to_nat first)
               (drop (Z.to_nat skip) (sg_operators (indexer w))))) /\
  (List.length vs <= Z.to_nat first)%nat.
Proof.
  intros Hret. destruct (fetch_returned_inv _ _ _ _ _ Hret) as [now Hvs].
  destruct (transformValidatorData_inv _ _ _ Hvs) as (m & _ & Hvs').
  change (default [] (operators (run_query (indexer w)
                                   (GetOperators first skip))))
    with (take (Z.to_nat first)
               (drop (Z.to_nat skip) (sg_operators (indexer w)))) in Hvs'.
  destruct (emitted_operators now m
              (take (Z.to_nat first)
                    (drop (Z.to_nat skip) (sg_operators (indexer w)))))
    as [Hids _].
  cbv zeta in Hids. rewrite <- Hvs' in Hids.
  split; [exact Hids|].
  rewrite <- (List.length_map operatorAddress), Hids, List.length_map.
  etransitivity; [apply List.filter_length_le|].
  rewrite length_take. lia.
Qed.

Lemma fetch_operation_garbled self first skip w :
  forallb slashing_ok (take 100 (sg_slashings (indexer w))) = false ->
  forall j, exists e,
    Retry.nth_result (fetch_operation self first skip) w j = inl e.
Proof.
  intros Hbad j. unfold Retry.nth_result.
  pose proof (fetch_operation_indexer self first skip j w) as Hidx.
  set (wj := Retry.world_before (fetch_operation self first skip) w j) in *.
  destruct (fst (fetch_operation self first skip wj)) as [e|vs] eqn:Hres;
    [eauto|exfalso].
  apply fetch_operation_answer in Hres. rewrite Hidx in Hres.
  destruct (transformValidatorData_throws (clock wj)
              (run_query (indexer w) (GetOperators first skip)) Hbad)
    as [H|H]; rewrite H in Hres; discriminate.
Qed.

(** An answer that cannot be normalised is treated like a failed request:
    when one of the 100 slashing events the query selects is malformed,
    [fetchValidatorData] sends the same request [maxRetries] times, sleeping
    in between, and then throws. *)
Theorem fetchValidatorData_garbled_answer self first skip w :
  1 <= maxRetries self ->
  forallb slashing_ok (take 100 (sg_slashings (indexer w))) = false ->
  let r := fetchValidatorData self first skip w in
  (exists e, Retry.outcome r = Retry.Thrown e) /\
  Retry.invocations r = Z.to_nat (maxRetries self) /\
  requested (Retry.world r)
  = requested w
    ++ repeat (eigenlayerSubgraphUrl self) (Z.to_nat (maxRetries self)).
Proof.
  intros Hmax Hbad r.
  destruct (retry_all_fail (fetch_operation self first skip)
              (maxRetries self) (retryDelay self) w Hmax)
    as (k & e & Hkn & _ & Ho & Hw & Ht).
  { intros j _. now apply fetch_operation_garbled. }
  fold (fetchValidatorData self first skip w) in Ho, Hw, Ht.
  fold r in Ho, Hw, Ht.
  destruct (invocations_all_fail _ _ _ _ Ht) as [Hcalls _].
  split; [eauto|]. split.
  - unfold Retry.invocations. now rewrite Hcalls, Hkn.
  - now rewrite Hw, fetch_operation_requested, Hkn.
Qed.

End FetchValidatorEdgeFacts.

Lemma fetchValidatorData_page_witness :
  exists vs,
    Retry.outcome (DataFetcher.fetchValidatorData Sample.fetcher 1 1
                     Sample.world) = Retry.Returned vs /\
    List.map DataFetcher.operatorAddress vs = [Sample.operator_b] /\
    (List.length vs <= 1)%nat.
Proof.
  eexists. split; [vm_compute; reflexivity|]. split; [reflexivity|].
  apply (proj2 (fetchValidatorData_page Sample.fetcher 1 1 Sample.world _
                  ltac:(vm_compute; reflexivity))).
Defined.

Lemma fetchValidatorData_garbled_answer_witness :
  let w :=
    {| DataFetcher.indexer :=
         {| DataFetcher.sg_operators :=
              [Sample.operator Sample.operator_a None];
            DataFetcher.sg_slashings :=
              [Sample.slashing Sample.operator_a "0.5"] |};
       DataFetcher.outages := [];
       DataFetcher.rated := fun _ => DataFetcher.HttpError 404;
       DataFetcher.clock := 1700000000000;
       DataFetcher.draws := O;
       DataFetcher.requested := [] |} in
  let r := DataFetcher.fetchValidatorData Sample.fetcher 100 0 w in
  Retry.outcome r = Retry.Thrown JS.InvalidNumberError /\
  Retry.invocations r = 3%nat /\
  List.length (DataFetcher.requested (Retry.world r)) = 3%nat.
Proof.
  intros w r.
  destruct (fetchValidatorData_garbled_answer Sample.fetcher 100 0 w)
    as (_ & Hcalls & Hreq); [simpl; lia|reflexivity|].
  fold r in Hcalls, Hreq. split; [vm_compute; reflexivity|].
  split; [exact Hcalls|]. now rewrite Hreq.
Defined.

(** ** Delegation normalisation: the staker branch *)

Section StakerFacts.
Import JS DataFetcher Reference Notions.

Lemma filterM_stETH env deposits :
  (forallb (fun deposit => match dep_strategy deposit with
                           | Some _ => true
                           | None => false
                           end) deposits = true ->
   filterM (is_stETH_deposit env) deposits
   = Ok (List.filter (is_stETH env) deposits)) /\
  (forallb (fun deposit => match dep_strategy deposit with
                           | Some _ => true
                           | None => false
                           end) deposits = false ->
   filterM (is_stETH_deposit env) deposits = Throw TypeError).
Proof.
  induction deposits as [|deposit deposits [IHok IHbad]];
    [split; [reflexivity|discriminate]|].
  cbn [forallb filterM List.filter]. unfold is_stETH_deposit at 1 3, is_stETH.
  destruct (dep_strategy deposit) as [strategy|]; cbn [andb deref bind];
    [|split; [discriminate|reflexivity]].
  split; intros H.
  - rewrite (IHok H). cbn [bind]. reflexivity.
  - rewrite (IHbad H). reflexivity.
Qed.

Lemma fold_try_push_deposits staker deposits :
  forall a : acc,
    fst (fold_left
           (fun a deposit => try_push a (transform_deposit staker deposit))
           deposits a)
    = fst a ++ omap (fun deposit =>
                       to_option (transform_deposit staker deposit)) deposits.
Proof.
  induction deposits as [|deposit deposits IH]; intros [rs es];
    cbn [fold_left omap list_omap fst]; [now rewrite app_nil_r|].
  rewrite IH. destruct (transform_deposit staker deposit);
    cbn [try_push fst to_option]; [now rewrite <- app_assoc|reflexivity].
Qed.

Lemma process_staker_result env (a : acc) staker :
  (staker_ok staker = true ->
   exists a', process_staker env a staker = Ok a' /\
              fst a' = fst a ++ deposit_records env staker) /\
  (staker_ok staker = false -> process_staker env a staker = Throw TypeError).
Proof.
  unfold staker_ok, process_staker, deposit_records.
  destruct (st_deposits staker) as [deposits|]; cbn [deref bind default];
    [|split; [discriminate|reflexivity]].
  destruct (filterM_stETH env deposits) as [Hok Hbad].
  split; intros H.
  - rewrite (Hok H). cbn [bind]. eexists. split; [reflexivity|].
    apply fold_try_push_deposits.
  - now rewrite (Hbad H).
Qed.

Lemma stakers_result env ss :
  forall a : acc,
    (forallb staker_ok ss = true ->
     exists a', forEachM (process_staker env) ss a = Ok a' /\
                fst a' = fst a ++ flat_map (deposit_records env) ss) /\
    (forallb staker_ok ss = false ->
     forEachM (process_staker env) ss a = Throw TypeError).
Proof.
  induction ss as [|staker ss IH]; intros a; cbn [forallb forEachM flat_map].
  - split; [|discriminate]. intros _. exists a. now rewrite app_nil_r.
  - destruct (process_staker_result env a staker) as [Hok Hbad].
    destruct (staker_ok staker); cbn [andb].
    + destruct (Hok eq_refl) as (a1 & -> & Ha1). cbn [bind].
      destruct (IH a1) as [IHok IHbad]. split; intros H.
      * destruct (IHok H) as (a' & -> & Ha'). exists a'.
        split; [reflexivity|]. now rewrite Ha', Ha1, <- app_assoc.
      * exact (IHbad H).
    + split; [discriminate|]. intros _. now rewrite (Hbad eq_refl).
Qed.

Lemma omap_length_le {A B} (f : A -> option B) l :
  (List.length (omap f l) <= List.length l)%nat.
Proof.
  induction l as [|a l IH]; cbn [omap list_omap List.length]; [lia|].
  destruct (f a); cbn [List.length]; fold (omap f l); lia.
Qed.

Lemma deposit_record_fields env staker :
  Forall (fun r => userAddress r = st_id staker /\
                   targetAVSOperatorAddress r = zero_address /\
                   status r = "active"%string)
         (deposit_records env staker).
Proof.
  unfold deposit_records. apply List.Forall_forall. intros r Hin.
  apply list_elem_of_In, list_elem_of_omap in Hin as (deposit & _ & Hr).
  unfold transform_deposit in Hr.
  destruct (Web3Utils.fromWei (dep_shares deposit)); [|discriminate].
  cbn [bind to_option] in Hr. injection Hr as <-. now repeat split.
Qed.

(** The filter over a staker's deposits runs outside any [try] block: a
    staker without a list of deposits, or with a deposit that names no
    strategy, makes [transformRestakingData] throw a [TypeError], whatever
    the delegation events were; nothing else makes it throw.  Otherwise it
    returns the records of the delegations followed by those of the
    stakers' stETH deposits, the latter attributed to their staker and to
    the zero address; deposits into other strategies yield nothing. *)
Theorem transformRestakingData_staker_branch env data :
  (forallb staker_ok (default [] (stakers data)) = false ->
   transformRestakingData env data = Throw TypeError) /\
  (forallb staker_ok (default [] (stakers data)) = true ->
   transformRestakingData env data
   = Ok (delegation_records (default [] (delegations data))
         ++ flat_map (deposit_records env) (default [] (stakers data))) /\
   forall staker,
     In staker (default [] (stakers data)) ->
     Forall (fun r => userAddress r = st_id staker /\
                      targetAVSOperatorAddress r = zero_address /\
                      status r = "active"%string)
            (deposit_records env staker) /\
     (List.length (deposit_records env staker)
      <= List.length (List.filter (is_stETH env)
                        (default [] (st_deposits staker))))%nat).
Proof.
  assert (Hdel : forall ds,
            fst (fold_left
                   (fun a d => try_push a (transform_delegation d)) ds
                   (([], []) : acc))
            = delegation_records ds).
  { intros ds. now rewrite fold_try_push. }
  unfold transformRestakingData, transformRestakingData_logged.
  set (a1 := match delegations data with
             | Some ds => fold_left _ ds _
             | None => _
             end).
  assert (Ha1 : fst a1 = delegation_records (default [] (delegations data))).
  { unfold a1. destruct (delegations data); [apply Hdel|reflexivity]. }
  split.
  - intros Hbad. destruct (stakers data) as [ss|]; [|discriminate].
    now rewrite (proj2 (stakers_result env ss a1) Hbad).
  - intros Hok. split.
    + destruct (stakers data) as [ss|]; cbn [default from_option flat_map].
      * destruct (proj1 (stakers_result env ss a1) Hok) as (a' & -> & Ha').
        cbn [bind]. now rewrite Ha', Ha1.
      * cbn [bind]. now rewrite Ha1, app_nil_r.
    + intros staker _. split; [apply deposit_record_fields|].
      unfold deposit_records. apply omap_length_le.
Qed.

End StakerFacts.

Lemma transformRestakingData_staker_branch_witness :
  DataFetcher.transformRestakingData Sample.env
    {| DataFetcher.delegations :=
         Some [Sample.delegation Sample.wallet_1 "1000000000000000000"];
       DataFetcher.stakers := Some [Fixtures.staker_without_deposits] |}
  = JS.Throw JS.TypeError /\
  exists rs,
    DataFetcher.transformRestakingData Sample.env
      {| DataFetcher.delegations :=
           Some [Sample.delegation Sample.wallet_1 "1000000000000000000"];
         DataFetcher.stakers := Some [Fixtures.staker_two_deposits] |}
    = JS.Ok rs /\
    List.map (fun r => (DataFetcher.userAddress r,
                        DataFetcher.amountRestakedStETH r,
                        DataFetcher.targetAVSOperatorAddress r)) rs
    = [(Sample.wallet_1, "1", Sample.operator_a);
       (Sample.wallet_2, "4", Notions.zero_address)]%string.
Proof.
  split.
  - apply (proj1 (transformRestakingData_staker_branch Sample.env _)).
    reflexivity.
  - eexists. split.
    + apply (proj2 (transformRestakingData_staker_branch Sample.env _)).
      reflexivity.
    + vm_compute. reflexivity.
Defined.

(** ** Exact binary64 arithmetic on integers, and dates *)

Section IntegerFloatFacts.
Import JS Web3Utils.

Lemma of_rational_scaled k q :
  0 <= k < 2 ^ 53 -> 0 < q ->
  of_rational false (k * 2 ^ 1074 * q) q = Fin (k * 2 ^ 1074).
Proof.
  intros [Hk0 Hk] Hq. unfold of_rational, round_binary64.
  rewrite Z.div_mul by lia.
  destruct (Z.eq_dec k 0) as [->|Hne].
  { change (0 * 2 ^ 1074) with 0. change (ulp_exp 0) with 0.
    rewrite Z.pow_0_r, !Z.mul_1_r. unfold round_half_even.
    rewrite Z.div_0_l, Z.mod_0_l by lia.
    destruct (Z.ltb_spec (2 * 0) q); [reflexivity|lia]. }
  assert (Hlog : Z.log2 (k * 2 ^ 1074) = 1074 + Z.log2 k)
    by (apply Z.log2_mul_pow2; lia).
  assert (HL : 0 <= Z.log2 k < 53).
  { split; [apply Z.log2_nonneg|]. apply Z.log2_lt_pow2; lia. }
  unfold ulp_exp. rewrite Hlog.
  replace (Z.max 0 (1074 + Z.log2 k - 52)) with (1022 + Z.log2 k) by lia.
  set (e := 1022 + Z.log2 k).
  assert (Hpos : 0 < 2 ^ e) by (apply Z.pow_pos_nonneg; unfold e; lia).
  assert (Hsplit : k * 2 ^ 1074 = (k * 2 ^ (52 - Z.log2 k)) * 2 ^ e).
  { rewrite <- Z.mul_assoc, <- Z.pow_add_r by (unfold e; lia).
    do 2 f_equal. unfold e. lia. }
  assert (Hround : round_half_even (k * 2 ^ 1074 * q) (q * 2 ^ e)
                   = k * 2 ^ (52 - Z.log2 k)).
  { rewrite Hsplit.
    replace (k * 2 ^ (52 - Z.log2 k) * 2 ^ e * q)
      with (k * 2 ^ (52 - Z.log2 k) * (q * 2 ^ e)) by lia.
    apply round_half_even_exact. lia. }
  rewrite Hround, <- Hsplit.
  assert (Hlt : k * 2 ^ 1074 < 2 ^ 2098).
  { apply Z.lt_trans with (2 ^ 53 * 2 ^ 1074).
    - apply Z.mul_lt_mono_pos_r; [apply Z.pow_pos_nonneg; lia|exact Hk].
    - rewrite <- Z.pow_add_r by lia. apply Z.pow_lt_mono_r; lia. }
  destruct (Z.ltb_spec (k * 2 ^ 1074) (2 ^ 2098)); [reflexivity|lia].
Qed.

Lemma of_Z_integer n :
  0 <= n < 2 ^ 53 -> of_Z n = Fin (n * 2 ^ 1074).
Proof.
  intros Hn. unfold of_Z.
  destruct (Z.ltb_spec n 0); [lia|]. rewrite Z.abs_eq by lia.
  now apply of_decimal_integer.
Qed.

Lemma fmul_integers a b :
  0 <= a -> 0 <= b -> a * b < 2 ^ 53 ->
  fmul (Fin (a * 2 ^ 1074)) (Fin (b * 2 ^ 1074)) = Fin (a * b * 2 ^ 1074).
Proof.
  intros Ha Hb Hab. unfold fmul.
  assert (Hpos : 0 < 2 ^ 1074) by (apply Z.pow_pos_nonneg; lia).
  assert (Hprod : a * 2 ^ 1074 * (b * 2 ^ 1074)
                  = a * b * 2 ^ 1074 * 2 ^ 1074) by lia.
  assert (Hnn : 0 <= a * b * 2 ^ 1074 * 2 ^ 1074).
  { repeat apply Z.mul_nonneg_nonneg; lia. }
  rewrite Hprod. destruct (Z.ltb_spec (a * b * 2 ^ 1074 * 2 ^ 1074) 0); [lia|].
  rewrite Z.abs_eq by exact Hnn.
  apply of_rational_scaled; [|exact Hpos].
  split; [apply Z.mul_nonneg_nonneg; lia|exact Hab].
Qed.

Lemma new_Date_integer n :
  Z.abs n <= 8640000000000000 -> new_Date (Fin (n * 2 ^ 1074)) = Some n.
Proof.
  intros Hn. unfold new_Date.
  rewrite Z.quot_mul by (apply Z.pow_nonzero; lia).
  destruct (Z.leb_spec (Z.abs n) 8640000000000000); [reflexivity|lia].
Qed.

(** [new Date(seconds * 1000)] for a count of seconds within the range of
    dates. *)
Lemma date_of_seconds t :
  0 <= t <= 8640000000000 ->
  new_Date (fmul (Fin (t * 2 ^ 1074)) (of_Z 1000)) = Some (t * 1000).
Proof.
  intros Ht. rewrite (of_Z_integer 1000) by (split; [lia|reflexivity]).
  assert (Hbound : t * 1000 < 2 ^ 53).
  { apply Z.le_lt_trans with 8640000000000000; [lia|reflexivity]. }
  rewrite fmul_integers by lia.
  apply new_Date_integer. lia.
Qed.

Lemma parseInt_digits ds :
  ds <> [] -> forallb is_digit ds = true ->
  parseInt (Some (string_of_list_ascii ds)) = of_decimal false (numeral ds) 0.
Proof.
  intros Hne Hds. destruct ds as [|c r]; [contradiction|].
  pose proof Hds as Hc. simpl in Hc. apply andb_prop in Hc as [Hc Hr].
  pose proof (read_digits_all (c :: r) Hds 0 O) as Hread.
  cbn [string_of_list_ascii] in Hread |- *.
  destruct (digit_not_special c (string_of_list_ascii r) Hc)
    as (Hws & Hsign & _).
  unfold parseInt. rewrite Hws, Hsign.
  assert (Hdec :
    match String c (string_of_list_ascii r) with
    | String "0" (String c' r') =>
        if Ascii.eqb c' "x" || Ascii.eqb c' "X"
        then read_digits hex_val 16 r' 0 O
        else read_digits digit_val 10 (String c (string_of_list_ascii r)) 0 O
    | _ => read_digits digit_val 10 (String c (string_of_list_ascii r)) 0 O
    end
    = read_digits digit_val 10 (String c (string_of_list_ascii r)) 0 O).
  { destruct (Ascii.eqb_spec c "0"%char) as [->|Hn0].
    - destruct r as [|c' r']; [reflexivity|].
      cbn [string_of_list_ascii]. simpl in Hr.
      apply andb_prop in Hr as [Hc' _].
      destruct c' as [[] [] [] [] [] [] [] []]; try discriminate; reflexivity.
    - destruct c as [[] [] [] [] [] [] [] []]; try reflexivity.
      now contradict Hn0. }
  rewrite Hdec, Hread. cbn [List.length Nat.add Nat.eqb]. f_equal; lia.
Qed.

End IntegerFloatFacts.

(** ** Delegation normalisation: timestamps and block numbers *)

Section DelegationTimeFacts.
Import JS Web3Utils DataFetcher.

(** A delegation event without [createdAt] or [blockNumber] is not
    skipped: its record carries an invalid date or [NaN].  When
    [createdAt] is a count of seconds within the range of dates the record
    is dated at exactly that many seconds, in milliseconds; a block number
    below [2^53] is kept exactly. *)
Theorem transform_delegation_time d r :
  transform_delegation d = Ok r ->
  (d_createdAt d = None -> delegationTimestamp r = None) /\
  (forall ds,
     d_createdAt d = Some (string_of_list_ascii ds) ->
     ds <> [] -> forallb is_digit ds = true ->
     numeral ds <= 8640000000000 ->
     delegationTimestamp r = Some (numeral ds * 1000)) /\
  (d_blockNumber d = None -> blockNumber r = NaN) /\
  (forall ds,
     d_blockNumber d = Some (string_of_list_ascii ds) ->
     ds <> [] -> forallb is_digit ds = true ->
     numeral ds < 2 ^ 53 ->
     blockNumber r = Fin (numeral ds * 2 ^ 1074)).
Proof.
  unfold transform_delegation. intros H.
  destruct (Web3Utils.fromWei (d_shares d)); [|discriminate].
  destruct (d_delegator d); [|discriminate].
  destruct (d_operator d); [|discriminate].
  cbn [bind deref] in H. injection H as <-.
  cbn [delegationTimestamp blockNumber].
  split; [now intros ->|]. split; [|split; [now intros ->|]].
  - intros ds -> Hne Hds Hmax.
    pose proof (numeral_bounds ds Hds) as [Hnn _].
    rewrite parseInt_digits by assumption.
    rewrite of_decimal_integer.
    + apply date_of_seconds. lia.
    + split; [exact Hnn|].
      apply Z.le_lt_trans with 8640000000000; [exact Hmax|reflexivity].
  - intros ds -> Hne Hds Hmax.
    pose proof (numeral_bounds ds Hds) as [Hnn _].
    rewrite parseInt_digits by assumption.
    apply of_decimal_integer. lia.
Qed.

End DelegationTimeFacts.

Lemma transform_delegation_time_witness :
  let undated :=
    {| DataFetcher.d_delegator :=
         Some {| DataFetcher.ref_id := Sample.wallet_1 |};
       DataFetcher.d_operator :=
         Some {| DataFetcher.ref_id := Sample.operator_a |};
       DataFetcher.d_shares := Some "1000000000000000000"%string;
       DataFetcher.d_createdAt := None;
       DataFetcher.d_transactionHash := None;
       DataFetcher.d_blockNumber := None |} in
  (exists r, DataFetcher.transform_delegation undated = JS.Ok r /\
             DataFetcher.delegationTimestamp r = None /\
             DataFetcher.blockNumber r = JS.NaN) /\
  (exists r,
     DataFetcher.transform_delegation
       (Sample.delegation Sample.wallet_1 "1000000000000000000") = JS.Ok r /\
     DataFetcher.delegationTimestamp r = Some 1700000000000).
Proof.
  intros undated. split.
  - eexists. split; [reflexivity|].
    destruct (transform_delegation_time undated _ eq_refl)
      as (Hdate & _ & Hblock & _).
    split; [now apply Hdate|now apply Hblock].
  - eexists. split; [reflexivity|].
    destruct (transform_delegation_time
                (Sample.delegation Sample.wallet_1 "1000000000000000000")
                _ eq_refl) as (_ & Hdate & _).
    apply (Hdate ["1"; "7"; "0"; "0"; "0"; "0"; "0"; "0"; "0"; "0"]%char);
      [reflexivity|discriminate|reflexivity|].
    vm_compute. discriminate.
Defined.

(** ** Slash events on a stored validator *)

Section ValidatorMethodFacts.
Import JS.

Lemma fold_slashed_app (l : list DataFetcher.SlashEvent) e a :
  fold_left (fun total slash =>
               fadd total (ValidatorMethods.slashed_amount slash))
            (l ++ [e]) a
  = fadd (fold_left (fun total slash =>
                       fadd total (ValidatorMethods.slashed_amount slash))
                    l a)
         (ValidatorMethods.slashed_amount e).
Proof. now rewrite fold_left_app. Qed.

Lemma push_slash_event_status v e :
  Validator.status (Validator.push_slash_event v e) <> "active"%string /\
  (Validator.status v <> "active"%string ->
   Validator.status (Validator.push_slash_event v e) = Validator.status v) /\
  (Validator.status v = "active"%string ->
   Validator.status (Validator.push_slash_event v e) = "slashed"%string).
Proof.
  cbn [Validator.push_slash_event Validator.status].
  destruct (String.eqb_spec (Validator.status v) "active") as [Heq|Hne].
  - split; [discriminate|]. split; [contradiction|reflexivity].
  - split; [exact Hne|]. split; [reflexivity|contradiction].
Qed.

Lemma replaced_in (d : Validator.doc) vs old :
  In old vs ->
  Validator.operatorAddress old = Validator.operatorAddress d ->
  In d (List.map
          (fun old =>
             if String.eqb (Validator.operatorAddress old)
                           (Validator.operatorAddress d)
             then d else old) vs).
Proof.
  intros Hin Hkey. apply List.in_map_iff. exists old.
  split; [|exact Hin]. now rewrite (proj2 (String.eqb_eq _ _) Hkey).
Qed.

Lemma replaced_inv (d : Validator.doc) vs x :
  In x (List.map
          (fun old =>
             if String.eqb (Validator.operatorAddress old)
                           (Validator.operatorAddress d)
             then d else old) vs) ->
  x = d \/
  (In x vs /\ Validator.operatorAddress x <> Validator.operatorAddress d).
Proof.
  intros Hin. apply List.in_map_iff in Hin as (old & Hx & Hold).
  destruct (String.eqb_spec (Validator.operatorAddress old)
              (Validator.operatorAddress d)) as [Heq|Hne].
  - left. now symmetry.
  - right. subst x. now split.
Qed.

(** [addSlashEvent] on a validator loaded from the collection.  The
    document in memory is never ["active"] afterwards, a status other
    than ["active"] (jailed, inactive, deregistered, slashed) is kept, its
    slash count grows by one and its stake is untouched.  When the
    document passes the validation of [save()], it is what the collection
    holds for that operator: no active validator of the collection has
    that address any more, and the other documents are as before.  When
    validation rejects it, nothing is written and the hook has not run: a
    validator that was active is still found active in the collection,
    although the document in memory says ["slashed"]. *)
Theorem addSlashEvent_never_active validate now vs v e :
  In v vs ->
  let s := Validator.addSlashEvent validate now v e in
  let v' := Mongoose.in_memory s in
  let vs' := ValidatorMethods.stored_after vs s in
  (Validator.status v' <> "active"%string /\
   (Validator.status v <> "active"%string ->
    Validator.status v' = Validator.status v) /\
   ValidatorMethods.slashCount v' = ValidatorMethods.slashCount v + 1 /\
   ValidatorMethods.getStakeInWei v' = ValidatorMethods.getStakeInWei v) /\
  (validate (Validator.push_slash_event v e) = true ->
   s = Mongoose.Saved v' /\
   In v' vs' /\
   (forall d, In d (ValidatorMethods.findActiveValidators vs') ->
              Validator.operatorAddress d <> Validator.operatorAddress v) /\
   (forall d, Validator.operatorAddress d <> Validator.operatorAddress v ->
              (In d vs' <-> In d vs)) /\
   List.length vs' = List.length vs) /\
  (validate (Validator.push_slash_event v e) = false ->
   s = Mongoose.Rejected v' /\
   vs' = vs /\
   Validator.lastUpdated v' = Validator.lastUpdated v /\
   (Validator.status v = "active"%string ->
    In v (ValidatorMethods.findActiveValidators vs') /\
    Validator.status v' = "slashed"%string)).
Proof.
  intros Hin s v' vs'.
  destruct (push_slash_event_status v e) as (Hnot & Hkeep & Hslashed).
  assert (Hmem :
    Validator.status v' = Validator.status (Validator.push_slash_event v e) /\
    Validator.slashHistory v' = Validator.slashHistory v ++ [e] /\
    Validator.totalDelegatedStakeStETH v'
    = Validator.totalDelegatedStakeStETH v /\
    Validator.operatorAddress v' = Validator.operatorAddress v).
  { subst v' s. unfold Validator.addSlashEvent, Mongoose.save.
    destruct (validate _); now repeat split. }
  destruct Hmem as (Hst & Hhist & Hstake & Haddr).
  split; [|split].
  - rewrite Hst. split; [exact Hnot|]. split; [exact Hkeep|]. split.
    + unfold ValidatorMethods.slashCount. rewrite Hhist, length_app.
      cbn [List.length]. lia.
    + unfold ValidatorMethods.getStakeInWei. now rewrite Hstake.
  - intros Hvalid.
    assert (Hs : s = Mongoose.Saved v').
    { subst v' s. unfold Validator.addSlashEvent, Mongoose.save.
      now rewrite Hvalid. }
    assert (Hvs' :
      vs' = List.map
              (fun old =>
                 if String.eqb (Validator.operatorAddress old)
                               (Validator.operatorAddress v')
                 then v' else old) vs).
    { subst vs'. unfold ValidatorMethods.stored_after. now rewrite Hs. }
    split; [exact Hs|]. rewrite Hvs'.
    split; [apply (replaced_in v' vs v Hin); now symmetry|].
    split; [|split; [|apply List.length_map]].
    + intros d Hd. unfold ValidatorMethods.findActiveValidators in Hd.
      apply filter_In in Hd as [Hd Hactive]. apply String.eqb_eq in Hactive.
      destruct (replaced_inv v' vs d Hd) as [->|[_ Hne]].
      * rewrite Hst in Hactive. contradiction.
      * now rewrite <- Haddr.
    + intros d Hne. split.
      * intros Hd. destruct (replaced_inv v' vs d Hd) as [->|[Hd' _]];
          [contradiction|exact Hd'].
      * intros Hd. apply List.in_map_iff. exists d. split; [|exact Hd].
        rewrite Haddr. now rewrite (proj2 (String.eqb_neq _ _) Hne).
  - intros Hinvalid.
    assert (Hs : s = Mongoose.Rejected (Validator.push_slash_event v e)).
    { subst s. unfold Validator.addSlashEvent, Mongoose.save.
      now rewrite Hinvalid. }
    assert (Hv' : v' = Validator.push_slash_event v e)
      by (subst v'; now rewrite Hs).
    split; [now rewrite Hv'|].
    assert (Hvs' : vs' = vs)
      by (subst vs'; unfold ValidatorMethods.stored_after; now rewrite Hs).
    split; [exact Hvs'|]. split; [now rewrite Hv'|].
    intros Hactive. split.
    + rewrite Hvs'. unfold ValidatorMethods.findActiveValidators.
      apply filter_In. split; [exact Hin|]. now apply String.eqb_eq.
    + rewrite Hst. now apply Hslashed.
Qed.

(** The total slashed amount of a validator without slash events is [0],
    and [addSlashEvent] adds to it, in binary64 arithmetic, the amount of
    the event ([0] when the event has no amount); this is the total of the
    document in memory, whether or not [save()] resolves. *)
Theorem getTotalSlashedAmount_addSlashEvent validate now v e :
  (Validator.slashHistory v = [] ->
   ValidatorMethods.getTotalSlashedAmount v = OfNumber (Fin 0)) /\
  parseFloat
    (ValidatorMethods.getTotalSlashedAmount
       (Mongoose.in_memory (Validator.addSlashEvent validate now v e)))
  = fadd (parseFloat (ValidatorMethods.getTotalSlashedAmount v))
         (ValidatorMethods.slashed_amount e) /\
  (DataFetcher.se_amountStETH e = ""%string ->
   ValidatorMethods.slashed_amount e = Fin 0).
Proof.
  split; [|split].
  - intros Hnil. unfold ValidatorMethods.getTotalSlashedAmount.
    now rewrite Hnil.
  - unfold ValidatorMethods.getTotalSlashedAmount, Validator.addSlashEvent,
      Mongoose.save.
    destruct (validate _);
      cbn [Mongoose.in_memory Validator.push_slash_event Validator.pre_save
           Validator.slashHistory parseFloat];
      apply fold_slashed_app.
  - intros Hempty. unfold ValidatorMethods.slashed_amount.
    now rewrite Hempty.
Qed.

End ValidatorMethodFacts.

Lemma addSlashEvent_never_active_witness :
  (let s := Validator.addSlashEvent Sample.validate 1700000000000
              (Sample.validator Sample.operator_a 2) Fixtures.slash_event in
   List.map Validator.status
     (ValidatorMethods.stored_after
        [Sample.validator Sample.operator_a 2; Fixtures.jailed_validator] s)
   = ["slashed"; "jailed"]%string) /\
  (let s := Validator.addSlashEvent Sample.validate 1700000000000
              (Sample.validator "not-an-address" 5) Fixtures.slash_event in
   Validator.status (Mongoose.in_memory s) = "slashed"%string /\
   In (Sample.validator "not-an-address" 5)
      (ValidatorMethods.findActiveValidators
         (ValidatorMethods.stored_after
            [Sample.validator "not-an-address" 5] s))).
Proof.
  split.
  - destruct (addSlashEvent_never_active Sample.validate 1700000000000
                [Sample.validator Sample.operator_a 2;
                 Fixtures.jailed_validator]
                (Sample.validator Sample.operator_a 2) Fixtures.slash_event
                (or_introl eq_refl)) as (_ & Hsaved & _).
    destruct (Hsaved eq_refl) as (Hs & _).
    cbv zeta. rewrite Hs. reflexivity.
  - destruct (addSlashEvent_never_active Sample.validate 1700000000000
                [Sample.validator "not-an-address" 5]
                (Sample.validator "not-an-address" 5) Fixtures.slash_event
                (or_introl eq_refl)) as (_ & _ & Hrejected).
    destruct (Hrejected eq_refl) as (_ & _ & _ & Hactive).
    destruct (Hactive eq_refl) as [Hfound Hstatus].
    split; [exact Hstatus|exact Hfound].
Defined.

Lemma getTotalSlashedAmount_addSlashEvent_witness :
  ValidatorMethods.getTotalSlashedAmount (Sample.validator Sample.operator_a 2)
  = JS.OfNumber (JS.Fin 0).
Proof.
  apply (getTotalSlashedAmount_addSlashEvent Sample.validate 1700000000000
           (Sample.validator Sample.operator_a 2) Fixtures.slash_event).
  reflexivity.
Defined.

(** ** Reward events added to a stored document *)

Section RewardMethodFacts.
Import JS.
Import DataFetcher(RewardBreakdown, rb_operatorAddress, rb_amountStETH,
                   rb_timestamps, rb_transactionHashes, rb_blockNumbers).

Variables (amount : text) (timestamp : Z) (transactionHash : option string)
          (blockNumber : option Z).

Let by_operator (operator : string) (b : RewardBreakdown) : bool :=
  String.eqb (rb_operatorAddress b) operator.

Lemma recorded_events_shift bs a :
  fold_left
    (fun total b => total + Z.of_nat (List.length (rb_timestamps b))) bs a
  = a + RewardMethods.recorded_events bs.
Proof.
  unfold RewardMethods.recorded_events. revert a.
  induction bs as [|b bs IH]; intros a; cbn [fold_left]; [lia|].
  rewrite IH, (IH (0 + _)). lia.
Qed.

Lemma recorded_events_cons b bs :
  RewardMethods.recorded_events (b :: bs)
  = Z.of_nat (List.length (rb_timestamps b)) + RewardMethods.recorded_events bs.
Proof.
  unfold RewardMethods.recorded_events at 1. cbn [fold_left].
  now rewrite recorded_events_shift.
Qed.

Lemma recorded_events_app bs cs :
  RewardMethods.recorded_events (bs ++ cs)
  = RewardMethods.recorded_events bs + RewardMethods.recorded_events cs.
Proof.
  unfold RewardMethods.recorded_events at 1.
  now rewrite fold_left_app, recorded_events_shift.
Qed.

Lemma update_existing_found operator bs b :
  List.find (by_operator operator) bs = Some b ->
  exists bs' b',
    Reward.update_existing operator amount timestamp transactionHash
      blockNumber bs = Some bs' /\
    List.find (by_operator operator) bs' = Some b' /\
    rb_amountStETH b'
    = OfNumber (fadd (parseFloat (rb_amountStETH b)) (parseFloat amount)) /\
    rb_timestamps b' = rb_timestamps b ++ [timestamp] /\
    List.length bs' = List.length bs /\
    RewardMethods.recorded_events bs' = RewardMethods.recorded_events bs + 1 /\
    (forall other, other <> operator ->
       List.find (by_operator other) bs' = List.find (by_operator other) bs).
Proof.
  induction bs as [|c bs IH]; [discriminate|].
  cbn [List.find Reward.update_existing]. unfold by_operator at 1.
  destruct (String.eqb_spec (rb_operatorAddress c) operator) as [Heq|Hne].
  - intros [= ->]. eexists _, _. split; [reflexivity|].
    cbn [List.find]. unfold by_operator at 1. cbn [rb_operatorAddress].
    rewrite (proj2 (String.eqb_eq _ _) Heq).
    split; [reflexivity|]. cbn [rb_amountStETH rb_timestamps List.length].
    repeat split.
    + rewrite !recorded_events_cons. cbn [rb_timestamps].
      rewrite length_app. cbn [List.length]. lia.
    + intros other Hother. cbn [List.find]. unfold by_operator.
      cbn [rb_operatorAddress]. rewrite Heq.
      destruct (String.eqb_spec operator other); [congruence|reflexivity].
  - intros Hfind. destruct (IH Hfind)
      as (bs' & b' & -> & Hfind' & Ha & Ht & Hlen & Hev & Hother).
    exists (c :: bs'), b'. split; [reflexivity|].
    cbn [List.find]. unfold by_operator at 1.
    rewrite (proj2 (String.eqb_neq _ _) Hne).
    repeat split; try assumption.
    + cbn [List.length]. now rewrite Hlen.
    + rewrite !recorded_events_cons. lia.
    + intros other Hne'. cbn [List.find]. now rewrite Hother.
Qed.

Lemma update_existing_absent operator bs :
  List.find (by_operator operator) bs = None ->
  Reward.update_existing operator amount timestamp transactionHash
    blockNumber bs = None.
Proof.
  induction bs as [|c bs IH]; [reflexivity|].
  cbn [List.find Reward.update_existing]. unfold by_operator at 1.
  destruct (String.eqb (rb_operatorAddress c) operator); [discriminate|].
  intros Hfind. now rewrite IH.
Qed.

Lemma find_app_absent {A} (p : A -> bool) l x :
  List.find p l = None -> List.find p (l ++ [x]) = List.find p [x].
Proof.
  induction l as [|y l IH]; [reflexivity|]. cbn [List.find app].
  destruct (p y); [discriminate|exact IH].
Qed.

Lemma find_app_present {A} (p : A -> bool) l x y :
  List.find p l = Some y -> List.find p (l ++ [x]) = Some y.
Proof.
  induction l as [|z l IH]; [discriminate|]. cbn [List.find app].
  destruct (p z); [trivial|exact IH].
Qed.

Lemma merge_reward_lookup r operatorAddress :
  let r' := Reward.merge_reward r operatorAddress amount timestamp
              transactionHash blockNumber in
  (exists b',
     RewardMethods.getRewardsFromOperator r' operatorAddress = Some b' /\
     match RewardMethods.getRewardsFromOperator r operatorAddress with
     | Some b =>
         rb_amountStETH b'
         = OfNumber (fadd (parseFloat (rb_amountStETH b))
                          (parseFloat amount)) /\
         rb_timestamps b' = rb_timestamps b ++ [timestamp] /\
         RewardMethods.activeOperatorsCount r'
         = RewardMethods.activeOperatorsCount r
     | None =>
         rb_amountStETH b' = amount /\
         rb_timestamps b' = [timestamp] /\
         RewardMethods.activeOperatorsCount r'
         = RewardMethods.activeOperatorsCount r + 1
     end) /\
  RewardMethods.recorded_events (Reward.rewardsBreakdown r')
  = RewardMethods.recorded_events (Reward.rewardsBreakdown r) + 1 /\
  (forall other,
     toLowerCase other <> toLowerCase operatorAddress ->
     RewardMethods.getRewardsFromOperator r' other
     = RewardMethods.getRewardsFromOperator r other).
Proof.
  intros r'.
  unfold RewardMethods.getRewardsFromOperator,
    RewardMethods.activeOperatorsCount.
  change (Reward.rewardsBreakdown r')
    with (match Reward.update_existing (toLowerCase operatorAddress) amount
                  timestamp transactionHash blockNumber
                  (Reward.rewardsBreakdown r) with
          | Some bs => bs
          | None =>
              Reward.rewardsBreakdown r ++
              [{| rb_operatorAddress := toLowerCase operatorAddress;
                  rb_amountStETH := amount;
                  rb_timestamps := [timestamp];
                  rb_transactionHashes :=
                    match truthy_string transactionHash with
                    | Some h => [h]
                    | None => []
                    end;
                  rb_blockNumbers :=
                    match truthy_Z blockNumber with
                    | Some n => [n]
                    | None => []
                    end |}]
          end).
  change (fun b : RewardBreakdown =>
            String.eqb (rb_operatorAddress b) (toLowerCase operatorAddress))
    with (by_operator (toLowerCase operatorAddress)).
  destruct (List.find (by_operator (toLowerCase operatorAddress))
              (Reward.rewardsBreakdown r)) as [b|] eqn:Hfind.
  - destruct (update_existing_found _ _ _ Hfind)
      as (bs' & b' & -> & Hfind' & Ha & Ht & Hlen & Hev & Hother).
    split; [|split].
    + exists b'. now rewrite Hlen.
    + exact Hev.
    + intros other Hne. apply (Hother (toLowerCase other) Hne).
  - rewrite (update_existing_absent _ _ Hfind). split; [|split].
    + eexists. split.
      * rewrite (find_app_absent _ _ _ Hfind). cbn [List.find].
        unfold by_operator. cbn [rb_operatorAddress].
        now rewrite String.eqb_refl.
      * cbn [rb_amountStETH rb_timestamps]. repeat split.
        rewrite length_app. cbn [List.length]. lia.
    + rewrite recorded_events_app, recorded_events_cons.
      cbn [rb_timestamps List.length]. unfold RewardMethods.recorded_events at 2.
      cbn [fold_left]. lia.
    + intros other Hne.
      change (fun b : RewardBreakdown =>
                String.eqb (rb_operatorAddress b) (toLowerCase other))
        with (by_operator (toLowerCase other)).
      destruct (List.find (by_operator (toLowerCase other))
                  (Reward.rewardsBreakdown r)) as [c|] eqn:Hc.
      * now apply find_app_present.
      * rewrite (find_app_absent _ _ _ Hc). cbn [List.find].
        unfold by_operator. cbn [rb_operatorAddress].
        destruct (String.eqb_spec (toLowerCase operatorAddress)
                    (toLowerCase other)); [congruence|reflexivity].
Qed.


(** [addReward] changes the document in memory before it saves it, so
    that afterwards, whether or not [save()] resolves, the breakdown of
    the operator, looked up whatever the case of the address, carries the
    event: a breakdown that existed has its amount increased in binary64
    arithmetic and the timestamp appended, and the number of operators is
    unchanged; otherwise a new breakdown holds exactly this event and the
    number of operators grows by one; the breakdowns of other operators
    are untouched.  When the document passes the validation of [save()],
    the hook sets the event count to the number of timestamps recorded
    before the call plus one, whatever count was stored.  When validation
    rejects it, nothing is written and the hook has not run: the event
    count and the other derived fields are those the document had. *)
Theorem addReward_getRewardsFromOperator validate now r operatorAddress :
  let m := Reward.merge_reward r operatorAddress amount timestamp
             transactionHash blockNumber in
  let s := Reward.addReward validate now r operatorAddress amount timestamp
             transactionHash blockNumber in
  let r' := Mongoose.in_memory s in
  (exists b',
     RewardMethods.getRewardsFromOperator r' operatorAddress = Some b' /\
     match RewardMethods.getRewardsFromOperator r operatorAddress with
     | Some b =>
         rb_amountStETH b'
         = OfNumber (fadd (parseFloat (rb_amountStETH b))
                          (parseFloat amount)) /\
         rb_timestamps b' = rb_timestamps b ++ [timestamp] /\
         RewardMethods.activeOperatorsCount r'
         = RewardMethods.activeOperatorsCount r
     | None =>
         rb_amountStETH b' = amount /\
         rb_timestamps b' = [timestamp] /\
         RewardMethods.activeOperatorsCount r'
         = RewardMethods.activeOperatorsCount r + 1
     end) /\
  (forall other,
     toLowerCase other <> toLowerCase operatorAddress ->
     RewardMethods.getRewardsFromOperator r' other
     = RewardMethods.getRewardsFromOperator r other) /\
  (validate m = true ->
   s = Mongoose.Saved r' /\
   Reward.totalRewardEvents r'
   = RewardMethods.recorded_events (Reward.rewardsBreakdown r) + 1) /\
  (validate m = false ->
   s = Mongoose.Rejected r' /\
   Mongoose.written s = None /\
   StageNotions.derived r' = StageNotions.derived r).
Proof.
  intros m s r'.
  destruct (merge_reward_lookup r operatorAddress) as (Hfound & Hevents & Hother).
  fold m in Hfound, Hevents, Hother.
  assert (Hbs : Reward.rewardsBreakdown r' = Reward.rewardsBreakdown m).
  { subst r' s. unfold Reward.addReward, Mongoose.save.
    now destruct (validate _). }
  assert (Hget : forall a,
            RewardMethods.getRewardsFromOperator r' a
            = RewardMethods.getRewardsFromOperator m a).
  { intros a. unfold RewardMethods.getRewardsFromOperator. now rewrite Hbs. }
  assert (Hcount : RewardMethods.activeOperatorsCount r'
                   = RewardMethods.activeOperatorsCount m).
  { unfold RewardMethods.activeOperatorsCount. now rewrite Hbs. }
  split; [|split; [|split]].
  - rewrite Hget, Hcount. exact Hfound.
  - intros other Hne. rewrite Hget. now apply Hother.
  - intros Hvalid.
    assert (Hs : s = Mongoose.Saved (Reward.pre_save now m)).
    { subst s. unfold Reward.addReward, Mongoose.save. fold m.
      now rewrite Hvalid. }
    assert (Hr' : r' = Reward.pre_save now m) by (subst r'; now rewrite Hs).
    split; [now rewrite Hr'|]. rewrite Hr', <- Hevents. reflexivity.
  - intros Hinvalid.
    assert (Hs : s = Mongoose.Rejected m).
    { subst s. unfold Reward.addReward, Mongoose.save. fold m.
      now rewrite Hinvalid. }
    assert (Hr' : r' = m) by (subst r'; now rewrite Hs).
    split; [now rewrite Hr'|]. split; [now rewrite Hs|].
    now rewrite Hr'.
Qed.

End RewardMethodFacts.

Lemma addReward_getRewardsFromOperator_witness :
  let r' :=
    Mongoose.in_memory
      (Reward.addReward Sample.validate_reward 1700000000000
         Sample.stored_reward "0x1234567890123456789012345678901234567890"
         (JS.Lit "5") 1690000000 None (Some 18000000)) in
  (exists b',
     RewardMethods.getRewardsFromOperator r' Sample.operator_a = Some b' /\
     JS.parseFloat (DataFetcher.rb_amountStETH b') = JS.of_Z 15 /\
     DataFetcher.rb_timestamps b' = [1680000000; 1685000000; 1690000000]) /\
  Reward.totalRewardEvents r' = 3.
Proof.
  destruct (addReward_getRewardsFromOperator (JS.Lit "5") 1690000000 None
              (Some 18000000) Sample.validate_reward 1700000000000
              Sample.stored_reward Sample.operator_a)
    as ((b' & Hb' & Hmerged) & _ & Hsaved & _).
  cbv zeta. split.
  - exists b'. split; [exact Hb'|].
    change (RewardMethods.getRewardsFromOperator Sample.stored_reward
              Sample.operator_a)
      with (Some {| DataFetcher.rb_operatorAddress := Sample.operator_a;
                    DataFetcher.rb_amountStETH := JS.Lit "10";
                    DataFetcher.rb_timestamps := [1680000000; 1685000000];
                    DataFetcher.rb_transactionHashes := [];
                    DataFetcher.rb_blockNumbers := [17000000; 17500000] |})
      in Hmerged.
    destruct Hmerged as (Hamount & Htimes & _).
    split; [|exact Htimes]. rewrite Hamount. vm_compute. reflexivity.
  - destruct (Hsaved eq_refl) as [_ Hevents]. exact Hevents.
Defined.

(** ** The save hook of reward documents *)

Section RewardHookFacts.
Import JS.
Import DataFetcher(RewardBreakdown, rb_timestamps).

Lemma all_timestamps_concat (bs : list RewardBreakdown) acc :
  fold_left (fun acc b => acc ++ rb_timestamps b) bs acc
  = acc ++ concat (List.map rb_timestamps bs).
Proof.
  revert acc. induction bs as [|b bs IH]; intros acc; cbn.
  - now rewrite app_nil_r.
  - now rewrite IH, app_assoc.
Qed.

Lemma recorded_events_length (bs : list RewardBreakdown) :
  RewardMethods.recorded_events bs
  = Z.of_nat (List.length (concat (List.map rb_timestamps bs))).
Proof.
  induction bs as [|b bs IH]; [reflexivity|].
  rewrite recorded_events_cons, IH. cbn [List.map concat].
  rewrite length_app. lia.
Qed.

Lemma fold_min_spec l x :
  let m := fold_left Z.min l x in
  In m (x :: l) /\ forall t, In t (x :: l) -> m <= t.
Proof.
  revert x. induction l as [|y l IH]; intros x; cbn [fold_left].
  - split; [now left|]. intros t [<-|[]]. lia.
  - destruct (IH (Z.min x y)) as [Hin Hle]. split.
    + destruct Hin as [Heq|Hin]; [|right; now right].
      rewrite <- Heq. destruct (Z.min_spec x y) as [[_ ->]|[_ ->]];
        [now left|right; now left].
    + intros t [<-|[<-|Ht]].
      * specialize (Hle (Z.min x y) (or_introl eq_refl)). lia.
      * specialize (Hle (Z.min x y) (or_introl eq_refl)). lia.
      * apply Hle. now right.
Qed.

Lemma fold_max_spec l x :
  let m := fold_left Z.max l x in
  In m (x :: l) /\ forall t, In t (x :: l) -> t <= m.
Proof.
  revert x. induction l as [|y l IH]; intros x; cbn [fold_left].
  - split; [now left|]. intros t [<-|[]]. lia.
  - destruct (IH (Z.max x y)) as [Hin Hle]. split.
    + destruct Hin as [Heq|Hin]; [|right; now right].
      rewrite <- Heq. destruct (Z.max_spec x y) as [[_ ->]|[_ ->]];
        [right; now left|now left].
    + intros t [<-|[<-|Ht]].
      * specialize (Hle (Z.max x y) (or_introl eq_refl)). lia.
      * specialize (Hle (Z.max x y) (or_introl eq_refl)). lia.
      * apply Hle. now right.
Qed.

(** The save hook recomputes the event count as the number of timestamps
    over all breakdowns.  With no timestamp at all it leaves the first and
    last reward dates, the average and the frequencies as stored.  With
    timestamps that are counts of seconds within the range of dates, the
    first and last reward dates become the earliest and the latest of
    them, in milliseconds.  Amounts and breakdowns are never changed. *)
Theorem reward_pre_save_summary now r :
  let all := concat (List.map rb_timestamps (Reward.rewardsBreakdown r)) in
  let r' := Reward.pre_save now r in
  Reward.totalRewardEvents r' = Z.of_nat (List.length all) /\
  (all = [] ->
   Reward.firstRewardTimestamp r' = Reward.firstRewardTimestamp r /\
   Reward.lastRewardTimestamp r' = Reward.lastRewardTimestamp r /\
   Reward.averageRewardAmount r' = Reward.averageRewardAmount r /\
   Reward.rewardFrequency r' = Reward.rewardFrequency r) /\
  (all <> [] ->
   (forall t, In t all -> 0 <= t <= 8640000000000) ->
   exists lo hi,
     In lo all /\ In hi all /\ (forall t, In t all -> lo <= t <= hi) /\
     Reward.firstRewardTimestamp r' = Some (lo * 1000) /\
     Reward.lastRewardTimestamp r' = Some (hi * 1000)) /\
  Reward.rewardsBreakdown r' = Reward.rewardsBreakdown r /\
  Reward.totalRewardsReceivedStETH r' = Reward.totalRewardsReceivedStETH r /\
  Reward.lastUpdated r' = Some now.
Proof.
  intros all r'.
  assert (Hall :
    fold_left (fun acc b => acc ++ rb_timestamps b)
              (Reward.rewardsBreakdown r) [] = all)
    by apply all_timestamps_concat.
  assert (Hevents :
    fold_left
      (fun total b => total + Z.of_nat (List.length (rb_timestamps b)))
      (Reward.rewardsBreakdown r) 0 = Z.of_nat (List.length all))
    by apply recorded_events_length.
  subst r'. unfold Reward.pre_save.
  cbn [Reward.totalRewardEvents Reward.firstRewardTimestamp
       Reward.lastRewardTimestamp Reward.averageRewardAmount
       Reward.rewardFrequency Reward.rewardsBreakdown
       Reward.totalRewardsReceivedStETH Reward.lastUpdated].
  rewrite Hall, Hevents.
  split; [reflexivity|]. split; [|split; [|repeat split]].
  - intros ->. cbn. repeat split.
  - intros Hne Hrange. destruct all as [|x l]; [contradiction|].
    cbn [Reward.min_list Reward.max_list].
    destruct (fold_min_spec l x) as [Hlo_in Hlo].
    destruct (fold_max_spec l x) as [Hhi_in Hhi].
    exists (fold_left Z.min l x), (fold_left Z.max l x).
    split; [exact Hlo_in|]. split; [exact Hhi_in|].
    split; [intros t Ht; split; [now apply Hlo|now apply Hhi]|].
    assert (Hdate : forall t, In t (x :: l) ->
              new_Date (fmul (of_Z t) (of_Z 1000)) = Some (t * 1000)).
    { intros t Ht. pose proof (Hrange t Ht) as Hb.
      rewrite (of_Z_integer t).
      - now apply date_of_seconds.
      - split; [lia|].
        apply Z.le_lt_trans with 8640000000000; [lia|reflexivity]. }
    split; now apply Hdate.
Qed.

End RewardHookFacts.

Lemma reward_pre_save_summary_witness :
  exists lo hi,
    Reward.firstRewardTimestamp
      (Reward.pre_save 1700000000000 Sample.stored_reward) = Some (lo * 1000) /\
    Reward.lastRewardTimestamp
      (Reward.pre_save 1700000000000 Sample.stored_reward) = Some (hi * 1000) /\
    lo <= 1680000000 /\ 1685000000 <= hi.
Proof.
  destruct (reward_pre_save_summary 1700000000000 Sample.stored_reward)
    as (_ & _ & Hdates & _).
  destruct Hdates as (lo & hi & _ & _ & Hbounds & Hfirst & Hlast).
  - discriminate.
  - intros t [<-|[<-|[]]]; lia.
  - exists lo, hi. split; [exact Hfirst|]. split; [exact Hlast|].
    split.
    + apply (Hbounds 1680000000). now left.
    + apply (Hbounds 1685000000). right. now left.
Defined.

(** ** The reward stage: what it leaves alone *)

Section RewardStageFacts.
Import JS DataFetcher DatabasePopulator StageNotions.

Variable generateMockRewardsData : nat -> Z -> string -> RewardData.
Variables (env : Env) (self : DatabasePopulator.t).

Let kept (rs0 rs : gmap string Reward.doc) : Prop :=
  forall k,
    match rs0 !! k with
    | Some d =>
        exists d', rs !! k = Some d' /\ derived d' = derived d /\
                   Reward.lastUpdated d' = Reward.lastUpdated d
    | None => forall d', rs !! k = Some d' -> derived d' = defaults
    end.

Lemma kept_refl rs : kept rs rs.
Proof.
  intros k. destruct (rs !! k) as [d|] eqn:Hk; [|discriminate].
  now exists d.
Qed.

Lemma kept_upsert rs0 rs now p :
  kept rs0 rs -> kept rs0 (upsert_reward now p rs).
Proof.
  intros Hkept k. specialize (Hkept k). unfold upsert_reward.
  destruct (String.eqb_spec (toLowerCase (walletAddress p)) k) as [<-|Hne].
  - rewrite lookup_insert_eq.
    destruct (rs0 !! toLowerCase (walletAddress p)) as [d|].
    + destruct Hkept as (d' & -> & Hd & Hu). eexists. split; [reflexivity|].
      cbn [default]. split; [exact Hd|exact Hu].
    + intros d' [= <-].
      destruct (rs !! toLowerCase (walletAddress p)) as [old|];
        [exact (Hkept old eq_refl)|reflexivity].
  - now rewrite lookup_insert_ne.
Qed.

Lemma process_wallet_cases rs w n wallet :
  exists w',
    process_wallet generateMockRewardsData env self (rs, w, n) wallet
    = (rs, w', n) \/
    exists now p,
      process_wallet generateMockRewardsData env self (rs, w, n) wallet
      = (upsert_reward now p rs, w', n + 1).
Proof.
  unfold process_wallet.
  destruct (if useMockData self then mock generateMockRewardsData w wallet
            else let '(fetched, w1) :=
                   fetchRewardsFromRated env (dataFetcher self) wallet w in
                 match fetched with
                 | Some rewardData => (rewardData, w1)
                 | None => mock generateMockRewardsData w1 wallet
                 end) as [rewardData w'].
  exists w'. destruct (gt_zero _); [right; now eexists _, _|now left].
Qed.

Lemma wallets_loop_kept rs0 ws :
  forall rs w n,
    kept rs0 rs ->
    let r := fold_left (process_wallet generateMockRewardsData env self)
               ws (rs, w, n) in
    kept rs0 (fst (fst r)) /\ n <= snd r <= n + Z.of_nat (List.length ws).
Proof.
  induction ws as [|wallet ws IH]; intros rs w n Hkept.
  - cbn. split; [exact Hkept|lia].
  - cbn [fold_left List.length].
    destruct (process_wallet_cases rs w n wallet)
      as (w' & [->|(now & p & ->)]).
    + destruct (IH rs w' n Hkept) as [Hk Hn]. split; [exact Hk|lia].
    + destruct (IH (upsert_reward now p rs) w' (n + 1)
                  (kept_upsert _ _ now p Hkept)) as [Hk Hn].
      split; [exact Hk|lia].
Qed.

(** The reward stage never touches the restakers or the validators, never
    removes a reward document, and never writes the fields that only the
    save hook computes: a document that existed keeps its first and last
    reward dates, event count, average, frequencies and update date, and a
    document the stage creates has them at their schema defaults (no
    event, average ["0"]), whatever its breakdowns hold.  The count of
    processed wallets is at most the number of distinct wallets. *)
Theorem populateRewards_keeps_derived_fields db w :
  let r := populateRewards generateMockRewardsData env self db w in
  let db' := fst (fst r) in
  restakers db' = restakers db /\
  validators db' = validators db /\
  0 <= snd r <= Z.of_nat (List.length (wallets db)) /\
  forall k,
    match rewards db !! k with
    | Some d =>
        exists d', rewards db' !! k = Some d' /\ derived d' = derived d /\
                   Reward.lastUpdated d' = Reward.lastUpdated d
    | None => forall d', rewards db' !! k = Some d' -> derived d' = defaults
    end.
Proof.
  unfold populateRewards, wallets.
  destruct (wallets_loop_kept (rewards db)
              (dedupe [] (List.map Restaker.userAddress (restakers db)))
              (rewards db) w 0 (kept_refl _)) as [Hk Hn].
  destruct (fold_left _ _ _) as [[rs w'] n]. cbn [fst snd] in *.
  repeat split; try lia. exact Hk.
Qed.

Lemma process_wallet_offline rs w n wallet :
  useMockData self = true \/ truthy_string (RATED_API_KEY env) = None ->
  exists rs' n',
    process_wallet generateMockRewardsData env self (rs, w, n) wallet
    = (rs', took_draws w 21, n').
Proof.
  intros Hoff. unfold process_wallet.
  assert (Hdata :
    exists rewardData,
      (if useMockData self then mock generateMockRewardsData w wallet
       else let '(fetched, w1) :=
              fetchRewardsFromRated env (dataFetcher self) wallet w in
            match fetched with
            | Some rewardData => (rewardData, w1)
            | None => mock generateMockRewardsData w1 wallet
            end) = (rewardData, took_draws w 21)).
  { destruct (useMockData self); [now eexists|].
    destruct Hoff as [Hoff|Hoff]; [discriminate|].
    unfold fetchRewardsFromRated. rewrite Hoff. now eexists. }
  destruct Hdata as [rewardData ->].
  destruct (gt_zero _); now eexists _, _.
Qed.

Lemma wallets_loop_offline ws :
  useMockData self = true \/ truthy_string (RATED_API_KEY env) = None ->
  forall rs w n,
    let w' := snd (fst (fold_left
                          (process_wallet generateMockRewardsData env self)
                          ws (rs, w, n))) in
    w' = took_draws w (21 * List.length ws).
Proof.
  intros Hoff. induction ws as [|wallet ws IH]; intros rs w n.
  - cbn. destruct w. unfold took_draws. cbn. f_equal. lia.
  - cbn [fold_left].
    destruct (process_wallet_offline rs w n wallet Hoff) as (rs' & n' & ->).
    cbv zeta in IH |- *. rewrite IH. unfold took_draws. cbn.
    f_equal. lia.
Qed.

(** In mock mode, or without an API key for the rewards service, the
    reward stage sends no request at all: the world afterwards differs
    only by the random draws taken, 21 for each distinct wallet. *)
Theorem populateRewards_offline db w :
  useMockData self = true \/ truthy_string (RATED_API_KEY env) = None ->
  let w' := snd (fst (populateRewards generateMockRewardsData env self db w)) in
  requested w' = requested w /\
  draws w' = (draws w + 21 * List.length (wallets db))%nat /\
  w' = took_draws w (21 * List.length (wallets db)).
Proof.
  intros Hoff. unfold populateRewards, wallets.
  pose proof (wallets_loop_offline
                (dedupe [] (List.map Restaker.userAddress (restakers db)))
                Hoff (rewards db) w 0) as Hw.
  cbv zeta in Hw.
  destruct (fold_left _ _ _) as [[rs w'] n]. cbn [fst snd] in *.
  subst w'. now repeat split.
Qed.

(** When the rewards service answers the first endpoint with a body that
    lists no reward, the client returns a record with total ["0"] and no
    breakdown after that single request, and the stage then neither
    stores anything for the wallet nor falls back to mock data: the
    collection, the count and the random draws are as before. *)
Theorem process_wallet_empty_answer rs w n wallet data :
  useMockData self = false ->
  truthy_string (RATED_API_KEY env) <> None ->
  rated w (first_url (dataFetcher self) wallet) = HttpOk (Some data) ->
  lists_no_reward data = true ->
  let w' := snd (axios_get w (first_url (dataFetcher self) wallet)) in
  fetchRewardsFromRated env (dataFetcher self) wallet w
  = (Some {| walletAddress := toLowerCase wallet;
             totalRewardsReceivedStETH := Lit "0";
             rewardsBreakdown := [] |}, w') /\
  process_wallet generateMockRewardsData env self (rs, w, n) wallet
  = (rs, w', n) /\
  draws w' = draws w /\
  requested w' = requested w ++ [first_url (dataFetcher self) wallet].
Proof.
  intros Hmock Hkey Hans Hempty w'.
  assert (Hfetch :
    fetchRewardsFromRated env (dataFetcher self) wallet w
    = (Some {| walletAddress := toLowerCase wallet;
               totalRewardsReceivedStETH := Lit "0";
               rewardsBreakdown := [] |}, w')).
  { unfold fetchRewardsFromRated.
    destruct (truthy_string (RATED_API_KEY env)); [|contradiction].
    unfold rated_endpoints. cbn [try_endpoints].
    change (ratedApiUrl (dataFetcher self) ++
            "/v1/eigenlayer/rewards/delegator/" ++ wallet)%string
      with (first_url (dataFetcher self) wallet).
    unfold axios_get at 1. rewrite Hans.
    unfold transformRatedRewardsData. unfold lists_no_reward in Hempty.
    destruct (DataFetcher.rewards data) as [[|? ?]|];
      try discriminate; reflexivity. }
  split; [exact Hfetch|]. split; [|now split].
  unfold process_wallet. rewrite Hmock, Hfetch. reflexivity.
Qed.

End RewardStageFacts.

Lemma populateRewards_keeps_derived_fields_witness :
  (fun d => (Reward.totalRewardEvents d,
             List.length (Reward.rewardsBreakdown d)))
  <$> (DatabasePopulator.rewards
         (fst (fst (DatabasePopulator.populateRewards Sample.no_mock
                      Sample.env Sample.populator Sample.db_one_restaker
                      Sample.world_rewards)))
       !! Sample.wallet_1)
  = Some (0, 1%nat).
Proof.
  destruct (populateRewards_keeps_derived_fields Sample.no_mock Sample.env
              Sample.populator Sample.db_one_restaker Sample.world_rewards)
    as (_ & _ & _ & Hkept).
  specialize (Hkept Sample.wallet_1). cbn in Hkept.
  destruct (DatabasePopulator.rewards _ !! Sample.wallet_1) as [d'|] eqn:Hd'.
  - specialize (Hkept d' eq_refl). injection Hkept as _ _ Hevents _ _.
    cbn [fmap option_fmap option_map]. rewrite Hevents.
    vm_compute in Hd'. injection Hd' as <-. reflexivity.
  - vm_compute in Hd'. discriminate.
Defined.

Lemma populateRewards_offline_witness :
  DataFetcher.requested
    (snd (fst (DatabasePopulator.populateRewards Sample.no_mock Sample.env
                 Fixtures.mock_populator Sample.db_one_restaker
                 Sample.world_rewards))) = [] /\
  DataFetcher.draws
    (snd (fst (DatabasePopulator.populateRewards Sample.no_mock Sample.env
                 Fixtures.mock_populator Sample.db_one_restaker
                 Sample.world_rewards))) = 21%nat.
Proof.
  destruct (populateRewards_offline Sample.no_mock Sample.env
              Fixtures.mock_populator Sample.db_one_restaker
              Sample.world_rewards (or_introl eq_refl)) as (Hreq & Hdraws & _).
  split; [exact Hreq|exact Hdraws].
Defined.

Lemma process_wallet_empty_answer_witness :
  fst (DatabasePopulator.process_wallet Sample.no_mock Sample.env
         Sample.populator
         ({[ Sample.wallet_1 := Sample.stored_reward ]},
          Fixtures.world_empty_body, 0)
         Sample.wallet_1)
  = ({[ Sample.wallet_1 := Sample.stored_reward ]},
     snd (DataFetcher.axios_get Fixtures.world_empty_body
            (StageNotions.first_url Sample.fetcher Sample.wallet_1))).
Proof.
  destruct (process_wallet_empty_answer Sample.no_mock Sample.env
              Sample.populator {[ Sample.wallet_1 := Sample.stored_reward ]}
              Fixtures.world_empty_body 0 Sample.wallet_1
              {| DataFetcher.rewards := None |})
    as (_ & Hstep & _); [reflexivity|discriminate|reflexivity|reflexivity|].
  change (DatabasePopulator.dataFetcher Sample.populator)
    with Sample.fetcher in Hstep.
  now rewrite Hstep.
Defined.

(** ** The restaker stage: one document per user *)

Section RestakerStageFacts.
Import JS RestakerStage.

Let by_user (key : string) (r : Restaker.doc) : bool :=
  String.eqb (Restaker.userAddress r) key.

Lemma find_upsert_restaker d rs key :
  List.find (by_user key) (upsert_restaker d rs)
  = if String.eqb (Restaker.userAddress d) key then Some d
    else List.find (by_user key) rs.
Proof.
  induction rs as [|old rs IH]; cbn [upsert_restaker List.find].
  - unfold by_user at 1. now destruct (String.eqb _ key).
  - destruct (String.eqb_spec (Restaker.userAddress old)
                (Restaker.userAddress d)) as [Heq|Hne];
      cbn [List.find]; unfold by_user at 1 3.
    + rewrite Heq. now destruct (String.eqb (Restaker.userAddress d) key).
    + destruct (String.eqb_spec (Restaker.userAddress old) key) as [Hk|Hk].
      * destruct (String.eqb_spec (Restaker.userAddress d) key);
          [congruence|reflexivity].
      * exact IH.
Qed.

Lemma upsert_restaker_users d rs :
  List.map Restaker.userAddress (upsert_restaker d rs)
  = if existsb (String.eqb (Restaker.userAddress d))
         (List.map Restaker.userAddress rs)
    then List.map Restaker.userAddress rs
    else List.map Restaker.userAddress rs ++ [Restaker.userAddress d].
Proof.
  induction rs as [|old rs IH]; [reflexivity|].
  cbn [upsert_restaker List.map existsb].
  rewrite (String.eqb_sym (Restaker.userAddress d) (Restaker.userAddress old)).
  destruct (String.eqb_spec (Restaker.userAddress old)
              (Restaker.userAddress d)) as [Heq|Hne]; cbn [orb List.map].
  - now rewrite Heq.
  - rewrite IH. now destruct (existsb _ _).
Qed.

Lemma upsert_restaker_NoDup d rs :
  NoDup (List.map Restaker.userAddress rs) ->
  NoDup (List.map Restaker.userAddress (upsert_restaker d rs)).
Proof.
  intros Hnd. rewrite upsert_restaker_users.
  destruct (existsb _ _) eqn:Hex; [exact Hnd|].
  apply NoDup_app; split; [exact Hnd|]. split.
  - intros x Hx Hin. apply list_elem_of_In in Hx.
    apply list_elem_of_In in Hin. destruct Hin as [<-|[]].
    assert (Htrue : existsb (String.eqb (Restaker.userAddress d))
                      (List.map Restaker.userAddress rs) = true).
    { apply existsb_exists. eexists. split; [exact Hx|].
      apply String.eqb_refl. }
    congruence.
  - apply NoDup_singleton.
Qed.

(** The restaker stage keeps one document per user: when the records of a
    batch share a user address (whatever the case), the document found
    for that user afterwards is the one made of the last such record that
    Mongoose accepts, and a user no accepted record names keeps the
    document it had.  A collection without two documents of one user
    stays so, and no document is ever removed. *)
Theorem store_restakers_last_write_wins restakingData rs address :
  RestakerMethods.findByUserAddress (store_restakers restakingData rs) address
  = match last_written (toLowerCase address) restakingData with
    | Some d => Some d
    | None => RestakerMethods.findByUserAddress rs address
    end /\
  (NoDup (List.map Restaker.userAddress rs) ->
   NoDup (List.map Restaker.userAddress (store_restakers restakingData rs))) /\
  (List.length rs <= List.length (store_restakers restakingData rs))%nat.
Proof.
  unfold RestakerMethods.findByUserAddress, store_restakers.
  change (fun r : Restaker.doc =>
            String.eqb (Restaker.userAddress r) (toLowerCase address))
    with (by_user (toLowerCase address)).
  revert rs. induction restakingData as [|r rest IH]; intros rs.
  - cbn. repeat split; [trivial|lia].
  - cbn [fold_left last_written].
    destruct (IH (match cast_restaker r with
                  | Some d => upsert_restaker d rs
                  | None => rs
                  end)) as (Hfind & Hnd & Hlen).
    split; [|split].
    + rewrite Hfind.
      destruct (last_written (toLowerCase address) rest); [reflexivity|].
      destruct (cast_restaker r) as [d|]; [|reflexivity].
      rewrite find_upsert_restaker.
      now destruct (String.eqb (Restaker.userAddress d) (toLowerCase address)).
    + intros Hrs. apply Hnd.
      destruct (cast_restaker r); [now apply upsert_restaker_NoDup|exact Hrs].
    + etransitivity; [|exact Hlen].
      destruct (cast_restaker r) as [d|]; [|lia].
      rewrite <- (length_map Restaker.userAddress (upsert_restaker d rs)).
      rewrite upsert_restaker_users, <- (length_map Restaker.userAddress rs).
      destruct (existsb _ _); [lia|rewrite length_app; lia].
Qed.

(** A delegation event without [createdAt] or without [blockNumber] is
    normalised into a record, but that record is never stored: Mongoose
    rejects its invalid date or its [NaN], the stage logs the error and
    the collection is as before. *)
Theorem undated_delegation_not_stored d r rs :
  DataFetcher.transform_delegation d = Ok r ->
  DataFetcher.d_createdAt d = None \/ DataFetcher.d_blockNumber d = None ->
  cast_restaker r = None /\ store_restakers [r] rs = rs.
Proof.
  unfold DataFetcher.transform_delegation. intros H Hmissing.
  destruct (Web3Utils.fromWei (DataFetcher.d_shares d)); [|discriminate].
  destruct (DataFetcher.d_delegator d); [|discriminate].
  destruct (DataFetcher.d_operator d); [|discriminate].
  cbn [bind deref] in H. injection H as <-.
  assert (Hcast : forall user amount target hash,
    cast_restaker
      {| DataFetcher.userAddress := user;
         DataFetcher.amountRestakedStETH := amount;
         DataFetcher.targetAVSOperatorAddress := target;
         DataFetcher.delegationTimestamp :=
           new_Date (fmul (parseInt (DataFetcher.d_createdAt d)) (of_Z 1000));
         DataFetcher.transactionHash := hash;
         DataFetcher.blockNumber := parseInt (DataFetcher.d_blockNumber d);
         DataFetcher.status := "active" |} = None).
  { intros user amount target hash. unfold cast_restaker.
    cbn [DataFetcher.delegationTimestamp DataFetcher.blockNumber].
    destruct Hmissing as [->| ->].
    - reflexivity.
    - now destruct (new_Date _). }
  split; [apply Hcast|]. unfold store_restakers. cbn [fold_left].
  now rewrite Hcast.
Qed.

End RestakerStageFacts.

Lemma store_restakers_last_write_wins_witness :
  option_map Restaker.amountRestakedStETH
    (RestakerMethods.findByUserAddress
       (RestakerStage.store_restakers
          [Fixtures.restaker_record Sample.wallet_1 "1";
           Fixtures.restaker_record Sample.wallet_2 "2";
           Fixtures.restaker_record "0xAAAAAAAAAAAAAAAAAAAAAAAAAAAAAAAAAAAAAAAA"
             "3"]
          [Sample.restaker Sample.wallet_1 Sample.operator_b])
       Sample.wallet_1)
  = Some "3"%string.
Proof.
  rewrite (proj1 (store_restakers_last_write_wins _ _ _)).
  reflexivity.
Defined.

Lemma undated_delegation_not_stored_witness :
  exists r,
    DataFetcher.transform_delegation Fixtures.undated_delegation = JS.Ok r /\
    RestakerStage.store_restakers [r]
      [Sample.restaker Sample.wallet_1 Sample.operator_b]
    = [Sample.restaker Sample.wallet_1 Sample.operator_b].
Proof.
  eexists. split; [reflexivity|].
  apply (undated_delegation_not_stored Fixtures.undated_delegation);
    [reflexivity|now left].
Defined.

(** ** The statistics pass: a second run, and a run cut short *)

Section StatisticsEdgeFacts.
Import DatabasePopulator Reference.
Variable validate : Validator.doc -> bool.

Let refresh (now : Z) (rks : list Restaker.doc) (v : Validator.doc)
    : Validator.doc :=
  if stale rks v
  then Validator.pre_save now
         (Validator.set_delegatorCount v
            (delegators_of rks (Validator.operatorAddress v)))
  else v.

Lemma recount_loop_fresh now rks vs :
  Forall (fun v => stored_lowercase v /\ stale rks v = false) vs ->
  recount_loop validate now rks vs
  = {| rc_validators := vs; rc_saved := []; rc_completed := true |}.
Proof.
  induction 1 as [|v vs [Hlow Hfresh] _ IH]; [reflexivity|].
  cbn [recount_loop]. rewrite (countDocuments_lowercase rks v Hlow).
  unfold stale in Hfresh. rewrite Hfresh, IH. reflexivity.
Qed.

Lemma refresh_fresh now rks v :
  stored_lowercase v ->
  stored_lowercase (refresh now rks v) /\ stale rks (refresh now rks v) = false.
Proof.
  intros Hlow. unfold refresh. destruct (stale rks v) eqn:Hstale.
  - split; [exact Hlow|]. unfold stale. cbn. now rewrite Z.eqb_refl.
  - now split.
Qed.

Lemma recount_loop_stops now rks before v after :
  Forall stored_lowercase before -> stored_lowercase v ->
  Forall (fun u =>
            stale rks u = true ->
            validate (Validator.set_delegatorCount u
                        (delegators_of rks (Validator.operatorAddress u)))
            = true) before ->
  stale rks v = true ->
  validate (Validator.set_delegatorCount v
              (delegators_of rks (Validator.operatorAddress v))) = false ->
  recount_loop validate now rks (before ++ v :: after)
  = {| rc_validators := List.map (refresh now rks) before ++ v :: after;
       rc_saved :=
         List.map Validator.operatorAddress (List.filter (stale rks) before);
       rc_completed := false |}.
Proof.
  intros Hlow Hv Hvalid Hstale Hreject.
  induction before as [|u before IH]; cbn [app recount_loop List.map
                                           List.filter].
  - rewrite (countDocuments_lowercase rks v Hv).
    unfold stale in Hstale. now rewrite Hstale, Hreject.
  - inversion Hlow as [|? ? Hu Hlow']; subst.
    inversion Hvalid as [|? ? Hok Hvalid']; subst.
    rewrite (countDocuments_lowercase rks u Hu).
    rewrite (IH Hlow' Hvalid').
    change (negb (Validator.delegatorCount u
                  =? delegators_of rks (Validator.operatorAddress u)))
      with (stale rks u).
    assert (Hu' : refresh now rks u
                  = if stale rks u
                    then Validator.pre_save now
                           (Validator.set_delegatorCount u
                              (delegators_of rks (Validator.operatorAddress u)))
                    else u) by reflexivity.
    rewrite Hu'. destruct (stale rks u) eqn:Hs.
    + now rewrite (Hok eq_refl).
    + reflexivity.
Qed.

(** A statistics pass that ran to its end leaves nothing to do: a second
    pass over its result saves no document and changes nothing. *)
Theorem updateStatistics_twice now now' db db' saved :
  Forall stored_lowercase (validators db) ->
  updateStatistics validate now db = (db', saved, true) ->
  updateStatistics validate now' db' = (db', [], true).
Proof.
  intros Hlow Hrun. unfold updateStatistics in Hrun.
  injection Hrun as <- _ Hc.
  destruct (recount_loop_completed validate now (restakers db)
              (validators db) Hlow Hc) as [Hvs _].
  unfold updateStatistics. cbn [restakers validators rewards].
  rewrite recount_loop_fresh; [reflexivity|].
  rewrite Hvs. apply List.Forall_forall. intros v' Hin.
  apply List.in_map_iff in Hin as (v & <- & Hin).
  apply (refresh_fresh now (restakers db) v).
  exact (proj1 (List.Forall_forall _ _) Hlow v Hin).
Qed.

(** The statistics pass is not atomic.  When [save()] rejects a validator
    whose count has to change, the pass stops there: the validators
    listed before it have been brought up to date and saved, this one and
    all that follow keep the counts they had, and the pass reports the
    error instead of finishing. *)
Theorem updateStatistics_stops_at_rejected now db before v after :
  validators db = before ++ v :: after ->
  Forall stored_lowercase (before ++ [v]) ->
  Forall (fun u =>
            stale (restakers db) u = true ->
            validate (Validator.set_delegatorCount u
                        (delegators_of (restakers db)
                           (Validator.operatorAddress u)))
            = true) before ->
  stale (restakers db) v = true ->
  validate (Validator.set_delegatorCount v
              (delegators_of (restakers db) (Validator.operatorAddress v)))
  = false ->
  updateStatistics validate now db
  = ({| restakers := restakers db;
        validators :=
          List.map
            (fun u =>
               if stale (restakers db) u
               then Validator.pre_save now
                      (Validator.set_delegatorCount u
                         (delegators_of (restakers db)
                            (Validator.operatorAddress u)))
               else u) before ++ v :: after;
        rewards := rewards db |},
     List.map Validator.operatorAddress
       (List.filter (stale (restakers db)) before),
     false).
Proof.
  intros Hvs Hlow Hvalid Hstale Hreject.
  apply Forall_app in Hlow as [Hbefore Hv].
  inversion Hv as [|? ? Hv' _]; subst.
  unfold updateStatistics. rewrite Hvs.
  now rewrite (recount_loop_stops now (restakers db) before v after).
Qed.

End StatisticsEdgeFacts.

Lemma updateStatistics_twice_witness :
  let first :=
    DatabasePopulator.updateStatistics Sample.validate 1700000001000
      Sample.db in
  DatabasePopulator.updateStatistics Sample.validate 1700000002000
    (fst (fst first))
  = (fst (fst first), [], true).
Proof.
  apply (updateStatistics_twice Sample.validate 1700000001000 1700000002000
           Sample.db _ [Sample.operator_a]).
  - repeat constructor.
  - reflexivity.
Defined.

Lemma updateStatistics_stops_at_rejected_witness :
  let '(db', saved, completed) :=
    DatabasePopulator.updateStatistics Sample.validate 1700000001000
      Fixtures.db_with_invalid in
  List.map Validator.delegatorCount (DatabasePopulator.validators db')
  = [2; 5; 7] /\ saved = [Sample.operator_a] /\ completed = false.
Proof.
  rewrite (updateStatistics_stops_at_rejected Sample.validate 1700000001000
             Fixtures.db_with_invalid
             [Sample.validator Sample.operator_a 0]
             (Sample.validator "not-an-address" 5)
             [Sample.validator Sample.operator_b 7]).
  - repeat split.
  - reflexivity.
  - repeat constructor.
  - repeat constructor.
  - reflexivity.
  - reflexivity.
Defined.

(** ** The validator stage followed by the statistics pass *)

Section ValidatorStageFacts.
Import JS DatabasePopulator Reference StageNotions.

Let by_operator (key : string) (d : Validator.doc) : bool :=
  String.eqb (Validator.operatorAddress d) key.

Let counted (rks : list Restaker.doc) (v : DataFetcher.ValidatorData)
    : DataFetcher.ValidatorData :=
  with_delegatorCount v
    (Restaker.countDocuments_by_target rks (DataFetcher.operatorAddress v)).

Lemma lower_ascii_idem c : lower_ascii (lower_ascii c) = lower_ascii c.
Proof. destruct c as [[] [] [] [] [] [] [] []]; reflexivity. Qed.

Lemma toLowerCase_idem s : toLowerCase (toLowerCase s) = toLowerCase s.
Proof.
  induction s as [|c s IH]; [reflexivity|].
  cbn [toLowerCase]. now rewrite lower_ascii_idem, IH.
Qed.

Lemma store_validators_fold now data :
  forall db,
    store_validators now data db
    = {| restakers := restakers db;
         validators :=
           fold_left
             (fun vs v => upsert_validator now (counted (restakers db) v) vs)
             data (validators db);
         rewards := rewards db |}.
Proof.
  unfold store_validators.
  induction data as [|v data IH]; intros db; cbn [fold_left].
  - now destruct db.
  - rewrite IH. reflexivity.
Qed.

Lemma find_upsert_validator_same now v vs key :
  toLowerCase (DataFetcher.operatorAddress v) = key ->
  exists d,
    List.find (by_operator key) (upsert_validator now v vs) = Some d /\
    Validator.delegatorCount d = DataFetcher.delegatorCount v.
Proof.
  intros <-. induction vs as [|old vs IH]; cbn [upsert_validator List.find].
  - unfold by_operator at 1. cbn [Validator.operatorAddress].
    rewrite String.eqb_refl. now eexists.
  - destruct (String.eqb_spec (Validator.operatorAddress old)
                (toLowerCase (DataFetcher.operatorAddress v))) as [Heq|Hne];
      cbn [List.find]; unfold by_operator at 1.
    + cbn [Validator.operatorAddress]. rewrite String.eqb_refl. now eexists.
    + rewrite (proj2 (String.eqb_neq _ _) Hne). exact IH.
Qed.

Lemma find_upsert_validator_other now v vs key :
  toLowerCase (DataFetcher.operatorAddress v) <> key ->
  List.find (by_operator key) (upsert_validator now v vs)
  = List.find (by_operator key) vs.
Proof.
  intros Hne. induction vs as [|old vs IH]; cbn [upsert_validator List.find].
  - unfold by_operator at 1. cbn [Validator.operatorAddress].
    now rewrite (proj2 (String.eqb_neq _ _) Hne).
  - destruct (String.eqb_spec (Validator.operatorAddress old)
                (toLowerCase (DataFetcher.operatorAddress v))) as [Heq|Hne'];
      cbn [List.find]; unfold by_operator at 1 3.
    + cbn [Validator.operatorAddress]. rewrite Heq.
      now rewrite (proj2 (String.eqb_neq _ _) Hne).
    + destruct (String.eqb (Validator.operatorAddress old) key);
        [reflexivity|exact IH].
Qed.

Lemma upsert_validator_keys now v vs :
  List.map Validator.operatorAddress (upsert_validator now v vs)
  = if existsb (String.eqb (toLowerCase (DataFetcher.operatorAddress v)))
         (List.map Validator.operatorAddress vs)
    then List.map Validator.operatorAddress vs
    else List.map Validator.operatorAddress vs
         ++ [toLowerCase (DataFetcher.operatorAddress v)].
Proof.
  induction vs as [|old vs IH]; [reflexivity|].
  cbn [upsert_validator List.map existsb].
  rewrite (String.eqb_sym _ (Validator.operatorAddress old)).
  destruct (String.eqb_spec (Validator.operatorAddress old)
              (toLowerCase (DataFetcher.operatorAddress v))) as [Heq|Hne];
    cbn [orb List.map Validator.operatorAddress].
  - now rewrite Heq.
  - rewrite IH. now destruct (existsb _ _).
Qed.

Lemma upsert_validator_NoDup now v vs :
  NoDup (List.map Validator.operatorAddress vs) ->
  NoDup (List.map Validator.operatorAddress (upsert_validator now v vs)).
Proof.
  intros Hnd. rewrite upsert_validator_keys.
  destruct (existsb _ _) eqn:Hex; [exact Hnd|].
  apply NoDup_app; split; [exact Hnd|]. split.
  - intros x Hx Hin. apply list_elem_of_In in Hx.
    apply list_elem_of_In in Hin. destruct Hin as [<-|[]].
    assert (Htrue :
      existsb (String.eqb (toLowerCase (DataFetcher.operatorAddress v)))
              (List.map Validator.operatorAddress vs) = true).
    { apply existsb_exists. eexists. split; [exact Hx|].
      apply String.eqb_refl. }
    congruence.
  - apply NoDup_singleton.
Qed.

Lemma stored_count_kept now rks data :
  forall vs key c,
    (exists d, List.find (by_operator key) vs = Some d /\
               Validator.delegatorCount d = c) ->
    (forall v, In v data ->
       toLowerCase (DataFetcher.operatorAddress v) = key ->
       Restaker.countDocuments_by_target rks (DataFetcher.operatorAddress v)
       = c) ->
    exists d,
      List.find (by_operator key)
        (fold_left (fun vs v => upsert_validator now (counted rks v) vs)
                   data vs) = Some d /\
      Validator.delegatorCount d = c.
Proof.
  induction data as [|v data IH]; intros vs key c Hgood Hsame;
    cbn [fold_left]; [exact Hgood|].
  apply IH; [|intros v' Hin; apply Hsame; now right].
  destruct (String.eqb_spec (toLowerCase (DataFetcher.operatorAddress v)) key)
    as [Heq|Hne].
  - destruct (find_upsert_validator_same now (counted rks v) vs key Heq)
      as (d & Hfind & Hcount).
    exists d. split; [exact Hfind|]. rewrite Hcount. cbn.
    apply Hsame; [now left|exact Heq].
  - now rewrite (find_upsert_validator_other now (counted rks v) vs key Hne).
Qed.

Lemma stored_counts now rks data :
  forall vs v,
    In v data ->
    exists d,
      List.find (by_operator (toLowerCase (DataFetcher.operatorAddress v)))
        (fold_left (fun vs v => upsert_validator now (counted rks v) vs)
                   data vs) = Some d /\
      Validator.delegatorCount d
      = delegators_of rks (toLowerCase (DataFetcher.operatorAddress v)).
Proof.
  induction data as [|x data IH]; intros vs v Hin; [destruct Hin|].
  cbn [fold_left]. destruct Hin as [->|Hin]; [|now apply IH].
  apply stored_count_kept.
  - destruct (find_upsert_validator_same now (counted rks v) vs _ eq_refl)
      as (d & Hfind & Hcount).
    exists d. split; [exact Hfind|]. rewrite Hcount. reflexivity.
  - intros v' _ Hkey. unfold Restaker.countDocuments_by_target, delegators_of.
    now rewrite Hkey.
Qed.

Lemma stored_NoDup now rks data :
  forall vs,
    NoDup (List.map Validator.operatorAddress vs) ->
    NoDup (List.map Validator.operatorAddress
             (fold_left (fun vs v => upsert_validator now (counted rks v) vs)
                        data vs)).
Proof.
  induction data as [|v data IH]; intros vs Hnd; [exact Hnd|].
  cbn [fold_left]. apply IH. now apply upsert_validator_NoDup.
Qed.

Lemma recount_loop_saved_stale validate now rks vs key :
  In key (rc_saved (recount_loop validate now rks vs)) ->
  exists d,
    In d vs /\ Validator.operatorAddress d = key /\
    Validator.delegatorCount d
    <> Restaker.countDocuments_by_target rks (Validator.operatorAddress d).
Proof.
  induction vs as [|x vs IH]; cbn [recount_loop rc_saved]; [intros []|].
  destruct (Z.eqb_spec (Validator.delegatorCount x)
              (Restaker.countDocuments_by_target rks
                 (Validator.operatorAddress x))) as [Heq|Hne];
    cbn [negb].
  - cbn [rc_saved]. intros Hin. destruct (IH Hin) as (d & Hd & Hk & Hc).
    exists d. split; [now right|now split].
  - destruct (validate _); cbn [rc_saved]; [|intros []].
    intros [<-|Hin].
    + exists x. split; [now left|now split].
    + destruct (IH Hin) as (d & Hd & Hk & Hc).
      exists d. split; [now right|now split].
Qed.

Lemma find_unique vs d :
  NoDup (List.map Validator.operatorAddress vs) -> In d vs ->
  List.find (by_operator (Validator.operatorAddress d)) vs = Some d.
Proof.
  induction vs as [|x vs IH]; intros Hnd Hin; [destruct Hin|].
  cbn [List.map] in Hnd. apply NoDup_cons in Hnd as [Hx Hnd].
  cbn [List.find]. unfold by_operator at 1.
  destruct Hin as [->|Hin]; [now rewrite String.eqb_refl|].
  destruct (String.eqb_spec (Validator.operatorAddress x)
              (Validator.operatorAddress d)) as [Heq|Hne]; [|now apply IH].
  exfalso. apply Hx. rewrite Heq. apply list_elem_of_In.
  now apply in_map.
Qed.

(** The validator stage stores with every validator of the batch the
    number of restakers that delegate to it at that moment, whatever count
    the record carried, and leaves the restakers and the rewards alone.
    Hence a statistics pass that follows saves none of the validators of
    the batch, whatever the outcome of the pass.  The records are those
    that Mongoose accepts, and the collection has no two documents of one
    operator, as its unique index ensures. *)
Theorem populateValidators_counts_fresh validate now now' validatorData db :
  NoDup (List.map Validator.operatorAddress (validators db)) ->
  forallb castable validatorData = true ->
  let db1 := store_validators now validatorData db in
  restakers db1 = restakers db /\
  rewards db1 = rewards db /\
  NoDup (List.map Validator.operatorAddress (validators db1)) /\
  forall v,
    In v validatorData ->
    (exists d,
       ValidatorMethods.findByOperatorAddress (validators db1)
         (DataFetcher.operatorAddress v) = Some d /\
       Validator.delegatorCount d
       = delegators_of (restakers db)
           (toLowerCase (DataFetcher.operatorAddress v))) /\
    ~ In (toLowerCase (DataFetcher.operatorAddress v))
         (snd (fst (updateStatistics validate now' db1))).
Proof.
  intros Hnd _ db1. subst db1. rewrite store_validators_fold.
  cbn [restakers validators rewards].
  pose proof (stored_NoDup now (restakers db) validatorData _ Hnd) as Hnd1.
  split; [reflexivity|]. split; [reflexivity|]. split; [exact Hnd1|].
  intros v Hin.
  destruct (stored_counts now (restakers db) validatorData (validators db)
              v Hin) as (d & Hfind & Hcount).
  split; [now exists d|].
  unfold updateStatistics. cbn [restakers validators fst snd].
  intros Hsaved.
  destruct (recount_loop_saved_stale _ _ _ _ _ Hsaved)
    as (d' & Hd' & Hkey & Hdiff).
  pose proof (find_unique _ d' Hnd1 Hd') as Hfind'.
  rewrite Hkey, Hfind in Hfind'. injection Hfind' as <-.
  apply Hdiff. rewrite Hcount, Hkey.
  unfold Restaker.countDocuments_by_target, delegators_of.
  now rewrite toLowerCase_idem.
Qed.

End ValidatorStageFacts.

Lemma populateValidators_counts_fresh_witness :
  let db1 :=
    DatabasePopulator.store_validators 1700000000500
      [Fixtures.validator_record Sample.operator_a] Sample.db in
  (exists d,
     ValidatorMethods.findByOperatorAddress
       (DatabasePopulator.validators db1) Sample.operator_a = Some d /\
     Validator.delegatorCount d = 2) /\
  ~ In Sample.operator_a
       (snd (fst (DatabasePopulator.updateStatistics Sample.validate
                    1700000001000 db1))).
Proof.
  intros db1.
  destruct (populateValidators_counts_fresh Sample.validate 1700000000500
              1700000001000 [Fixtures.validator_record Sample.operator_a]
              Sample.db) as (_ & _ & _ & Hbatch).
  - apply NoDup_cons. split; [|apply NoDup_singleton].
    intros H. apply list_elem_of_In in H. vm_compute in H.
    destruct H as [H|[]]. discriminate.
  - reflexivity.
  - exact (Hbatch (Fixtures.validator_record Sample.operator_a)
             (or_introl eq_refl)).
Defined.

(** ** Stored amounts converted back to base units *)

Section BaseUnitFacts.
Import JS Web3Utils.

Lemma strip_leading_zeros_split ds :
  exists k, ds = repeat "0"%char k ++ strip_leading_zeros ds.
Proof.
  induction ds as [|c ds [k IH]]; [now exists O|].
  cbn [strip_leading_zeros].
  destruct (Ascii.eqb_spec c "0"%char) as [->|_]; [|now exists O].
  exists (S k). cbn [repeat app]. now rewrite <- IH.
Qed.

Lemma strip_trailing_zeros_split ds :
  exists k, ds = strip_trailing_zeros ds ++ repeat "0"%char k.
Proof.
  destruct (strip_leading_zeros_split (rev ds)) as [k Hk].
  exists k. unfold strip_trailing_zeros.
  rewrite <- (rev_involutive ds) at 1.
  rewrite Hk at 1. now rewrite rev_app_distr, rev_repeat.
Qed.

Lemma forallb_zeros k : forallb is_digit (repeat "0"%char k) = true.
Proof. induction k; [reflexivity|assumption]. Qed.

Lemma toWei_fromWei cs :
  cs <> [] -> forallb is_digit cs = true ->
  exists c,
    Web3Utils.fromWei (Some (string_of_list_ascii cs)) = Ok c /\
    Web3Utils.toWei (Some c)
    = Ok (string_of_list_ascii (digits_of (numeral cs))).
Proof.
  intros Hne Hcs.
  pose proof (numeral_bounds cs Hcs) as [Hn _].
  set (n := numeral cs) in *.
  assert (Hpow : 0 < 10 ^ 18) by reflexivity.
  pose proof (Z.div_pos n (10 ^ 18) Hn Hpow) as Hq.
  pose proof (Z.mod_pos_bound n (10 ^ 18) Hpow) as Hr.
  pose proof (Z.div_mod n (10 ^ 18) ltac:(lia)) as Hdm.
  destruct (digits_of_spec (n / 10 ^ 18) Hq) as (Hinum & Hidig & Hine).
  set (i := digits_of (n / 10 ^ 18)) in *.
  set (F := digits_fixed 18 (n mod 10 ^ 18)).
  destruct (strip_trailing_zeros_split F) as [k HF].
  set (f := strip_trailing_zeros F) in *.
  assert (HFdig : forallb is_digit F = true) by apply digits_fixed_digits.
  assert (HFlen : List.length F = 18%nat) by apply digits_fixed_length.
  assert (HFnum : numeral F = n mod 10 ^ 18).
  { unfold F. rewrite numeral_digits_fixed by lia.
    change (Z.of_nat 18) with 18. apply Z.mod_small. exact Hr. }
  assert (Hfdig : forallb is_digit f = true).
  { rewrite HF, forallb_app in HFdig. now apply andb_prop in HFdig. }
  assert (Hk : k = (18 - List.length f)%nat).
  { rewrite HF, length_app, repeat_length in HFlen. lia. }
  assert (Hflen : (List.length f <= 18)%nat).
  { rewrite HF, length_app, repeat_length in HFlen. lia. }
  assert (Hfnum : numeral f * 10 ^ Z.of_nat (18 - List.length f)
                  = n mod 10 ^ 18).
  { rewrite <- HFnum, HF, numeral_app, repeat_length, numeral_zeros, <- Hk.
    lia. }
  destruct (split_point_digits i Hidig) as [Hint Hfrac].
  assert (Hfrom :
    Web3Utils.fromWei (Some (string_of_list_ascii cs))
    = Ok (string_of_list_ascii
            match f with [] => i | _ => i ++ "."%char :: f end)).
  { unfold Web3Utils.fromWei. cbv zeta.
    rewrite list_ascii_of_string_of_list_ascii, Hcs.
    destruct cs as [|c0 r0]; [contradiction|reflexivity]. }
  eexists. split; [exact Hfrom|].
  unfold Web3Utils.toWei. rewrite list_ascii_of_string_of_list_ascii.
  assert (Hilen : negb (Nat.eqb (List.length i) 0) = true)
    by (destruct i; [contradiction|reflexivity]).
  destruct f as [|cf rf] eqn:Hf.
  - rewrite Hint. cbn [default from_option]. rewrite Hilen, Hidig.
    cbn [andb forallb List.length Nat.leb]. do 3 f_equal.
    unfold ether_decimals. change (Z.of_nat 18) with 18.
    cbn [List.length] in Hfnum. change (Z.of_nat (18 - 0)) with 18 in Hfnum.
    rewrite Hinum. change (Z.of_nat (18 - 0)) with 18. lia.
  - rewrite Hfrac. cbn [default from_option]. unfold id.
    rewrite Hilen, Hidig, Hfdig. unfold ether_decimals.
    rewrite (proj2 (Nat.leb_le _ _) Hflen). cbn [andb]. do 3 f_equal.
    change (Z.of_nat 18) with 18. rewrite Hinum. lia.
Qed.

(** The amount of a stored restaker converts back to the shares it was
    made from.  When a delegation event is normalised and its record
    stored, [getAmountInWei] on the document returns the decimal numeral
    of the event's shares: the very string when it has no leading zero. *)
Theorem getAmountInWei_restores_shares d r doc :
  DataFetcher.transform_delegation d = Ok r ->
  RestakerStage.cast_restaker r = Some doc ->
  exists cs,
    DataFetcher.d_shares d = Some (string_of_list_ascii cs) /\
    RestakerMethods.getAmountInWei doc
    = Ok (string_of_list_ascii (digits_of (numeral cs))) /\
    (Reference.canonical cs ->
     RestakerMethods.getAmountInWei doc = Ok (string_of_list_ascii cs)).
Proof.
  unfold DataFetcher.transform_delegation. intros Hr Hdoc.
  destruct (DataFetcher.d_shares d) as [shares|] eqn:Hshares;
    [|discriminate].
  destruct (Web3Utils.fromWei (Some shares)) as [amount|] eqn:Hfrom;
    [|discriminate].
  destruct (DataFetcher.d_delegator d); [|discriminate].
  destruct (DataFetcher.d_operator d); [|discriminate].
  cbn [bind deref] in Hr. injection Hr as <-.
  unfold RestakerStage.cast_restaker in Hdoc.
  cbn [DataFetcher.delegationTimestamp DataFetcher.blockNumber
       DataFetcher.amountRestakedStETH] in Hdoc.
  assert (Hamount : Restaker.amountRestakedStETH doc = amount).
  { destruct (new_Date _); [|discriminate].
    destruct (parseInt _); try discriminate; now injection Hdoc as <-. }
  exists (list_ascii_of_string shares).
  rewrite string_of_list_ascii_of_string. split; [reflexivity|].
  assert (Hnumeric :
    list_ascii_of_string shares <> [] /\
    forallb is_digit (list_ascii_of_string shares) = true).
  { unfold Web3Utils.fromWei in Hfrom. cbv zeta in Hfrom.
    destruct (list_ascii_of_string shares); [discriminate|].
    split; [discriminate|].
    cbn [List.length Nat.eqb negb andb] in Hfrom.
    now destruct (forallb is_digit (a :: l)). }
  destruct Hnumeric as [Hne Hdig].
  destruct (toWei_fromWei _ Hne Hdig) as (c & Hc & Hto).
  rewrite string_of_list_ascii_of_string, Hfrom in Hc. injection Hc as <-.
  unfold RestakerMethods.getAmountInWei. rewrite Hamount.
  split; [exact Hto|].
  intros Hcan.
  now rewrite Hto, (digits_of_canonical _ Hcan),
    string_of_list_ascii_of_string.
Qed.

End BaseUnitFacts.

Lemma getAmountInWei_restores_shares_witness :
  RestakerMethods.getAmountInWei
    (Sample.restaker Sample.wallet_1 Sample.operator_a)
  = JS.Ok "1500000000000000000"%string.
Proof.
  destruct (getAmountInWei_restores_shares
              (Sample.delegation Sample.wallet_1 "1500000000000000000")
              (Fixtures.restaker_record Sample.wallet_1 "1.5")
              (Sample.restaker Sample.wallet_1 Sample.operator_a))
    as (cs & Hcs & _ & Hexact).
  - vm_compute. reflexivity.
  - vm_compute. reflexivity.
  - cbn [Sample.delegation DataFetcher.d_shares] in Hcs.
    injection Hcs as Hcs.
    assert (Hcs' : cs = list_ascii_of_string "1500000000000000000").
    { rewrite Hcs. symmetry. apply list_ascii_of_string_of_list_ascii. }
    subst cs. apply Hexact. split; [reflexivity|].
    right. eexists _, _. split; [reflexivity|discriminate].
Defined.

Lemma retryOperation_undefined_iff_witness :
  Retry.retryOperation Retry.flaky 0 5000 O
  = Retry.Run Retry.ReturnedUndefined O [].
Proof.
  apply (retryOperation_undefined_iff Retry.flaky 0 5000 O). lia.
Defined.
